(** * GasKinetics: homogeneous kinetics in ideal gases

    A shallow embedding of [src/kinetics/GasKinetics.cpp].  A [double] is a
    binary64 primitive float, so [+], [-], [*], [/] and the comparisons are the
    IEEE operations the C++ code performs; a [vector_fp] is a list of floats;
    the [GasKinetics] object is a record that every member function takes and
    returns; a C++ exception is the [Throw] outcome, returned together with
    the object as it stood at the throw. *)

From Stdlib Require Import Floats ZArith List String Lia Bool.
From stdpp Require Import base list strings pretty gmap.
From coqutil Require Import Datatypes.RecordSetters.
Import TriangleBracketNotations.
Set Warnings "-inexact-float".
Local Open Scope float_scope.

(** ** Vectors of doubles *)

Abbreviation vector_fp := (list float).

#[global] Instance float_inhabited : Inhabited float := populate 0.

(** [v !!! i] is [v[i]]; [<[i:=x]> v] is [v[i] = x].  Indexing past the end
    is undefined behaviour in the source: the model reads 0 and writes
    nothing there, and the theorems below assume indices in range. *)

(** [std::copy(src.begin(), src.end(), dst)], where [dst] points at the start
    of a vector: the copy overwrites a prefix and cannot change the size of
    the destination (writing past its end is undefined behaviour in the
    source; the model stops at the end). *)
Definition std_copy (src dst : vector_fp) : vector_fp :=
  take (length dst) src ++ drop (length src) dst.

(** A callee that receives [v.data()] works on the array in place: whatever
    it computes, the vector keeps its size. *)
Definition in_place (f : vector_fp → vector_fp) (v : vector_fp) : vector_fp :=
  std_copy (f v) v.

(** [std::fill(v.begin(), v.end(), x)]. *)
Definition std_fill (v : vector_fp) (x : float) : vector_fp :=
  replicate (length v) x.

(** [std::min(a, b)], that is [(b < a) ? b : a]. *)
Definition std_min (a b : float) : float := if b <? a then b else a.

(** [v.empty()]. *)
Definition empty {A} (v : list A) : bool :=
  match v with [] => true | _ => false end.

(** [a != b] on doubles. *)
Definition fne (a b : float) : bool := negb (a =? b).

(** [for (size_t i = 0; i < n; i++) body]. *)
Definition for_loop {S : Type} (n : nat) (body : nat → S → S) (s : S) : S :=
  foldl (λ s i, body i s) s (seq 0 n).

(** The two shapes the loops over vectors take: [v[i] = h i v[i]] for every
    [i] below a bound, and [v[x] = g x v[x]] for every [x] of an index list. *)
Definition elementwise_body (h : nat → float → float) (i : nat) (v : vector_fp)
  : vector_fp := <[i := h i (v !!! i)]> v.

Definition scatter_body (g : nat → float → float) (v : vector_fp) (x : nat)
  : vector_fp := <[x := g x (v !!! x)]> v.

(** Eigen's element-wise [a + b] and [a - b] on dense vectors. *)
Definition vec_add (a b : vector_fp) : vector_fp := zip_with PrimFloat.add a b.
Definition vec_sub (a b : vector_fp) : vector_fp := zip_with PrimFloat.sub a b.

(** ** Exceptions *)

Inductive CanteraError : Type :=
  | CanteraError_ (procedure msg : string)
  | NotImplementedError (procedure msg : string).

Inductive outcome (A : Type) : Type :=
  | Normal (a : A)
  | Throw (e : CanteraError).
Arguments Normal {A} a.
Arguments Throw {A} e.

(** ** Collaborators

    Everything [GasKinetics.cpp] calls but does not define: the C math
    library, the constants of [ct_defs.h], the thermodynamic state provider,
    the rate-coefficient managers, the falloff manager, the third-body
    calculators, the stoichiometry managers, the [MultiRate] evaluators and
    the option bag. *)

Class Collaborators : Type := {
  exp : float → float;
  log : float → float;
  log10 : float → float;
  BigNumber : float;
  SmallNumber : float;
  (* ThermoPhase *)
  ThermoPhase : Type;
  temperature : ThermoPhase → float;
  pressure : ThermoPhase → float;
  molarDensity : ThermoPhase → float;
  standardConcentration : ThermoPhase → float;
  RT : ThermoPhase → float;
  thermo_type : ThermoPhase → string;
  getActivityConcentrations : ThermoPhase → vector_fp;
  getConcentrations : ThermoPhase → vector_fp;
  getStandardChemPotentials : ThermoPhase → vector_fp;
  setState_TP : ThermoPhase → float → float → ThermoPhase;
  (* Rate1<R>: a rate-coefficient manager for one legacy rate type *)
  RateExpr : Type;
  Rate1 : Type;
  Rate1_nReactions : Rate1 → nat;
  Rate1_update : Rate1 → float → float → vector_fp → vector_fp;
  Rate1_update_C : Rate1 → float → Rate1;
  Rate1_install : Rate1 → nat → RateExpr → Rate1;
  Rate1_replace : Rate1 → nat → RateExpr → Rate1;
  (* FalloffMgr *)
  FalloffFn : Type;
  FalloffMgr : Type;
  FalloffMgr_updateTemp : FalloffMgr → float → vector_fp → vector_fp;
  FalloffMgr_pr_to_falloff : FalloffMgr → vector_fp → vector_fp → vector_fp;
  FalloffMgr_install : FalloffMgr → nat → string → FalloffFn → FalloffMgr;
  FalloffMgr_replace : FalloffMgr → nat → FalloffFn → FalloffMgr;
  FalloffMgr_workSize : FalloffMgr → nat;
  (* ThirdBodyCalc (legacy) and the batched third-body calculator *)
  ThirdBodyCalc : Type;
  ThirdBodyCalc_update : ThirdBodyCalc → vector_fp → float → vector_fp → vector_fp;
  ThirdBodyCalc_copy : ThirdBodyCalc → vector_fp → vector_fp → vector_fp;
  ThirdBodyCalc_multiply : ThirdBodyCalc → vector_fp → vector_fp → vector_fp;
  ThirdBodyCalc_install :
    ThirdBodyCalc → nat → gmap nat float → float → option nat → ThirdBodyCalc;
  ThirdBodyCalc_workSize : ThirdBodyCalc → nat;
  MultiThirdBody : Type;
  MultiThirdBody_update : MultiThirdBody → vector_fp → float → vector_fp → vector_fp;
  MultiThirdBody_multiply : MultiThirdBody → vector_fp → vector_fp → vector_fp;
  MultiThirdBody_scaleOrder : MultiThirdBody → vector_fp → vector_fp → vector_fp;
  (* StoichManagerN and Eigen's sparse matrices *)
  SparseMatrix : Type;
  SparseMatrix_add : SparseMatrix → SparseMatrix → SparseMatrix;
  SparseMatrix_sub : SparseMatrix → SparseMatrix → SparseMatrix;
  StoichManagerN : Type;
  StoichManagerN_multiply : StoichManagerN → vector_fp → vector_fp → vector_fp;
  StoichManagerN_scale : StoichManagerN → vector_fp → vector_fp → vector_fp;
  StoichManagerN_jacobian : StoichManagerN → vector_fp → vector_fp → SparseMatrix;
  MultiThirdBody_jacobian : MultiThirdBody → vector_fp → SparseMatrix;
  (* MultiRateBase *)
  MultiRate : Type;
  MultiRate_getRateConstants : MultiRate → vector_fp → vector_fp;
  MultiRate_processRateConstants_ddT :
    MultiRate → vector_fp → vector_fp → float → vector_fp;
  MultiRate_processRateConstants_ddM :
    MultiRate → vector_fp → vector_fp → float → vector_fp;
  (* AnyMap *)
  AnyMap : Type;
  AnyMap_new : AnyMap;
  AnyMap_empty : AnyMap → bool;
  hasKey : AnyMap → string → bool;
  getBool : AnyMap → string → bool → bool;
  getDouble : AnyMap → string → float → float;
  setBool : AnyMap → string → bool → AnyMap;
  setDouble : AnyMap → string → float → AnyMap;
}.

Section GasKinetics.
Context {collab : Collaborators}.

(** ** Reactions *)

Record ThirdBody : Type := {
  efficiencies : list (string * float);
  default_efficiency : float;
}.

Record Reaction : Type := {
  type : string;
  usesLegacy : bool;
  reversible : bool;
  rate : RateExpr;
  high_rate : RateExpr;
  low_rate : RateExpr;
  third_body : ThirdBody;
  falloff : FalloffFn;
}.

(** ** The object *)

#[projections(primitive)]
Record GasKinetics : Type := {
  thermo : ThermoPhase;
  m_reactions : list Reaction;
  (* cache sentinels and flags *)
  m_temp : float;
  m_pres : float;
  m_logStandConc : float;
  m_ROP_ok : bool;
  (* per-reaction caches *)
  m_rfn : vector_fp;
  m_rkcn : vector_fp;
  m_ropf : vector_fp;
  m_ropr : vector_fp;
  m_ropnet : vector_fp;
  m_dn : vector_fp;
  m_perturb : vector_fp;
  m_concm : vector_fp;
  m_rbuf0 : vector_fp;
  m_rbuf1 : vector_fp;
  m_rbuf2 : vector_fp;
  (* per-species caches *)
  m_grt : vector_fp;
  m_act_conc : vector_fp;
  m_phys_conc : vector_fp;
  (* index vectors *)
  m_revindex : list nat;
  m_irrev : list nat;
  m_legacy : list nat;
  (* legacy evaluators and their work arrays *)
  m_rates : Rate1;
  m_falloff_low_rates : Rate1;
  m_falloff_high_rates : Rate1;
  m_plog_rates : Rate1;
  m_cheb_rates : Rate1;
  m_rfn_low : vector_fp;
  m_rfn_high : vector_fp;
  m_fallindx : list nat;
  m_rfallindx : gmap nat nat;
  m_falloffn : FalloffMgr;
  falloff_work : vector_fp;
  m_3b_concm : ThirdBodyCalc;
  concm_3b_values : vector_fp;
  m_falloff_concm : ThirdBodyCalc;
  concm_falloff_values : vector_fp;
  (* evaluators shared with BulkKinetics *)
  m_multi_concm : MultiThirdBody;
  m_bulk_rates : list MultiRate;
  m_reactantStoich : StoichManagerN;
  m_revProductStoich : StoichManagerN;
  (* Jacobian settings *)
  m_jac_const_pressure : bool;
  m_jac_mole_fractions : bool;
  m_jac_skip_third_bodies : bool;
  m_jac_skip_falloff : bool;
  m_jac_rtol_deltaT : float;
  m_jac_atol_deltaT : float;
}.

(** [Kinetics::nReactions()] and [Kinetics::reactionTypeStr(i)]. *)
Definition nReactions (k : GasKinetics) : nat := length (m_reactions k).

Definition reactionTypeStr (k : GasKinetics) (i : nat) : string :=
  match m_reactions k !! i with
  | Some r => type r
  | None => EmptyString
  end.

(** The state-and-exception monad of the member functions that can throw. *)
Definition M (A : Type) : Type := GasKinetics → GasKinetics * outcome A.

Definition ret {A} (a : A) : M A := λ k, (k, Normal a).
Definition throw {A} (e : CanteraError) : M A := λ k, (k, Throw e).
Definition bind {A B} (m : M A) (f : A → M B) : M B :=
  λ k, match m k with
       | (k', Normal a) => f a k'
       | (k', Throw e) => (k', Throw e)
       end.
Definition modify (f : GasKinetics → GasKinetics) : M unit :=
  λ k, (f k, Normal tt).
Definition gets {A} (f : GasKinetics → A) : M A := λ k, (k, Normal (f k)).

Notation "'let*' x := m 'in' f" := (bind m (λ x, f))
  (at level 10, x name, m at level 100, f at level 200).
Notation "m >>> f" := (bind m (λ _, f))
  (at level 90, right associativity).

(** [for (size_t i = 0; i < n; i++) body] where the body can throw. *)
Fixpoint forM_ (idxs : list nat) (body : nat → M unit) : M unit :=
  match idxs with
  | [] => ret tt
  | i :: rest => body i >>> forM_ rest body
  end.

(** The rest of the [Kinetics] and [BulkKinetics] base classes. *)
Class BaseKinetics : Type := {
  getReactionDelta : GasKinetics → vector_fp → vector_fp → vector_fp;
  getRevReactionDelta : GasKinetics → vector_fp → vector_fp → vector_fp;
  kineticsSpeciesIndex : GasKinetics → string → option nat;
  MultiRate_update : MultiRate → ThermoPhase → GasKinetics → MultiRate * bool;
  BulkKinetics_resizeReactions : GasKinetics → GasKinetics;
  BulkKinetics_addReaction : Reaction → bool → M bool;
  BulkKinetics_modifyReaction : nat → Reaction → M unit;
  addElementaryReaction : Reaction → GasKinetics → GasKinetics;
  modifyElementaryReaction : nat → Reaction → GasKinetics → GasKinetics;
  legacy_rate_constants_used : bool;
}.
Context {base : BaseKinetics}.

(** Modelled from the spec: the macro [AssertFinite(expr, procedure, fmt, i)]
    of [ctexceptions.h], which is not part of this file.  A value that is not
    finite is a fatal error; the message is the format string with the index
    substituted. *)
Definition not_finite_message (vec : string) (i : nat) : string :=
  vec +:+ "[" +:+ pretty i +:+ "] is not finite.".

Definition AssertFinite (x : float) (procedure vec : string) (i : nat) : M unit :=
  if is_finite x then ret tt
  else throw (CanteraError_ procedure (not_finite_message vec i)).

(** ** Well-formed objects

    What [Kinetics::addReaction] and [BulkKinetics::addReaction] maintain:
    a reversible reaction is listed once in [m_revindex] and not in
    [m_irrev], an irreversible one is listed in [m_irrev]. *)
Definition reversibility_indexed (k : GasKinetics) : Prop :=
  NoDup (m_revindex k) ∧
  ∀ i r, m_reactions k !! i = Some r →
    if reversible r then i ∈ m_revindex k ∧ i ∉ m_irrev k else i ∈ m_irrev k.

(** ** Temperature- and concentration-dependent updates *)

Definition updateKc (k : GasKinetics) : GasKinetics :=
  let k := k<|m_grt ::= std_copy (getStandardChemPotentials (thermo k))|> in
  let k := k<|m_rkcn := std_fill (m_rkcn k) 0|> in
  (* compute Delta G^0 for all reversible reactions *)
  let k := k<|m_rkcn ::= in_place (getRevReactionDelta k (m_grt k))|> in
  let rrt := 1 / RT (thermo k) in
  let rkcn :=
    for_loop (length (m_revindex k)) (λ i rkcn,
      let irxn := m_revindex k !!! i in
      <[irxn := std_min (exp (rkcn !!! irxn * rrt
                              - m_dn k !!! irxn * m_logStandConc k))
                        BigNumber]> rkcn) (m_rkcn k) in
  let rkcn :=
    for_loop (length (m_irrev k)) (λ i rkcn,
      <[m_irrev k !!! i := 0]> rkcn) rkcn in
  k<|m_rkcn := rkcn|>.

(** The body of [if (T != m_temp) { ... }] in [update_rates_T]. *)
Definition update_rates_T_changed (T logT : float) (k : GasKinetics) : GasKinetics :=
  (* Update forward rate constant for each reaction *)
  let k := if negb (empty (m_rfn k))
           then k<|m_rfn ::= in_place (Rate1_update (m_rates k) T logT)|> else k in
  (* Falloff reactions (legacy) *)
  let k := if negb (empty (m_rfn_low k))
           then k<|m_rfn_low ::= in_place (Rate1_update (m_falloff_low_rates k) T logT)|>
                 <|m_rfn_high ::= in_place (Rate1_update (m_falloff_high_rates k) T logT)|>
           else k in
  let k := if negb (empty (falloff_work k))
           then k<|falloff_work ::= in_place (FalloffMgr_updateTemp (m_falloffn k) T)|>
           else k in
  let k := updateKc k in
  k<|m_ROP_ok := false|>.

(** One turn of [for (auto& rates : m_bulk_rates)]. *)
Definition update_bulk_rate (i : nat) (k : GasKinetics) : GasKinetics :=
  match m_bulk_rates k !! i with
  | None => k
  | Some rates =>
      let '(rates', changed) := MultiRate_update rates (thermo k) k in
      let k := k<|m_bulk_rates ::= <[i := rates']>|> in
      if changed : bool
      then k<|m_rfn ::= in_place (MultiRate_getRateConstants rates')|><|m_ROP_ok := false|>
      else k
  end.

(** The body of [if (T != m_temp || P != m_pres) { ... }]. *)
Definition update_rates_TP_changed (T logT : float) (k : GasKinetics) : GasKinetics :=
  (* P-log reactions (legacy) *)
  let k := if negb (Nat.eqb (Rate1_nReactions (m_plog_rates k)) 0)
           then k<|m_rfn ::= in_place (Rate1_update (m_plog_rates k) T logT)|>
                 <|m_ROP_ok := false|>
           else k in
  (* Chebyshev reactions (legacy) *)
  if negb (Nat.eqb (Rate1_nReactions (m_cheb_rates k)) 0)
  then k<|m_rfn ::= in_place (Rate1_update (m_cheb_rates k) T logT)|><|m_ROP_ok := false|>
  else k.

(** [for (auto& rates : m_bulk_rates) { ... }]. *)
Definition update_bulk_rates (k : GasKinetics) : GasKinetics :=
  for_loop (length (m_bulk_rates k)) update_bulk_rate k.

(** Every evaluator of [rates] is what an update at the state [th], with the
    third-body concentrations [c], has left. *)
Definition evaluated_at (th : ThermoPhase) (c : vector_fp) (rates : list MultiRate) : Prop :=
  ∀ i r, rates !! i = Some r →
    ∃ r0 s, m_concm s = c ∧ r = (MultiRate_update r0 th s).1.

Definition update_rates_T (k : GasKinetics) : GasKinetics :=
  let T := temperature (thermo k) in
  let P := pressure (thermo k) in
  let k := k<|m_logStandConc := log (standardConcentration (thermo k))|> in
  let logT := log T in
  let k := if fne T (m_temp k) then update_rates_T_changed T logT k else k in
  (* loop over MultiBulkRate evaluators for each reaction type *)
  let k := update_bulk_rates k in
  let k := if fne T (m_temp k) || fne P (m_pres k)
           then update_rates_TP_changed T logT k else k in
  k<|m_pres := P|><|m_temp := T|>.

(** The three ways through [update_rates_T], by which of its two guards
    hold: everything is recomputed; only the pressure-dependent legacy rates
    are; no legacy evaluator runs. *)
Definition update_rates_T_full (k : GasKinetics) : GasKinetics :=
  let T := temperature (thermo k) in
  let k := k<|m_logStandConc := log (standardConcentration (thermo k))|> in
  let k := update_rates_T_changed T (log T) k in
  let k := update_bulk_rates k in
  let k := update_rates_TP_changed T (log T) k in
  k<|m_pres := pressure (thermo k)|><|m_temp := T|>.

Definition update_rates_T_pressure_only (k : GasKinetics) : GasKinetics :=
  let T := temperature (thermo k) in
  let k := k<|m_logStandConc := log (standardConcentration (thermo k))|> in
  let k := update_bulk_rates k in
  let k := update_rates_TP_changed T (log T) k in
  k<|m_pres := pressure (thermo k)|><|m_temp := T|>.

Definition update_rates_T_hit (k : GasKinetics) : GasKinetics :=
  let k := k<|m_logStandConc := log (standardConcentration (thermo k))|> in
  let k := update_bulk_rates k in
  k<|m_pres := pressure (thermo k)|><|m_temp := temperature (thermo k)|>.

(** The legacy third-body block of [update_rates_C], for the three-body and
    for the falloff calculator: unless the work array is empty, the
    calculator fills it and copies it into [m_concm]. *)
Definition update_legacy_concm (calc : ThirdBodyCalc) (phys_conc : vector_fp)
    (ctot : float) (work concm : vector_fp) : vector_fp * vector_fp :=
  if negb (empty work)
  then
    let work := in_place (ThirdBodyCalc_update calc phys_conc ctot) work in
    (work, in_place (ThirdBodyCalc_copy calc work) concm)
  else (work, concm).

(** The [update_C] block of [update_rates_C], for the P-log and for the
    Chebyshev manager. *)
Definition update_C_if_any (rates : Rate1) (x : float) : Rate1 :=
  if negb (Nat.eqb (Rate1_nReactions rates) 0) then Rate1_update_C rates x else rates.

Definition update_rates_C (k : GasKinetics) : GasKinetics :=
  let k := k<|m_act_conc ::= std_copy (getActivityConcentrations (thermo k))|> in
  let k := k<|m_phys_conc ::= std_copy (getConcentrations (thermo k))|> in
  let ctot := molarDensity (thermo k) in
  (* Third-body objects interacting with MultiRate evaluator *)
  let k := k<|m_concm ::=
             in_place (MultiThirdBody_update (m_multi_concm k) (m_phys_conc k) ctot)|> in
  (* 3-body reactions (legacy) *)
  let wc := update_legacy_concm (m_3b_concm k) (m_phys_conc k) ctot
              (concm_3b_values k) (m_concm k) in
  let k := k<|concm_3b_values := wc.1|><|m_concm := wc.2|> in
  (* Falloff reactions (legacy) *)
  let wc := update_legacy_concm (m_falloff_concm k) (m_phys_conc k) ctot
              (concm_falloff_values k) (m_concm k) in
  let k := k<|concm_falloff_values := wc.1|><|m_concm := wc.2|> in
  (* P-log reactions (legacy) *)
  let k := k<|m_plog_rates ::= λ r, update_C_if_any r (log (pressure (thermo k)))|> in
  (* Chebyshev reactions (legacy) *)
  let k := k<|m_cheb_rates ::= λ r, update_C_if_any r (log10 (pressure (thermo k)))|> in
  k<|m_ROP_ok := false|>.

(** The three vectors the third-body blocks of [update_rates_C] produce, from
    the calculators, the concentrations and the three vectors before. *)
Definition concm_pass (multi : MultiThirdBody) (calc3b calcfall : ThirdBodyCalc)
    (phys_conc : vector_fp) (ctot : float) (x : vector_fp * vector_fp * vector_fp)
  : vector_fp * vector_fp * vector_fp :=
  let '(work3b, workfall, concm) := x in
  let concm := in_place (MultiThirdBody_update multi phys_conc ctot) concm in
  let wc3b := update_legacy_concm calc3b phys_conc ctot work3b concm in
  let wcfall := update_legacy_concm calcfall phys_conc ctot workfall wc3b.2 in
  (wc3b.1, wcfall.1, wcfall.2).

(** A writer of fixed entries: it stores fixed values at fixed positions,
    whatever the array holds. *)
Definition overwrite (ws : list (nat * float)) (b : vector_fp) : vector_fp :=
  foldl (λ b iw, <[iw.1 := iw.2]> b) b ws.

Definition is_overwrite (f : vector_fp → vector_fp) : Prop :=
  ∃ ws, ∀ b, f b = overwrite ws b.

Definition last_write (ws : list (nat * float)) (p : nat) : option float :=
  foldl (λ acc iw, if Nat.eqb iw.1 p then Some iw.2 else acc) None ws.

(** ** Pointers into the object's own buffers

    [double*] arguments of the internal helpers always point at one of the
    object's reaction-sized buffers; the pointer is modelled by the name of
    the buffer it points into. *)

Inductive dptr : Type := p_ropf | p_ropr | p_rbuf0 | p_rbuf1 | p_rbuf2.

Definition deref (p : dptr) (k : GasKinetics) : vector_fp :=
  match p with
  | p_ropf => m_ropf k
  | p_ropr => m_ropr k
  | p_rbuf0 => m_rbuf0 k
  | p_rbuf1 => m_rbuf1 k
  | p_rbuf2 => m_rbuf2 k
  end.

Definition assign (p : dptr) (f : vector_fp → vector_fp) (k : GasKinetics) : GasKinetics :=
  match p with
  | p_ropf => k<|m_ropf ::= f|>
  | p_ropr => k<|m_ropr ::= f|>
  | p_rbuf0 => k<|m_rbuf0 ::= f|>
  | p_rbuf1 => k<|m_rbuf1 ::= f|>
  | p_rbuf2 => k<|m_rbuf2 ::= f|>
  end.

(** ** Rates of progress *)

(** The reduced pressure of the [i]-th falloff reaction, from the cached
    low- and high-pressure-limit rate constants and third-body concentration. *)
Definition reduced_pressure (k : GasKinetics) (i : nat) : float :=
  concm_falloff_values k !!! i * m_rfn_low k !!! i
  / (m_rfn_high k !!! i + SmallNumber).

(** The limit that scales the blended factor of the [i]-th falloff reaction. *)
Definition falloff_limit (k : GasKinetics) (i : nat) : float :=
  if String.eqb (reactionTypeStr k (m_fallindx k !!! i)) "falloff-legacy"
  then m_rfn_high k !!! i
  else m_rfn_low k !!! i.

(** The body of the first loop of [processFalloffReactions]; [pr] is
    [m_ropr]. *)
Definition falloff_pr_step (i : nat) : M unit :=
  modify (λ k, k<|m_ropr ::=
    <[i := concm_falloff_values k !!! i * m_rfn_low k !!! i
           / (m_rfn_high k !!! i + SmallNumber)]>|>) >>>
  let* pr_i := gets (λ k, m_ropr k !!! i) in
  AssertFinite pr_i "GasKinetics::processFalloffReactions" "pr" i.

(** The body of its second loop. *)
Definition falloff_scale_step (ropf : dptr) (i : nat) (k : GasKinetics) : GasKinetics :=
  let k :=
    if String.eqb (reactionTypeStr k (m_fallindx k !!! i)) "falloff-legacy"
    then k<|m_ropr ::= λ pr, <[i := pr !!! i * m_rfn_high k !!! i]> pr|>
    else (* CHEMACT_RXN *)
         k<|m_ropr ::= λ pr, <[i := pr !!! i * m_rfn_low k !!! i]> pr|> in
  assign ropf <[m_fallindx k !!! i := m_ropr k !!! i]> k.

Definition processFalloffReactions (ropf : dptr) : M unit :=
  (* use m_ropr for temporary storage of reduced pressure *)
  (let* n := gets (λ k, Rate1_nReactions (m_falloff_low_rates k)) in
   forM_ (seq 0 n) falloff_pr_step) >>>
  modify (λ k, k<|m_ropr ::= in_place (λ pr,
    FalloffMgr_pr_to_falloff (m_falloffn k) pr (falloff_work k))|>) >>>
  modify (λ k,
    for_loop (Rate1_nReactions (m_falloff_low_rates k)) (falloff_scale_step ropf) k).

Definition processFwdRateCoefficients (ropf : dptr) : M unit :=
  modify update_rates_C >>>
  modify update_rates_T >>>
  (* copy rate coefficients into ropf *)
  modify (λ k, assign ropf (std_copy (m_rfn k)) k) >>>
  (let* nfall := gets (λ k, Rate1_nReactions (m_falloff_high_rates k)) in
   if negb (Nat.eqb nfall 0) then processFalloffReactions ropf else ret tt) >>>
  (* Scale the forward rate coefficient by the perturbation factor *)
  modify (λ k, assign ropf
    (for_loop (nReactions k) (λ i v, <[i := v !!! i * m_perturb k !!! i]> v)) k).

Definition processThirdBodies (rop : dptr) (k : GasKinetics) : GasKinetics :=
  (* multiply rop by enhanced 3b conc for all 3b rxns *)
  let k := if negb (empty (concm_3b_values k))
           then assign rop (in_place (λ v,
                  ThirdBodyCalc_multiply (m_3b_concm k) v (concm_3b_values k))) k
           else k in
  (* reactions involving third body *)
  if negb (empty (m_concm k))
  then assign rop (in_place (λ v,
         MultiThirdBody_multiply (m_multi_concm k) v (m_concm k))) k
  else k.

Definition processEquilibriumConstants (rop : dptr) (k : GasKinetics) : GasKinetics :=
  assign rop (for_loop (nReactions k) (λ i v, <[i := v !!! i * m_rkcn k !!! i]> v)) k.

(** [kc] is the caller's array; the function returns it filled in. *)
Definition getEquilibriumConstants (kc : vector_fp) (k : GasKinetics)
  : GasKinetics * vector_fp :=
  let k := update_rates_T k in
  let k := k<|m_grt ::= std_copy (getStandardChemPotentials (thermo k))|> in
  let k := k<|m_rkcn := std_fill (m_rkcn k) 0|> in
  (* compute Delta G^0 for all reactions *)
  let k := k<|m_rkcn ::= in_place (getReactionDelta k (m_grt k))|> in
  let rrt := 1 / RT (thermo k) in
  let kc :=
    for_loop (nReactions k) (λ i kc,
      <[i := exp ((- (m_rkcn k !!! i)) * rrt + m_dn k !!! i * m_logStandConc k)]> kc) kc in
  (* force an update of T-dependent properties, so that m_rkcn will
     be updated before it is used next. *)
  (k<|m_temp := 0|>, kc).

(** What the loop that ends [updateROP] checks of reaction [i]. *)
Definition rop_entries_finite (k : GasKinetics) (i : nat) : Prop :=
  is_finite (m_rfn k !!! i) = true ∧ is_finite (m_ropf k !!! i) = true
  ∧ is_finite (m_ropr k !!! i) = true.

(** The body of the loop that ends [updateROP]. *)
Definition rop_finite_step (i : nat) : M unit :=
  (let* x := gets (λ k, m_rfn k !!! i) in
   AssertFinite x "GasKinetics::updateROP" "m_rfn" i) >>>
  (let* x := gets (λ k, m_ropf k !!! i) in
   AssertFinite x "GasKinetics::updateROP" "m_ropf" i) >>>
  (let* x := gets (λ k, m_ropr k !!! i) in
   AssertFinite x "GasKinetics::updateROP" "m_ropr" i).

(** What [updateROP] does between [processFwdRateCoefficients] and that
    loop. *)
Definition assemble_rop (k : GasKinetics) : GasKinetics :=
  let k := processThirdBodies p_ropf k in
  let k := k<|m_ropr ::= std_copy (m_ropf k)|> in
  (* multiply ropf by concentration products *)
  let k := k<|m_ropf ::=
             in_place (StoichManagerN_multiply (m_reactantStoich k) (m_act_conc k))|> in
  (* for reversible reactions, multiply ropr by concentration products *)
  let k := processEquilibriumConstants p_ropr k in
  let k := k<|m_ropr ::=
             in_place (StoichManagerN_multiply (m_revProductStoich k) (m_act_conc k))|> in
  k<|m_ropnet ::=
    for_loop (nReactions k) (λ j v, <[j := m_ropf k !!! j - m_ropr k !!! j]> v)|>.

Definition updateROP : M unit :=
  processFwdRateCoefficients p_ropf >>>
  modify assemble_rop >>>
  (let* n := gets (λ k, length (m_rfn k)) in
   forM_ (seq 0 n) rop_finite_step) >>>
  modify (λ k, k<|m_ROP_ok := true|>).

(** [concm] is the caller's array. *)
Definition getThirdBodyConcentrations (concm : vector_fp) : M vector_fp :=
  updateROP >>>
  gets (λ k, std_copy (m_concm k) concm).

(** [kfwd] is the caller's array.  [warn_deprecated] only logs. *)
Definition getFwdRateConstants (kfwd : vector_fp) : M vector_fp :=
  processFwdRateCoefficients p_ropf >>>
  (if legacy_rate_constants_used
   then modify (processThirdBodies p_ropf)
   else ret tt) >>>
  (* copy result *)
  gets (λ k, std_copy (m_ropf k) kfwd).

(** ** Jacobian settings *)

Definition getJacobianSettings (settings : AnyMap) (k : GasKinetics) : AnyMap :=
  let settings := setBool settings "constant-pressure" (m_jac_const_pressure k) in
  let settings := setBool settings "mole-fractions" (m_jac_mole_fractions k) in
  let settings := setBool settings "skip-third-bodies" (m_jac_skip_third_bodies k) in
  let settings := setBool settings "skip-falloff" (m_jac_skip_falloff k) in
  setDouble settings "rtol-delta-T" (m_jac_rtol_deltaT k).

Definition setJacobianSettings (settings : AnyMap) : M unit :=
  let force := AnyMap_empty settings in
  modify (λ k, if force || hasKey settings "constant-pressure"
               then k<|m_jac_const_pressure := getBool settings "constant-pressure" true|>
               else k) >>>
  modify (λ k, if force || hasKey settings "mole-fractions"
               then k<|m_jac_mole_fractions := getBool settings "mole-fractions" true|>
               else k) >>>
  modify (λ k, if force || hasKey settings "skip-third-bodies"
               then k<|m_jac_skip_third_bodies := getBool settings "skip-third-bodies" false|>
               else k) >>>
  modify (λ k, if force || hasKey settings "skip-falloff"
               then k<|m_jac_skip_falloff := getBool settings "skip-falloff" true|>
               else k) >>>
  (let* skip := gets m_jac_skip_falloff in
   if negb skip
   then modify (λ k, k<|m_jac_skip_falloff := true|>) >>>
        throw (NotImplementedError "GasKinetics::setJacobianSettings"
          ("Derivative term related to reaction rate dependence on third bodies "
           +:+ "is not implemented."))
   else ret tt) >>>
  modify (λ k, if force || hasKey settings "rtol-delta-T"
               then k<|m_jac_rtol_deltaT := getDouble settings "rtol-delta-T" 1e-6|>
               else k).

(** The constructor: [k] is the object as the [BulkKinetics(thermo)] base
    constructor leaves it. *)
Definition GasKinetics_ctor (k : GasKinetics) : GasKinetics * outcome unit :=
  setJacobianSettings AnyMap_new (k<|m_logStandConc := 0|><|m_pres := 0|>).

(** ** Temperature derivatives

    An [Eigen::VectorXd] local is a [vector_fp] value; its uninitialised
    entries are read as 0.  An [Eigen::Map] over [m_rbufN] is the first
    [nReactions()] entries of that buffer. *)

(** [for (auto& rates : m_bulk_rates) rates->f(buf, m_rfn.data(), dT)]. *)
Definition bulk_rates_apply
    (f : MultiRate → vector_fp → vector_fp → float → vector_fp)
    (dT : float) (k : GasKinetics) (buf : vector_fp) : vector_fp :=
  foldl (λ buf rates, in_place (λ buf, f rates buf (m_rfn k) dT) buf) buf (m_bulk_rates k).

Definition processConcentrations_ddT (rop : dptr) (k : GasKinetics) : GasKinetics :=
  let '(dctot_dT, k) :=
    if String.eqb (thermo_type (thermo k)) "IdealGas"
    then ((- molarDensity (thermo k)) / temperature (thermo k), k)
    else
      let T := temperature (thermo k) in
      let P := pressure (thermo k) in
      let k := k<|thermo ::= λ th, setState_TP th (T * (1 + m_jac_rtol_deltaT k)) P|> in
      let ctot1 := molarDensity (thermo k) in
      let k := k<|thermo ::= λ th, setState_TP th T P|> in
      let ctot0 := molarDensity (thermo k) in
      ((ctot1 - ctot0) / (T * m_jac_rtol_deltaT k), k) in
  assign rop (for_loop (nReactions k) (λ i v, <[i := v !!! i * dctot_dT]> v)) k.

(** Called with [drkcn] pointing into [m_rbuf2] only; [kc0] and [kc1] are
    [m_rbuf0] and [m_rbuf1]. *)
Definition processEquilibriumConstants_ddT (drkcn : dptr) (k : GasKinetics) : GasKinetics :=
  let T := temperature (thermo k) in
  let P := pressure (thermo k) in
  let dTinv := 1 / (m_jac_rtol_deltaT k * T) in
  let k := k<|thermo ::= λ th, setState_TP th (T * (1 + m_jac_rtol_deltaT k)) P|> in
  let '(k, kc1) := getEquilibriumConstants (m_rbuf1 k) k in
  let k := k<|m_rbuf1 := kc1|> in
  let k := k<|thermo ::= λ th, setState_TP th T P|> in
  let '(k, kc0) := getEquilibriumConstants (m_rbuf0 k) k in
  let k := k<|m_rbuf0 := kc0|> in
  let k := assign drkcn (for_loop (nReactions k) (λ i v,
             let v := <[i := v !!! i * ((m_rbuf0 k !!! i - m_rbuf1 k !!! i) * dTinv)]> v in
             (* divide once as this is a scaled derivative *)
             <[i := v !!! i / m_rbuf0 k !!! i]> v)) k in
  assign drkcn (for_loop (length (m_irrev k)) (λ i v, <[m_irrev k !!! i := 0]> v)) k.

Definition checkLegacyRates (name : string) : M unit :=
  let* n := gets (λ k, length (m_legacy k)) in
  if negb (Nat.eqb n 0)
  then (* Do not support legacy CTI/XML-based reaction rate evaluators *)
       throw (CanteraError_ name "Not supported for legacy (CTI/XML) input format.")
  else ret tt.

Definition fwdRateConstants_ddT : M vector_fp :=
  checkLegacyRates "GasKinetics::fwdRateConstants_ddT" >>>
  updateROP >>>
  λ k,
    let n := nReactions k in
    let dFwdKc := std_copy (m_rfn k) (replicate n 0) in
    let k := if m_jac_const_pressure k
             then k<|m_rbuf2 ::= std_copy (take n dFwdKc)|> else k in
    (* direct temperature dependence *)
    let dFwdKc := bulk_rates_apply MultiRate_processRateConstants_ddT
                    (m_jac_rtol_deltaT k) k dFwdKc in
    (* reaction rates that depend on third-body colliders *)
    if m_jac_const_pressure k
    then
      let k := k<|m_rbuf2 ::= bulk_rates_apply MultiRate_processRateConstants_ddM
                                (m_jac_rtol_deltaT k) k|> in
      let k := processConcentrations_ddT p_rbuf2 k in
      (k, Normal (vec_add dFwdKc (take n (m_rbuf2 k))))
    else (k, Normal dFwdKc).

Definition fwdRatesOfProgress_ddT : M vector_fp :=
  checkLegacyRates "GasKinetics::fwdRatesOfProgress_ddT" >>>
  updateROP >>>
  λ k,
    let n := nReactions k in
    let dFwdRop := std_copy (m_ropf k) (replicate n 0) in
    let dFwdRop := bulk_rates_apply MultiRate_processRateConstants_ddT
                     (m_jac_rtol_deltaT k) k dFwdRop in
    if m_jac_const_pressure k
    then
      let k := k<|m_rbuf1 ::= std_copy (replicate n 0)|> in
      let k := k<|m_rbuf1 ::= in_place (StoichManagerN_scale (m_reactantStoich k) (m_ropf k))|> in
      (* reaction rates that depend on third-body colliders *)
      let k := k<|m_rbuf2 ::= std_copy (m_ropf k)|> in
      let k := k<|m_rbuf2 ::= bulk_rates_apply MultiRate_processRateConstants_ddM
                                (m_jac_atol_deltaT k) k|> in
      (* reactions involving third body in law of mass action *)
      let k := k<|m_rbuf2 ::=
                 in_place (MultiThirdBody_scaleOrder (m_multi_concm k) (m_ropf k))|> in
      let k := k<|m_rbuf1 ::= λ c, std_copy (vec_add (take n c) (take n (m_rbuf2 k))) c|> in
      (* add term to account for changes of concentrations *)
      let k := processConcentrations_ddT p_rbuf1 k in
      (k, Normal (vec_add dFwdRop (take n (m_rbuf1 k))))
    else (k, Normal dFwdRop).

Definition revRatesOfProgress_ddT : M vector_fp :=
  checkLegacyRates "GasKinetics::revRatesOfProgress_ddT" >>>
  updateROP >>>
  λ k,
    let n := nReactions k in
    (* reverse rop times scaled rate constant derivative *)
    let dRevRop := std_copy (m_ropr k) (replicate n 0) in
    let dRevRop := bulk_rates_apply MultiRate_processRateConstants_ddT
                     (m_jac_rtol_deltaT k) k dRevRop in
    (* reverse rop times scaled inverse equilibrium constant derivatives *)
    let k := k<|m_rbuf2 ::= std_copy (m_ropr k)|> in
    let k := processEquilibriumConstants_ddT p_rbuf2 k in
    let dRevRop := vec_add dRevRop (take n (m_rbuf2 k)) in
    if m_jac_const_pressure k
    then
      let k := k<|m_rbuf1 ::= std_copy (replicate n 0)|> in
      let k := k<|m_rbuf1 ::=
                 in_place (StoichManagerN_scale (m_revProductStoich k) (m_ropr k))|> in
      (* reaction rates that depend on third-body colliders *)
      let k := k<|m_rbuf2 ::= std_copy (m_ropr k)|> in
      let k := k<|m_rbuf2 ::= bulk_rates_apply MultiRate_processRateConstants_ddM
                                (m_jac_atol_deltaT k) k|> in
      (* reactions involving third body in law of mass action *)
      let k := k<|m_rbuf2 ::=
                 in_place (MultiThirdBody_scaleOrder (m_multi_concm k) (m_ropr k))|> in
      (* add term to account for changes of concentrations *)
      let k := processConcentrations_ddT p_rbuf1 k in
      (k, Normal (vec_add dRevRop (take n (m_rbuf1 k))))
    else (k, Normal dRevRop).

(** The two operands of the subtraction are evaluated left to right. *)
Definition netRatesOfProgress_ddT : M vector_fp :=
  checkLegacyRates "GasKinetics::netRatesOfProgress_ddT" >>>
  let* fwd := fwdRatesOfProgress_ddT in
  let* rev := revRatesOfProgress_ddT in
  ret (vec_sub fwd rev).

(** ** Concentration derivatives *)

Definition scaleConcentrations (rates : dptr) (k : GasKinetics) : GasKinetics :=
  let ctot := molarDensity (thermo k) in
  assign rates (for_loop (nReactions k) (λ i v, <[i := v !!! i * ctot]> v)) k.

(** The part [fwd], [rev] and [net] share after the rate coefficients are in
    [rop_rates = m_rbuf0]: the [StoichManagerN] term and, unless skipped, the
    [ThirdBodyCalc] term, for one side's stoichiometry manager. *)
Definition ddC_terms (stoich : GasKinetics → StoichManagerN) (k : GasKinetics)
  : GasKinetics * (SparseMatrix * option SparseMatrix) :=
  (* derivatives handled by StoichManagerN *)
  let k := k<|m_rbuf1 ::= std_copy (m_rbuf0 k)|> in
  let k := processThirdBodies p_rbuf1 k in
  let jac := StoichManagerN_jacobian (stoich k) (m_act_conc k) (m_rbuf1 k) in
  (* derivatives handled by ThirdBodyCalc *)
  if negb (m_jac_skip_third_bodies k) && negb (empty (m_concm k))
  then
    let k := k<|m_rbuf2 ::= std_copy (m_rbuf0 k)|> in
    let k := k<|m_rbuf2 ::= in_place (StoichManagerN_multiply (stoich k) (m_act_conc k))|> in
    (k, (jac, Some (MultiThirdBody_jacobian (m_multi_concm k) (m_rbuf2 k))))
  else (k, (jac, None)).

Definition fwdRatesOfProgress_ddC : M SparseMatrix :=
  checkLegacyRates "GasKinetics::fwdRatesOfProgress_ddC" >>>
  (* forward reaction rate coefficients *)
  processFwdRateCoefficients p_rbuf0 >>>
  modify (λ k, if m_jac_mole_fractions k then scaleConcentrations p_rbuf0 k else k) >>>
  λ k,
    let '(k, (jac, jac3b)) := ddC_terms m_reactantStoich k in
    (k, Normal (from_option (SparseMatrix_add jac) jac jac3b)).

Definition revRatesOfProgress_ddC : M SparseMatrix :=
  checkLegacyRates "GasKinetics::revRatesOfProgress_ddC" >>>
  (* reverse reaction rate coefficients *)
  processFwdRateCoefficients p_rbuf0 >>>
  modify (processEquilibriumConstants p_rbuf0) >>>
  modify (λ k, if m_jac_mole_fractions k then scaleConcentrations p_rbuf0 k else k) >>>
  λ k,
    let '(k, (jac, jac3b)) := ddC_terms m_revProductStoich k in
    (k, Normal (from_option (SparseMatrix_add jac) jac jac3b)).

Definition netRatesOfProgress_ddC : M SparseMatrix :=
  checkLegacyRates "GasKinetics::netRatesOfProgress_ddC" >>>
  (* forward reaction rate coefficients *)
  processFwdRateCoefficients p_rbuf0 >>>
  modify (λ k, if m_jac_mole_fractions k then scaleConcentrations p_rbuf0 k else k) >>>
  λ k,
    let '(k, (jac, jac3b)) := ddC_terms m_reactantStoich k in
    let jac := from_option (SparseMatrix_add jac) jac jac3b in
    (* reverse reaction rate coefficients *)
    let k := processEquilibriumConstants p_rbuf0 k in
    let '(k, (rjac, rjac3b)) := ddC_terms m_revProductStoich k in
    let jac := SparseMatrix_sub jac rjac in
    (k, Normal (from_option (SparseMatrix_sub jac) jac rjac3b)).

(** ** Adding and replacing reactions *)

(** [v.resize(n)]. *)
Definition resize (v : vector_fp) (n : nat) : vector_fp :=
  take n v ++ replicate (n - length v) 0.

Definition resizeReactions (k : GasKinetics) : GasKinetics :=
  let k := k<|m_rbuf0 ::= λ v, resize v (nReactions k)|> in
  let k := k<|m_rbuf1 ::= λ v, resize v (nReactions k)|> in
  let k := k<|m_rbuf2 ::= λ v, resize v (nReactions k)|> in
  BulkKinetics_resizeReactions k.

(** The loop that turns [r.third_body.efficiencies], keyed by species name,
    into a map keyed by species index, dropping unknown species. *)
Definition efficiencies_by_index (k : GasKinetics) (r : Reaction) : gmap nat float :=
  foldl (λ (m : gmap nat float) (eff : string * float),
           match kineticsSpeciesIndex k eff.1 with
           | Some sp => <[sp := eff.2]> m
           | None => m
           end) ∅ (efficiencies (third_body r)).

Definition addFalloffReaction (r : Reaction) (k : GasKinetics) : GasKinetics :=
  (* install high and low rate coeff calculators and extend the high and low
     rate coeff value vectors *)
  let nfall := Rate1_nReactions (m_falloff_high_rates k) in
  let k := k<|m_falloff_high_rates ::= λ m, Rate1_install m nfall (high_rate r)|> in
  let k := k<|m_rfn_high ::= λ v, v ++ [0]|> in
  let k := k<|m_falloff_low_rates ::= λ m, Rate1_install m nfall (low_rate r)|> in
  let k := k<|m_rfn_low ::= λ v, v ++ [0]|> in
  (* add this reaction number to the list of falloff reactions *)
  let k := k<|m_fallindx ::= λ l, l ++ [(nReactions k - 1)%nat]|> in
  let k := k<|m_rfallindx ::= <[(nReactions k - 1)%nat := nfall]>|> in
  (* install the enhanced third-body concentration calculator *)
  let eff := efficiencies_by_index k r in
  let k := k<|m_falloff_concm ::= λ m,
             ThirdBodyCalc_install m nfall eff (default_efficiency (third_body r))
               (Some (nReactions k - 1)%nat)|> in
  let k := k<|concm_falloff_values ::= λ v,
             resize v (ThirdBodyCalc_workSize (m_falloff_concm k))|> in
  (* install the falloff function calculator for this reaction *)
  let k := k<|m_falloffn ::= λ m, FalloffMgr_install m nfall (type r) (falloff r)|> in
  k<|falloff_work ::= λ v, resize v (FalloffMgr_workSize (m_falloffn k))|>.

Definition addThreeBodyReaction (r : Reaction) (k : GasKinetics) : GasKinetics :=
  let k := k<|m_rates ::= λ m, Rate1_install m (nReactions k - 1)%nat (rate r)|> in
  let eff := efficiencies_by_index k r in
  let k := k<|m_3b_concm ::= λ m,
             ThirdBodyCalc_install m (nReactions k - 1)%nat eff
               (default_efficiency (third_body r)) None|> in
  k<|concm_3b_values ::= λ v, resize v (ThirdBodyCalc_workSize (m_3b_concm k))|>.

Definition addPlogReaction (r : Reaction) (k : GasKinetics) : GasKinetics :=
  k<|m_plog_rates ::= λ m, Rate1_install m (nReactions k - 1)%nat (rate r)|>.

Definition addChebyshevReaction (r : Reaction) (k : GasKinetics) : GasKinetics :=
  k<|m_cheb_rates ::= λ m, Rate1_install m (nReactions k - 1)%nat (rate r)|>.

Definition addReaction (r : Reaction) (resize : bool) : M bool :=
  (* operations common to all reaction types *)
  let* added := BulkKinetics_addReaction r resize in
  if negb added then ret false
  else if negb (usesLegacy r)
  then (* Rate object already added in BulkKinetics::addReaction *)
       ret true
  else
    (if String.eqb (type r) "elementary-legacy" then modify (addElementaryReaction r)
     else if String.eqb (type r) "three-body-legacy" then modify (addThreeBodyReaction r)
     else if String.eqb (type r) "falloff-legacy" then modify (addFalloffReaction r)
     else if String.eqb (type r) "chemically-activated-legacy"
          then modify (addFalloffReaction r)
     else if String.eqb (type r) "pressure-dependent-Arrhenius-legacy"
          then modify (addPlogReaction r)
     else if String.eqb (type r) "Chebyshev-legacy" then modify (addChebyshevReaction r)
     else throw (CanteraError_ "GasKinetics::addReaction"
                   ("Unknown reaction type specified: '" +:+ type r +:+ "'"))) >>>
    modify (λ k, k<|m_legacy ::= λ l, l ++ [(nReactions k - 1)%nat]|>) >>>
    ret true.

Definition modifyThreeBodyReaction (i : nat) (r : Reaction) (k : GasKinetics) : GasKinetics :=
  k<|m_rates ::= λ m, Rate1_replace m i (rate r)|>.

(** [m_rfallindx[i]] on a [std::map]: a missing key is inserted with 0. *)
Definition modifyFalloffReaction (i : nat) (r : Reaction) (k : GasKinetics) : GasKinetics :=
  let iFall := default 0%nat (m_rfallindx k !! i) in
  let k := k<|m_rfallindx ::= <[i := iFall]>|> in
  let k := k<|m_falloff_high_rates ::= λ m, Rate1_replace m iFall (high_rate r)|> in
  let k := k<|m_falloff_low_rates ::= λ m, Rate1_replace m iFall (low_rate r)|> in
  k<|m_falloffn ::= λ m, FalloffMgr_replace m iFall (falloff r)|>.

Definition modifyPlogReaction (i : nat) (r : Reaction) (k : GasKinetics) : GasKinetics :=
  k<|m_plog_rates ::= λ m, Rate1_replace m i (rate r)|>.

Definition modifyChebyshevReaction (i : nat) (r : Reaction) (k : GasKinetics) : GasKinetics :=
  k<|m_cheb_rates ::= λ m, Rate1_replace m i (rate r)|>.

(** Modelled from the spec: [BulkKinetics::invalidateCache], which is not
    part of this file.  It perturbs the cached temperature sentinel by a
    fixed nonzero offset, taken to be the one [GasKinetics::invalidateCache]
    applies to the pressure sentinel. *)
Definition BulkKinetics_invalidateCache (k : GasKinetics) : GasKinetics :=
  k<|m_temp ::= λ t, t + 0.13579|>.

Definition invalidateCache (k : GasKinetics) : GasKinetics :=
  let k := BulkKinetics_invalidateCache k in
  k<|m_pres ::= λ p, p + 0.13579|>.

Definition modifyReaction (i : nat) (rNew : Reaction) : M unit :=
  (* operations common to all bulk reaction types *)
  BulkKinetics_modifyReaction i rNew >>>
  (* invalidate all cached data *)
  modify invalidateCache >>>
  if negb (usesLegacy rNew)
  then (* Rate object already modified in BulkKinetics::modifyReaction *)
       ret tt
  else
    if String.eqb (type rNew) "elementary-legacy"
    then modify (modifyElementaryReaction i rNew)
    else if String.eqb (type rNew) "three-body-legacy"
    then modify (modifyThreeBodyReaction i rNew)
    else if String.eqb (type rNew) "falloff-legacy"
    then modify (modifyFalloffReaction i rNew)
    else if String.eqb (type rNew) "chemically-activated-legacy"
    then modify (modifyFalloffReaction i rNew)
    else if String.eqb (type rNew) "pressure-dependent-Arrhenius-legacy"
    then modify (modifyPlogReaction i rNew)
    else if String.eqb (type rNew) "Chebyshev-legacy"
    then modify (modifyChebyshevReaction i rNew)
    else throw (CanteraError_ "GasKinetics::modifyReaction"
                  ("Unknown reaction type specified: '" +:+ type rNew +:+ "'")).

(** ** Properties of objects and collaborators that theorems refer to *)

(** The laws of a key-value bag that the round trip of the settings relies
    on: a key that has been set is present, and reading it gives the value
    set; setting a key leaves the other keys as they were. *)
Definition AnyMap_laws : Prop :=
  (∀ m key b, hasKey (setBool m key b) key = true)
  ∧ (∀ m key x, hasKey (setDouble m key x) key = true)
  ∧ (∀ m key key' b, key ≠ key' → hasKey (setBool m key b) key' = hasKey m key')
  ∧ (∀ m key key' x, key ≠ key' → hasKey (setDouble m key x) key' = hasKey m key')
  ∧ (∀ m key b d, getBool (setBool m key b) key d = b)
  ∧ (∀ m key key' b d, key ≠ key' → getBool (setBool m key b) key' d = getBool m key' d)
  ∧ (∀ m key key' x d, key ≠ key' → getBool (setDouble m key x) key' d = getBool m key' d)
  ∧ (∀ m key x d, getDouble (setDouble m key x) key d = x).

(** [m_fallindx] lists the reaction index of every falloff reaction, in the
    order of installation; [m_rfallindx] maps a reaction index back to its
    position; the managers and the vectors of the two limits have one entry
    per falloff reaction. *)
Definition falloff_indexed (k : GasKinetics) : Prop :=
  length (m_fallindx k) = Rate1_nReactions (m_falloff_high_rates k)
  ∧ Rate1_nReactions (m_falloff_low_rates k) = Rate1_nReactions (m_falloff_high_rates k)
  ∧ length (m_rfn_high k) = Rate1_nReactions (m_falloff_high_rates k)
  ∧ length (m_rfn_low k) = Rate1_nReactions (m_falloff_high_rates k)
  ∧ ∀ i j, m_fallindx k !! i = Some j ↔ m_rfallindx k !! j = Some i.

(** The type strings of the legacy reactions [addReaction] and
    [modifyReaction] know. *)
Definition legacy_reaction_types : list string :=
  ["elementary-legacy"; "three-body-legacy"; "falloff-legacy";
   "chemically-activated-legacy"; "pressure-dependent-Arrhenius-legacy";
   "Chebyshev-legacy"].

End GasKinetics.

(** * A small concrete mechanism

    Concrete collaborators on which the model runs: an ideal-gas-like state
    provider, rate managers whose rate law is [A * T], Lindemann falloff
    ([F = 1]), third-body calculators with a default efficiency only, and
    stoichiometry managers that multiply by the listed species'
    concentrations.  [exp], [log] and [log10] are not primitive operations
    on binary64 floats; low-order polynomial stand-ins take their place in
    this instance. *)

Module Demo.

Record thermo_state : Type := {
  d_T : float;
  d_P : float;
  d_conc : vector_fp;
  d_mu0 : vector_fp;
}.

Definition gas_constant : float := 8314.46261815324.

Definition demo_exp (x : float) : float := 1 + x + x * x / 2.
Definition demo_log (x : float) : float := 2 * (x - 1) / (x + 1).
Definition demo_log10 (x : float) : float := demo_log x / 2.302585092994046.

(** A manager is a list of installed entries, each with the index of the
    reaction it serves. *)
Definition rate_table : Type := list (nat * float).

Definition rate_update (m : rate_table) (T logT : float) (v : vector_fp) : vector_fp :=
  foldl (λ v e, <[e.1 := e.2 * T]> v) v m.

Definition table_replace (m : rate_table) (i : nat) (A : float) : rate_table :=
  map (λ e, if Nat.eqb e.1 i then (i, A) else e) m.

Definition lindemann (n : nat) (pr work : vector_fp) : vector_fp :=
  for_loop n (λ i v, <[i := v !!! i / (1 + v !!! i)]> v) pr.

Definition tb_update (m : rate_table) (conc : vector_fp) (ctot : float)
    (work : vector_fp) : vector_fp :=
  overwrite (imap (λ i e, (i, e.2 * ctot)) m) work.

Definition tb_copy (m : rate_table) (work concm : vector_fp) : vector_fp :=
  overwrite (zip_with (λ e w, (e.1, w)) m work) concm.

Definition tb_multiply (m : rate_table) (rop work : vector_fp) : vector_fp :=
  foldl (λ v iw, <[(iw.1).1 := v !!! (iw.1).1 * iw.2]> v) rop (zip m work).

Definition mtb_update (m : rate_table) (conc : vector_fp) (ctot : float)
    (concm : vector_fp) : vector_fp :=
  overwrite (map (λ e, (e.1, e.2 * ctot)) m) concm.

Definition mtb_multiply (m : rate_table) (rop concm : vector_fp) : vector_fp :=
  foldl (λ v e, <[e.1 := v !!! e.1 * concm !!! e.1]> v) rop m.

(** Per reaction, the species whose concentrations multiply its rate. *)
Definition stoich_multiply (m : list (list nat)) (conc rop : vector_fp) : vector_fp :=
  imap (λ i x, foldl (λ x sp, x * conc !!! sp) x (m !!! i)) rop.

(** A [MultiRate] evaluator remembers the temperature of its last update. *)
Definition multi_rate : Type := float * rate_table.

Definition option_bag : Type := list (string * (bool + float)).

Fixpoint bag_get (m : option_bag) (key : string) : option (bool + float) :=
  match m with
  | [] => None
  | e :: rest => if String.eqb e.1 key then Some e.2 else bag_get rest key
  end.

Definition bag_getBool (m : option_bag) (key : string) (dflt : bool) : bool :=
  match bag_get m key with Some (inl b) => b | _ => dflt end.

Definition bag_getDouble (m : option_bag) (key : string) (dflt : float) : float :=
  match bag_get m key with Some (inr x) => x | _ => dflt end.

Definition collab : Collaborators := {|
  exp := demo_exp;
  log := demo_log;
  log10 := demo_log10;
  BigNumber := 1e300;
  SmallNumber := 1e-300;
  ThermoPhase := thermo_state;
  temperature := d_T;
  pressure := d_P;
  molarDensity := λ th, d_P th / (gas_constant * d_T th);
  standardConcentration := λ th, d_P th / (gas_constant * d_T th);
  RT := λ th, gas_constant * d_T th;
  thermo_type := λ _, "IdealGas";
  getActivityConcentrations := d_conc;
  getConcentrations := d_conc;
  getStandardChemPotentials := d_mu0;
  setState_TP := λ th T P,
    {| d_T := T; d_P := P; d_conc := d_conc th; d_mu0 := d_mu0 th |};
  RateExpr := float;
  Rate1 := rate_table;
  Rate1_nReactions := length;
  Rate1_update := rate_update;
  Rate1_update_C := λ m _, m;
  Rate1_install := λ m i A, m ++ [(i, A)];
  Rate1_replace := table_replace;
  FalloffFn := unit;
  FalloffMgr := nat;
  FalloffMgr_updateTemp := λ _ _ work, work;
  FalloffMgr_pr_to_falloff := lindemann;
  FalloffMgr_install := λ n _ _ _, S n;
  FalloffMgr_replace := λ n _ _, n;
  FalloffMgr_workSize := id;
  ThirdBodyCalc := rate_table;
  ThirdBodyCalc_update := tb_update;
  ThirdBodyCalc_copy := tb_copy;
  ThirdBodyCalc_multiply := tb_multiply;
  ThirdBodyCalc_install := λ m n _ dflt rxn, m ++ [(default n rxn, dflt)];
  ThirdBodyCalc_workSize := length;
  MultiThirdBody := rate_table;
  MultiThirdBody_update := mtb_update;
  MultiThirdBody_multiply := mtb_multiply;
  MultiThirdBody_scaleOrder := λ _ _ out, out;
  SparseMatrix := unit;
  SparseMatrix_add := λ _ _, tt;
  SparseMatrix_sub := λ _ _, tt;
  StoichManagerN := list (list nat);
  StoichManagerN_multiply := stoich_multiply;
  StoichManagerN_scale := λ _ _ out, out;
  StoichManagerN_jacobian := λ _ _ _, tt;
  MultiThirdBody_jacobian := λ _ _, tt;
  MultiRate := multi_rate;
  MultiRate_getRateConstants := λ r v, rate_update r.2 r.1 0 v;
  MultiRate_processRateConstants_ddT := λ _ buf _ _, buf;
  MultiRate_processRateConstants_ddM := λ _ buf _ _, buf;
  AnyMap := option_bag;
  AnyMap_new := [];
  AnyMap_empty := empty;
  hasKey := λ m key, match bag_get m key with Some _ => true | None => false end;
  getBool := bag_getBool;
  getDouble := bag_getDouble;
  setBool := λ m key b, (key, inl b) :: m;
  setDouble := λ m key x, (key, inr x) :: m;
|}.

(** The base classes: a reaction delta over consecutive species, an evaluator
    that reports a change when the temperature differs from the one it
    remembers, and an [addReaction] that invalidates the cache, registers the
    reaction and extends the per-reaction vectors. *)
Definition reaction_delta (prop delta : vector_fp) : vector_fp :=
  imap (λ i _, prop !!! (S i) - prop !!! i) delta.

Definition base_addReaction (r : Reaction (collab := collab)) (k : GasKinetics (collab := collab))
  : GasKinetics (collab := collab) :=
  let n := nReactions k in
  let k := invalidateCache k in
  let k := k<|m_reactions ::= λ l, l ++ [r]|> in
  let k := k<|m_rfn ::= λ v, v ++ [0]|><|m_rkcn ::= λ v, v ++ [0]|> in
  let k := k<|m_ropf ::= λ v, v ++ [0]|><|m_ropr ::= λ v, v ++ [0]|> in
  let k := k<|m_ropnet ::= λ v, v ++ [0]|><|m_dn ::= λ v, v ++ [0]|> in
  let k := k<|m_perturb ::= λ v, v ++ [1]|><|m_concm ::= λ v, v ++ [nan]|> in
  let k := k<|(@m_reactantStoich collab) ::= λ m : list (list nat), m ++ [[n]]|> in
  let k := k<|(@m_revProductStoich collab) ::= λ m : list (list nat), m ++ [[S n]]|> in
  if reversible r then k<|m_revindex ::= λ l, l ++ [n]|>
  else k<|m_irrev ::= λ l, l ++ [n]|>.

Definition evaluator_update (r : multi_rate) (th : thermo_state)
    (k : GasKinetics (collab := collab)) : multi_rate * bool :=
  ((d_T th, r.2), fne (d_T th) r.1).

Definition base_modifyReaction (i : nat) (r : Reaction (collab := collab))
  : M (collab := collab) unit :=
  λ k, (k<|m_reactions ::= <[i := r]>|>, Normal tt).

Definition base_addElementaryReaction (r : Reaction (collab := collab))
    (k : GasKinetics (collab := collab)) : GasKinetics (collab := collab) :=
  k<|(@m_rates collab) ::= λ m : rate_table, m ++ [((nReactions k - 1)%nat, rate r)]|>.

Definition base_modifyElementaryReaction (i : nat) (r : Reaction (collab := collab))
    (k : GasKinetics (collab := collab)) : GasKinetics (collab := collab) :=
  k<|(@m_rates collab) ::= λ m : rate_table, table_replace m i (rate r)|>.

Definition base : BaseKinetics (collab := collab) :=
  @Build_BaseKinetics collab
    (λ _, reaction_delta)
    (λ _, reaction_delta)
    (λ _ _, None)
    evaluator_update
    (λ k, k)
    (λ r _ k, (base_addReaction r k, Normal true))
    base_modifyReaction
    base_addElementaryReaction
    base_modifyElementaryReaction
    true.

Definition state0 : thermo_state :=
  {| d_T := 1000; d_P := 101325;
     d_conc := [0.002; 0.004; 0.006; 0.001];
     d_mu0 := [0 - 1.0e7; 0 - 2.5e7; 0 - 3.0e7; 0 - 1.5e7] |}.

(** The object as the base-class constructor leaves it. *)
Definition blank : GasKinetics (collab := collab) :=
  @Build_GasKinetics collab
    (* thermo, m_reactions *) state0 []
    (* m_temp, m_pres, m_logStandConc, m_ROP_ok *) 0 0 0 false
    (* m_rfn, m_rkcn, m_ropf, m_ropr, m_ropnet *) [] [] [] [] []
    (* m_dn, m_perturb, m_concm *) [] [] []
    (* m_rbuf0, m_rbuf1, m_rbuf2 *) [] [] []
    (* m_grt, m_act_conc, m_phys_conc *) [0; 0; 0; 0] [0; 0; 0; 0] [0; 0; 0; 0]
    (* m_revindex, m_irrev, m_legacy *) [] [] []
    (* m_rates, m_falloff_low_rates, m_falloff_high_rates *) [] [] []
    (* m_plog_rates, m_cheb_rates *) [] []
    (* m_rfn_low, m_rfn_high, m_fallindx, m_rfallindx *) [] [] [] ∅
    (* m_falloffn, falloff_work *) 0%nat []
    (* m_3b_concm, concm_3b_values *) [] []
    (* m_falloff_concm, concm_falloff_values *) [] []
    (* m_multi_concm, m_bulk_rates *) [] []
    (* m_reactantStoich, m_revProductStoich *) [] []
    (* m_jac_const_pressure, m_jac_mole_fractions *) false false
    (* m_jac_skip_third_bodies, m_jac_skip_falloff *) true false
    (* m_jac_rtol_deltaT, m_jac_atol_deltaT *) 0 0.

Definition mk_reaction (ty : string) (rev : bool) (A Ahigh Alow : float)
  : Reaction (collab := collab) :=
  @Build_Reaction collab ty true rev A Ahigh Alow
    {| efficiencies := []; default_efficiency := 1 |} tt.

Definition r_elementary := mk_reaction "elementary-legacy" false 3.0e2 0 0.
Definition r_three_body := mk_reaction "three-body-legacy" true 5.0e3 0 0.
Definition r_falloff := mk_reaction "falloff-legacy" true 0 2.0e4 7.0e5.

(** Run a member function and keep the object. *)
Definition run {A} (m : M (collab := collab) A) (k : GasKinetics (collab := collab))
  : GasKinetics (collab := collab) := (m k).1.

(** An elementary irreversible reaction, a reversible three-body reaction and
    a reversible falloff reaction, added through [addReaction]. *)
Definition mech : GasKinetics (collab := collab) :=
  let k := (GasKinetics_ctor blank).1 in
  let k := run (addReaction (base := base) r_elementary true) k in
  let k := resizeReactions (base := base) k in
  let k := run (addReaction (base := base) r_three_body true) k in
  let k := resizeReactions (base := base) k in
  let k := run (addReaction (base := base) r_falloff true) k in
  resizeReactions (base := base) k.

(** The mechanism after its first evaluation. *)
Definition evaluated : GasKinetics (collab := collab) :=
  run (updateROP (base := base)) mech.

(** The evaluated mechanism, its state provider then set to twice the
    pressure at the same temperature. *)
Definition repressurised : GasKinetics (collab := collab) :=
  evaluated<|thermo := @setState_TP collab state0 1000 202650|>.

(** The state in which [processFwdRateCoefficients] calls
    [processFalloffReactions]. *)
Definition fwd_ready : GasKinetics (collab := collab) :=
  let k := update_rates_T (base := base) (update_rates_C mech) in
  assign p_ropf (std_copy (m_rfn k)) k.

(** A falloff reaction whose high-pressure limit is zero, as the third
    reaction of a mechanism. *)
Definition r_falloff_zero := mk_reaction "falloff-legacy" true 0 0 7.0e8.

Definition mech_zero : GasKinetics (collab := collab) :=
  let k := (GasKinetics_ctor blank).1 in
  let k := run (addReaction (base := base) r_elementary true) k in
  let k := resizeReactions (base := base) k in
  let k := run (addReaction (base := base) r_three_body true) k in
  let k := resizeReactions (base := base) k in
  let k := run (addReaction (base := base) r_falloff_zero true) k in
  resizeReactions (base := base) k.


(** A settings bag that asks for the falloff derivative term. *)
Definition settings_off : option_bag := [("skip-falloff", inl false)].

(** The evaluated mechanism with a temperature that is not a number, in the
    state provider and in the cache alike. *)
Definition evaluated_nan : GasKinetics (collab := collab) :=
  evaluated<|thermo := @setState_TP collab state0 nan 101325|><|m_temp := nan|>.


(** A reversible reaction that is no legacy reaction, and a mechanism of
    this reaction alone, its evaluator installed as the base class does. *)
Definition r_modern : Reaction (collab := collab) :=
  @Build_Reaction collab "Arrhenius" false true 4.0e2 0 0
    {| efficiencies := []; default_efficiency := 1 |} tt.

Definition mech_modern : GasKinetics (collab := collab) :=
  let k := (GasKinetics_ctor blank).1 in
  let k := run (addReaction (base := base) r_modern true) k in
  let k := resizeReactions (base := base) k in
  k<|(@m_bulk_rates collab) := [(0, [(0%nat, 4.0e2)])]|>.

End Demo.

(** * Verification *)

Arguments for_loop : simpl never.
Arguments std_copy : simpl never.
Arguments in_place : simpl never.
Arguments overwrite : simpl never.
Arguments update_legacy_concm : simpl never.
Arguments update_C_if_any : simpl never.
Arguments concm_pass : simpl never.
Arguments std_fill : simpl never.
Arguments std_min : simpl never.
Arguments updateKc : simpl never.
Arguments update_bulk_rate : simpl never.
Arguments update_bulk_rates : simpl never.
Arguments update_rates_T_changed : simpl never.
Arguments update_rates_TP_changed : simpl never.
Arguments update_rates_T : simpl never.
Arguments update_rates_T_full : simpl never.
Arguments update_rates_T_pressure_only : simpl never.
Arguments update_rates_T_hit : simpl never.
Arguments update_rates_C : simpl never.
Arguments processThirdBodies : simpl never.
Arguments processEquilibriumConstants : simpl never.
Arguments assemble_rop : simpl never.
Arguments not_finite_message : simpl never.

(** ** Loops over vectors *)

Lemma foldl_ext_elem {A B} (f g : A → B → A) (l : list B) (a : A) :
  (∀ x s, x ∈ l → f s x = g s x) → foldl f a l = foldl g a l.
Proof.
  revert a. induction l as [|x l IH]; intros a Hfg; [done|].
  cbn. rewrite (Hfg x a) by left. apply IH.
  intros y s Hy. apply Hfg. by right.
Qed.

Lemma for_loop_S {S : Type} (n : nat) (body : nat → S → S) (s : S) :
  for_loop (Datatypes.S n) body s = body n (for_loop n body s).
Proof.
  unfold for_loop. rewrite seq_S, foldl_app. reflexivity.
Qed.

Lemma for_loop_ext {S : Type} (n : nat) (f g : nat → S → S) (s : S) :
  (∀ i x, (i < n)%nat → f i x = g i x) → for_loop n f s = for_loop n g s.
Proof.
  intros H. unfold for_loop. apply foldl_ext_elem.
  intros i x Hi. apply H. apply elem_of_seq in Hi. lia.
Qed.

(** A loop that reads its index list position by position is a fold over
    the list. *)
Lemma for_loop_list {S : Type} (l : list nat) (body : nat → S → S) (s : S) :
  for_loop (length l) (λ i, body (l !!! i)) s = foldl (λ s x, body x s) s l.
Proof.
  induction l as [|x l IH] using rev_ind; [done|].
  rewrite length_app, Nat.add_1_r, for_loop_S, foldl_app. cbn.
  rewrite lookup_total_app_r, Nat.sub_diag by lia. cbn. f_equal.
  rewrite <- IH. apply for_loop_ext. intros i y Hi.
  by rewrite lookup_total_app_l.
Qed.

(** [for i < n: v[i] = h i v[i]]: an element-wise loop. *)
Lemma elementwise_length h n v :
  length (for_loop n (elementwise_body h) v) = length v.
Proof.
  induction n as [|n IH]; [done|].
  rewrite for_loop_S. unfold elementwise_body at 1.
  by rewrite length_insert.
Qed.

Lemma elementwise_lookup h n v j :
  (j < length v)%nat →
  for_loop n (elementwise_body h) v !!! j
  = if decide (j < n)%nat then h j (v !!! j) else v !!! j.
Proof.
  intros Hj. induction n as [|n IH].
  - by rewrite decide_False by lia.
  - rewrite for_loop_S. unfold elementwise_body at 1.
    destruct (decide (j = n)) as [->|Hne].
    + rewrite list_lookup_total_insert_eq by (by rewrite elementwise_length).
      rewrite IH. by rewrite decide_False, decide_True by lia.
    + rewrite list_lookup_total_insert_ne by done. rewrite IH.
      destruct (decide (j < n)%nat); [by rewrite decide_True by lia|].
      by rewrite decide_False by lia.
Qed.

(** [for x in idx: v[x] = g x v[x]]: a loop that visits the entries an index
    list names. *)
Lemma scatter_length g idx v : length (foldl (scatter_body g) v idx) = length v.
Proof.
  revert v. induction idx as [|x idx IH]; intros v; [done|].
  cbn. rewrite IH. unfold scatter_body. by rewrite length_insert.
Qed.

Lemma scatter_lookup_notin g idx v j :
  j ∉ idx → foldl (scatter_body g) v idx !!! j = v !!! j.
Proof.
  revert v. induction idx as [|x idx IH]; intros v Hj; [done|].
  apply not_elem_of_cons in Hj as [Hne Hj]. cbn. rewrite IH by done.
  unfold scatter_body. by rewrite list_lookup_total_insert_ne.
Qed.

Lemma scatter_lookup_in g idx v j :
  NoDup idx → j ∈ idx → (j < length v)%nat →
  foldl (scatter_body g) v idx !!! j = g j (v !!! j).
Proof.
  revert v. induction idx as [|x idx IH]; intros v Hnd Hj Hlen.
  - by apply elem_of_nil in Hj.
  - apply NoDup_cons in Hnd as [Hx Hnd]. cbn.
    apply elem_of_cons in Hj as [->|Hj].
    + rewrite scatter_lookup_notin by done.
      unfold scatter_body. by rewrite list_lookup_total_insert_eq.
    + assert (j ≠ x) by (intros ->; done).
      rewrite IH; [|done|done|by unfold scatter_body; rewrite length_insert].
      unfold scatter_body. by rewrite list_lookup_total_insert_ne.
Qed.

Lemma for_loop_scatter g (l : list nat) v :
  for_loop (length l) (λ i v, scatter_body g v (l !!! i)) v
  = foldl (scatter_body g) v l.
Proof.
  rewrite (for_loop_list l (λ x v, scatter_body g v x)).
  apply foldl_ext_elem. reflexivity.
Qed.

(** When the stored value does not depend on the entry it replaces, the index
    list may repeat. *)
Lemma scatter_lookup_in_const g idx v j :
  (∀ x y y', g x y = g x y') → j ∈ idx → (j < length v)%nat →
  ∀ y, foldl (scatter_body g) v idx !!! j = g j y.
Proof.
  intros Hg. revert v. induction idx as [|x idx IH]; intros v Hj Hlen y.
  - by apply elem_of_nil in Hj.
  - cbn. destruct (decide (j ∈ idx)) as [Hin|Hnin].
    + apply IH; [done|]. unfold scatter_body. by rewrite length_insert.
    + apply elem_of_cons in Hj as [->|Hj]; [|done].
      rewrite scatter_lookup_notin by done.
      unfold scatter_body. rewrite list_lookup_total_insert_eq by done.
      apply Hg.
Qed.

Lemma std_copy_length src dst : length (std_copy src dst) = length dst.
Proof. unfold std_copy. rewrite length_app, length_take, length_drop. lia. Qed.

Lemma in_place_length f v : length (in_place f v) = length v.
Proof. apply std_copy_length. Qed.

Lemma std_copy_same_length src dst :
  length src = length dst → std_copy src dst = src.
Proof.
  intros H. unfold std_copy. rewrite <- H, firstn_all.
  rewrite (drop_ge dst) by lia. apply app_nil_r.
Qed.

Lemma std_copy_idemp src dst :
  std_copy src (std_copy src dst) = std_copy src dst.
Proof.
  unfold std_copy at 1. rewrite std_copy_length. unfold std_copy. f_equal.
  destruct (decide (length src ≤ length dst)%nat) as [Hle|Hgt].
  - rewrite firstn_all2 by exact Hle. by rewrite drop_app_length.
  - rewrite (drop_ge dst) by lia. rewrite app_nil_r.
    apply drop_ge. rewrite length_take. lia.
Qed.

(** ** Writers of fixed entries *)

Lemma overwrite_length ws b : length (overwrite ws b) = length b.
Proof.
  revert b. induction ws as [|w ws IH]; intros b; [done|].
  unfold overwrite. cbn. fold (overwrite ws (<[w.1:=w.2]> b)).
  by rewrite IH, length_insert.
Qed.

Lemma overwrite_snoc ws w b :
  overwrite (ws ++ [w]) b = <[w.1 := w.2]> (overwrite ws b).
Proof. unfold overwrite. by rewrite foldl_app. Qed.

Lemma overwrite_app ws ws' b :
  overwrite (ws ++ ws') b = overwrite ws' (overwrite ws b).
Proof. unfold overwrite. by rewrite foldl_app. Qed.

Lemma overwrite_lookup ws b p :
  overwrite ws b !! p =
    match last_write ws p with
    | Some x => if decide (p < length b)%nat then Some x else None
    | None => b !! p
    end.
Proof.
  induction ws as [|w ws IH] using rev_ind; [done|].
  rewrite overwrite_snoc, list_lookup_insert, overwrite_length.
  unfold last_write. rewrite foldl_app. cbn. fold (last_write ws p).
  destruct (Nat.eqb_spec w.1 p) as [->|Hne].
  - destruct (decide (p < length b)%nat) as [Hlt|Hge].
    + by rewrite decide_True.
    + rewrite decide_False by tauto. rewrite IH.
      destruct (last_write ws p); [done|].
      apply lookup_ge_None. lia.
  - rewrite decide_False by tauto. exact IH.
Qed.

Lemma overwrite_idemp ws b : overwrite ws (overwrite ws b) = overwrite ws b.
Proof.
  apply list_eq. intros p. rewrite !overwrite_lookup, overwrite_length.
  destruct (last_write ws p); done.
Qed.

(** ** Binary64 comparisons *)

Lemma positive_ne_zero (T : float) : (0 <? T) = true → fne T 0 = true.
Proof.
  unfold fne. rewrite FloatAxioms.ltb_spec, FloatAxioms.eqb_spec.
  change (Prim2SF 0) with (S754_zero false).
  destruct (Prim2SF T) as [[]|[]| |[] m e]; cbn; congruence.
Qed.

Section Frames.
Context {collab : Collaborators} {base : BaseKinetics}.

(** ** What each update leaves alone

    Each lemma names the members a function may change; every other member
    of the result is the member of the argument. *)

Lemma updateKc_frame k :
  ∃ grt rkcn, updateKc k = k<|m_grt := grt|><|m_rkcn := rkcn|>.
Proof. unfold updateKc. cbn. do 2 eexists. reflexivity. Qed.

Lemma update_bulk_rate_frame i k :
  ∃ rates rfn ok,
    update_bulk_rate i k = k<|m_bulk_rates := rates|><|m_rfn := rfn|><|m_ROP_ok := ok|>.
Proof.
  unfold update_bulk_rate. destruct (m_bulk_rates k !! i) as [r|].
  - destruct (MultiRate_update r (thermo k) k) as [r' []]; cbn; do 3 eexists; reflexivity.
  - exists (m_bulk_rates k), (m_rfn k), (m_ROP_ok k). reflexivity.
Qed.

Lemma update_bulk_rates_frame k :
  ∃ rates rfn ok,
    update_bulk_rates k = k<|m_bulk_rates := rates|><|m_rfn := rfn|><|m_ROP_ok := ok|>.
Proof.
  unfold update_bulk_rates. generalize (length (m_bulk_rates k)) as n.
  induction n as [|n (rates & rfn & ok & IH)].
  - exists (m_bulk_rates k), (m_rfn k), (m_ROP_ok k). reflexivity.
  - rewrite for_loop_S, IH.
    destruct (update_bulk_rate_frame n
                (k<|m_bulk_rates := rates|><|m_rfn := rfn|><|m_ROP_ok := ok|>))
      as (rates' & rfn' & ok' & ->).
    exists rates', rfn', ok'. reflexivity.
Qed.

Lemma update_rates_T_changed_frame T logT k :
  ∃ rfn rfn_low rfn_high work grt rkcn,
    update_rates_T_changed T logT k =
      k<|m_rfn := rfn|><|m_rfn_low := rfn_low|><|m_rfn_high := rfn_high|>
       <|falloff_work := work|><|m_grt := grt|><|m_rkcn := rkcn|><|m_ROP_ok := false|>.
Proof.
  unfold update_rates_T_changed. cbv zeta.
  match goal with |- context [updateKc ?x] =>
    destruct (updateKc_frame x) as (grt & rkcn & ->) end.
  repeat match goal with |- context [if ?c then _ else _] => destruct c end;
    cbn; do 6 eexists; reflexivity.
Qed.

Lemma update_rates_TP_changed_frame T logT k :
  ∃ rfn ok, update_rates_TP_changed T logT k = k<|m_rfn := rfn|><|m_ROP_ok := ok|>.
Proof.
  unfold update_rates_TP_changed. cbv zeta.
  repeat match goal with |- context [if ?c then _ else _] => destruct c end;
    cbn; do 2 eexists; reflexivity.
Qed.

(** Proves [p (f x) = p x] from the frame lemma [L] of [f]. *)
Ltac by_frame L :=
  intros;
  match goal with
  | |- context [updateKc ?x] => destruct (L x) as (? & ? & ->)
  | |- context [update_bulk_rates ?x] => destruct (L x) as (? & ? & ? & ->)
  | |- context [update_rates_T_changed ?T ?l ?x] =>
      destruct (L T l x) as (? & ? & ? & ? & ? & ? & ->)
  | |- context [update_rates_TP_changed ?T ?l ?x] => destruct (L T l x) as (? & ? & ->)
  end; reflexivity.

Lemma update_bulk_rates_sentinels k :
  m_temp (update_bulk_rates k) = m_temp k ∧ m_pres (update_bulk_rates k) = m_pres k
  ∧ thermo (update_bulk_rates k) = thermo k.
Proof. repeat split; by_frame update_bulk_rates_frame. Qed.

Lemma update_rates_T_changed_sentinels T logT k :
  m_temp (update_rates_T_changed T logT k) = m_temp k
  ∧ m_pres (update_rates_T_changed T logT k) = m_pres k
  ∧ thermo (update_rates_T_changed T logT k) = thermo k.
Proof. repeat split; by_frame update_rates_T_changed_frame. Qed.

Lemma update_rates_TP_changed_sentinels T logT k :
  m_temp (update_rates_TP_changed T logT k) = m_temp k
  ∧ m_pres (update_rates_TP_changed T logT k) = m_pres k
  ∧ thermo (update_rates_TP_changed T logT k) = thermo k.
Proof. repeat split; by_frame update_rates_TP_changed_frame. Qed.

Lemma update_rates_T_cases k :
  update_rates_T k =
    if fne (temperature (thermo k)) (m_temp k) then update_rates_T_full k
    else if fne (pressure (thermo k)) (m_pres k) then update_rates_T_pressure_only k
    else update_rates_T_hit k.
Proof.
  unfold update_rates_T, update_rates_T_full, update_rates_T_pressure_only,
    update_rates_T_hit.
  cbv zeta.
  set (k0 := k<|m_logStandConc := log (standardConcentration (thermo k))|>).
  change (m_temp k0) with (m_temp k).
  set (T := temperature (thermo k)). set (P := pressure (thermo k)).
  destruct (fne T (m_temp k)) eqn:HT.
  - destruct (update_bulk_rates_sentinels (update_rates_T_changed T (log T) k0))
      as (-> & -> & Hth).
    destruct (update_rates_T_changed_sentinels T (log T) k0) as (-> & -> & Hth').
    change (m_temp k0) with (m_temp k). rewrite HT. cbn [orb].
    rewrite (proj2 (proj2 (update_rates_TP_changed_sentinels T (log T) _))).
    rewrite Hth, Hth'. reflexivity.
  - destruct (update_bulk_rates_sentinels k0) as (-> & -> & Hth).
    change (m_temp k0) with (m_temp k). change (m_pres k0) with (m_pres k).
    rewrite HT. cbn [orb].
    destruct (fne P (m_pres k)).
    + rewrite (proj2 (proj2 (update_rates_TP_changed_sentinels T (log T) _))).
      rewrite Hth. reflexivity.
    + rewrite Hth. reflexivity.
Qed.

Lemma update_rates_T_frame k :
  ∃ rfn rfn_low rfn_high work grt rkcn ok rates,
    update_rates_T k =
      k<|m_logStandConc := log (standardConcentration (thermo k))|>
       <|m_rfn := rfn|><|m_rfn_low := rfn_low|><|m_rfn_high := rfn_high|>
       <|falloff_work := work|><|m_grt := grt|><|m_rkcn := rkcn|>
       <|m_ROP_ok := ok|><|m_bulk_rates := rates|>
       <|m_pres := pressure (thermo k)|><|m_temp := temperature (thermo k)|>.
Proof.
  rewrite update_rates_T_cases.
  unfold update_rates_T_full, update_rates_T_pressure_only, update_rates_T_hit.
  cbv zeta.
  set (k0 := k<|m_logStandConc := log (standardConcentration (thermo k))|>).
  destruct (fne (temperature (thermo k)) (m_temp k));
    [|destruct (fne (pressure (thermo k)) (m_pres k))].
  - destruct (update_rates_T_changed_frame (temperature (thermo k))
                (log (temperature (thermo k))) k0) as (a&b&c&d&e&f&->).
    match goal with |- context [update_bulk_rates ?x] =>
      destruct (update_bulk_rates_frame x) as (r&v&o&->) end.
    match goal with |- context [update_rates_TP_changed ?T ?l ?x] =>
      destruct (update_rates_TP_changed_frame T l x) as (v'&o'&->) end.
    subst k0. cbn. do 8 eexists. reflexivity.
  - match goal with |- context [update_bulk_rates ?x] =>
      destruct (update_bulk_rates_frame x) as (r&v&o&->) end.
    match goal with |- context [update_rates_TP_changed ?T ?l ?x] =>
      destruct (update_rates_TP_changed_frame T l x) as (v'&o'&->) end.
    subst k0. cbn. do 8 eexists. reflexivity.
  - match goal with |- context [update_bulk_rates ?x] =>
      destruct (update_bulk_rates_frame x) as (r&v&o&->) end.
    subst k0. cbn. do 8 eexists. reflexivity.
Qed.

Lemma update_rates_T_pressure_only_frame k :
  ∃ rfn ok rates,
    update_rates_T_pressure_only k =
      k<|m_logStandConc := log (standardConcentration (thermo k))|>
       <|m_rfn := rfn|><|m_ROP_ok := ok|><|m_bulk_rates := rates|>
       <|m_pres := pressure (thermo k)|><|m_temp := temperature (thermo k)|>.
Proof.
  unfold update_rates_T_pressure_only. cbv zeta.
  match goal with |- context [update_bulk_rates ?x] =>
    destruct (update_bulk_rates_frame x) as (r&v&o&->) end.
  match goal with |- context [update_rates_TP_changed ?T ?l ?x] =>
    destruct (update_rates_TP_changed_frame T l x) as (v'&o'&->) end.
  cbn. do 3 eexists. reflexivity.
Qed.

Lemma update_rates_T_hit_frame k :
  ∃ rfn ok rates,
    update_rates_T_hit k =
      k<|m_logStandConc := log (standardConcentration (thermo k))|>
       <|m_rfn := rfn|><|m_ROP_ok := ok|><|m_bulk_rates := rates|>
       <|m_pres := pressure (thermo k)|><|m_temp := temperature (thermo k)|>.
Proof.
  unfold update_rates_T_hit. cbv zeta.
  match goal with |- context [update_bulk_rates ?x] =>
    destruct (update_bulk_rates_frame x) as (r&v&o&->) end.
  cbn. do 3 eexists. reflexivity.
Qed.

Lemma update_bulk_rates_none k : m_bulk_rates k = [] → update_bulk_rates k = k.
Proof. intros H. unfold update_bulk_rates. rewrite H. reflexivity. Qed.

End Frames.

Section Pipeline.
Context {collab : Collaborators} {base : BaseKinetics}.

(** ** Loops that can throw *)

Lemma forM_seq_rule (I : nat → GasKinetics → Prop) (Q : GasKinetics → CanteraError → Prop)
    (body : nat → M unit) (n : nat) (k : GasKinetics) :
  I 0%nat k →
  (∀ i s, (i < n)%nat → I i s →
     match body i s with
     | (s', Normal _) => I (S i) s'
     | (s', Throw e) => Q s' e
     end) →
  match forM_ (seq 0 n) body k with
  | (s', Normal _) => I n s'
  | (s', Throw e) => Q s' e
  end.
Proof.
  intros H0 Hstep.
  assert (∀ m a s, (a + m = n)%nat → I a s →
            match forM_ (seq a m) body s with
            | (s', Normal _) => I n s'
            | (s', Throw e) => Q s' e
            end) as Hgen.
  { induction m as [|m IH]; intros a s Ham Ha.
    - cbn. by replace n with a by lia.
    - cbn. unfold bind at 1.
      specialize (Hstep a s ltac:(lia) Ha).
      destruct (body a s) as [s' [[]|e]]; [|done].
      apply IH; [lia|done]. }
  by apply Hgen.
Qed.

Lemma AssertFinite_cases (x : float) (proc vec : string) (i : nat) (k : GasKinetics) :
  AssertFinite x proc vec i k =
    if is_finite x then (k, Normal tt)
    else (k, Throw (CanteraError_ proc (not_finite_message vec i))).
Proof. unfold AssertFinite. by destruct (is_finite x). Qed.

(** ** The reduced-pressure loop *)

Lemma falloff_pr_loop (n : nat) (k : GasKinetics) :
  match forM_ (seq 0 n) falloff_pr_step k with
  | (k', Normal _) =>
      k' = k<|m_ropr := for_loop n (elementwise_body (λ i _, reduced_pressure k i)) (m_ropr k)|>
      ∧ ∀ i, (i < n)%nat → is_finite (m_ropr k' !!! i) = true
  | (k', Throw e) =>
      ∃ i, (i < n)%nat
        ∧ e = CanteraError_ "GasKinetics::processFalloffReactions"
                (not_finite_message "pr" i)
        ∧ is_finite (m_ropr k' !!! i) = false
        ∧ k' = k<|m_ropr :=
                 for_loop (S i) (elementwise_body (λ i _, reduced_pressure k i)) (m_ropr k)|>
  end.
Proof.
  set (h := λ (i : nat) (_ : float), reduced_pressure k i).
  apply (forM_seq_rule
    (λ i s, s = k<|m_ropr := for_loop i (elementwise_body h) (m_ropr k)|>
            ∧ ∀ j, (j < i)%nat → is_finite (m_ropr s !!! j) = true)
    (λ s e, ∃ i, (i < n)%nat
        ∧ e = CanteraError_ "GasKinetics::processFalloffReactions"
                (not_finite_message "pr" i)
        ∧ is_finite (m_ropr s !!! i) = false
        ∧ s = k<|m_ropr := for_loop (S i) (elementwise_body h) (m_ropr k)|>)).
  - split; [reflexivity|]. intros j Hj. lia.
  - intros i s Hi [-> Hfin].
    set (v := for_loop i (elementwise_body h) (m_ropr k)) in *.
    unfold falloff_pr_step.
    cbv beta iota delta [bind modify gets].
    rewrite AssertFinite_cases.
    assert (k<|m_ropr := v|><|m_ropr ::=
              <[i := concm_falloff_values (k<|m_ropr := v|>) !!! i
                     * m_rfn_low (k<|m_ropr := v|>) !!! i
                     / (m_rfn_high (k<|m_ropr := v|>) !!! i + SmallNumber)]>|>
            = k<|m_ropr := for_loop (S i) (elementwise_body h) (m_ropr k)|>) as ->.
    { rewrite for_loop_S. reflexivity. }
    change (m_ropr (k<|m_ropr := for_loop (S i) (elementwise_body h) (m_ropr k)|>))
      with (for_loop (S i) (elementwise_body h) (m_ropr k)).
    destruct (is_finite (for_loop (S i) (elementwise_body h) (m_ropr k) !!! i)) eqn:Hf.
    + split; [reflexivity|]. intros j Hj.
      change (m_ropr (k<|m_ropr := for_loop (S i) (elementwise_body h) (m_ropr k)|>))
        with (for_loop (S i) (elementwise_body h) (m_ropr k)).
      destruct (decide (j = i)) as [->|Hne]; [done|].
      rewrite for_loop_S. unfold elementwise_body at 1.
      rewrite list_lookup_total_insert_ne by done.
      apply (Hfin j). lia.
    + exists i. repeat split; done.
Qed.

(** ** The scaling loop *)

Lemma falloff_scale_loop (p : dptr) (n : nat) (s0 : GasKinetics) :
  p ≠ p_ropr →
  let G m := for_loop m (elementwise_body (λ i x, x * falloff_limit s0 i)) (m_ropr s0) in
  let F m := for_loop m (λ i v, <[m_fallindx s0 !!! i := G (S i) !!! i]> v) (deref p s0) in
  for_loop n (falloff_scale_step p) s0 = assign p (λ _, F n) (s0<|m_ropr := G n|>).
Proof.
  intros Hp G F. induction n as [|n IH].
  - destruct p; done.
  - rewrite for_loop_S, IH. subst F. cbv beta. rewrite (for_loop_S n).
    generalize (for_loop n (λ i v, <[m_fallindx s0 !!! i := G (S i) !!! i]> v) (deref p s0)).
    intros Fn. subst G. cbv beta. rewrite (for_loop_S n).
    generalize (for_loop n (elementwise_body (λ i x, x * falloff_limit s0 i)) (m_ropr s0)).
    intros Gn.
    unfold falloff_scale_step, elementwise_body, falloff_limit, reactionTypeStr.
    destruct p; try done; cbn;
      destruct (m_reactions s0 !! (m_fallindx s0 !!! n)) as [r|]; cbn;
      try destruct (String.eqb (type r) "falloff-legacy"); reflexivity.
Qed.

Lemma scatter_by_position (fi : nat → nat) (w : nat → float) (n : nat) (v0 : vector_fp) (i : nat) :
  (∀ a b, (a < n)%nat → (b < n)%nat → fi a = fi b → a = b) →
  (i < n)%nat → (fi i < length v0)%nat →
  for_loop n (λ j v, <[fi j := w j]> v) v0 !!! fi i = w i.
Proof.
  intros Hinj Hi Hlen.
  assert (∀ m, length (for_loop m (λ j v, <[fi j := w j]> v) v0) = length v0) as Hl.
  { induction m as [|m IH]; [done|]. by rewrite for_loop_S, length_insert. }
  induction n as [|n IH]; [lia|].
  rewrite for_loop_S. destruct (decide (i = n)) as [->|Hne].
  - rewrite list_lookup_total_insert_eq; [done|]. by rewrite Hl.
  - rewrite list_lookup_total_insert_ne.
    + apply IH; [|lia]. intros a b Ha Hb. apply Hinj; lia.
    + intros Heq. apply Hne. symmetry. apply Hinj; [lia|lia|done].
Qed.

(** ** [processFalloffReactions] as a whole *)

Lemma processFalloffReactions_spec (p : dptr) (k : GasKinetics) :
  p ≠ p_ropr →
  let n := Rate1_nReactions (m_falloff_low_rates k) in
  let pr m := for_loop m (elementwise_body (λ i _, reduced_pressure k i)) (m_ropr k) in
  let blended :=
    in_place (λ pr, FalloffMgr_pr_to_falloff (m_falloffn k) pr (falloff_work k)) (pr n) in
  let G m := for_loop m (elementwise_body (λ i x, x * falloff_limit k i)) blended in
  let F m := for_loop m (λ i v, <[m_fallindx k !!! i := G (S i) !!! i]> v) (deref p k) in
  match processFalloffReactions p k with
  | (k', Normal _) =>
      k' = assign p (λ _, F n) (k<|m_ropr := G n|>)
      ∧ ∀ i, (i < n)%nat → is_finite (pr n !!! i) = true
  | (k', Throw e) =>
      ∃ i, (i < n)%nat
        ∧ e = CanteraError_ "GasKinetics::processFalloffReactions"
                (not_finite_message "pr" i)
        ∧ is_finite (m_ropr k' !!! i) = false
        ∧ k' = k<|m_ropr := pr (S i)|>
  end.
Proof.
  intros Hp n pr blended G F.
  unfold processFalloffReactions.
  cbv beta iota delta [bind modify gets]. fold n.
  pose proof (falloff_pr_loop n k) as Hloop.
  destruct (forM_ (seq 0 n) falloff_pr_step k) as [k1 [[]|e]]; [|exact Hloop].
  destruct Hloop as [-> Hfin]. split; [|exact Hfin].
  change (Rate1_nReactions (m_falloff_low_rates _)) with n.
  rewrite falloff_scale_loop by done.
  destruct p; try done; reflexivity.
Qed.

(** ** [processFwdRateCoefficients] and [updateROP] as a whole *)

Lemma processFwdRateCoefficients_spec (p : dptr) (k : GasKinetics) :
  let kT := update_rates_T (update_rates_C k) in
  let k1 := assign p (std_copy (m_rfn kT)) kT in
  let perturb s :=
    assign p (for_loop (nReactions s) (λ i v, <[i := v !!! i * m_perturb s !!! i]> v)) s in
  processFwdRateCoefficients p k =
    if Nat.eqb (Rate1_nReactions (m_falloff_high_rates k1)) 0
    then (perturb k1, Normal tt)
    else match processFalloffReactions p k1 with
         | (k2, Normal _) => (perturb k2, Normal tt)
         | (k2, Throw e) => (k2, Throw e)
         end.
Proof.
  intros kT k1 perturb. unfold processFwdRateCoefficients.
  cbv beta iota delta [bind modify gets ret]. fold kT. fold k1.
  destruct (Nat.eqb (Rate1_nReactions (m_falloff_high_rates k1)) 0);
    cbv beta iota delta [negb].
  - reflexivity.
  - destruct (processFalloffReactions p k1) as [k2 [[]|e]]; reflexivity.
Qed.

Lemma updateROP_spec (k : GasKinetics) :
  updateROP k =
    match processFwdRateCoefficients p_ropf k with
    | (k3, Normal _) =>
        match forM_ (seq 0 (length (m_rfn (assemble_rop k3)))) rop_finite_step
                (assemble_rop k3) with
        | (k5, Normal _) => (k5<|m_ROP_ok := true|>, Normal tt)
        | (k5, Throw e) => (k5, Throw e)
        end
    | (k3, Throw e) => (k3, Throw e)
    end.
Proof.
  unfold updateROP. cbv beta iota delta [bind modify gets ret].
  destruct (processFwdRateCoefficients p_ropf k) as [k3 [[]|e]]; [|reflexivity].
  destruct (forM_ _ rop_finite_step (assemble_rop k3)) as [k5 [[]|e]]; reflexivity.
Qed.

Lemma rop_finite_loop (n : nat) (k : GasKinetics) :
  match forM_ (seq 0 n) rop_finite_step k with
  | (k', Normal _) => k' = k ∧ ∀ i, (i < n)%nat → rop_entries_finite k i
  | (k', Throw e) =>
      k' = k ∧ ∃ i, (i < n)%nat ∧ (∀ j, (j < i)%nat → rop_entries_finite k j) ∧
        ((is_finite (m_rfn k !!! i) = false
          ∧ e = CanteraError_ "GasKinetics::updateROP" (not_finite_message "m_rfn" i))
         ∨ (is_finite (m_rfn k !!! i) = true ∧ is_finite (m_ropf k !!! i) = false
            ∧ e = CanteraError_ "GasKinetics::updateROP" (not_finite_message "m_ropf" i))
         ∨ (is_finite (m_rfn k !!! i) = true ∧ is_finite (m_ropf k !!! i) = true
            ∧ is_finite (m_ropr k !!! i) = false
            ∧ e = CanteraError_ "GasKinetics::updateROP" (not_finite_message "m_ropr" i)))
  end.
Proof.
  apply (forM_seq_rule
    (λ i s, s = k ∧ ∀ j, (j < i)%nat → rop_entries_finite k j)
    (λ s e, s = k ∧ ∃ i, (i < n)%nat ∧ (∀ j, (j < i)%nat → rop_entries_finite k j) ∧
        ((is_finite (m_rfn k !!! i) = false
          ∧ e = CanteraError_ "GasKinetics::updateROP" (not_finite_message "m_rfn" i))
         ∨ (is_finite (m_rfn k !!! i) = true ∧ is_finite (m_ropf k !!! i) = false
            ∧ e = CanteraError_ "GasKinetics::updateROP" (not_finite_message "m_ropf" i))
         ∨ (is_finite (m_rfn k !!! i) = true ∧ is_finite (m_ropf k !!! i) = true
            ∧ is_finite (m_ropr k !!! i) = false
            ∧ e = CanteraError_ "GasKinetics::updateROP" (not_finite_message "m_ropr" i))))).
  - split; [done|]. intros j Hj. lia.
  - intros i s Hi [-> Hfin]. unfold rop_finite_step.
    cbv beta iota delta [bind gets]. rewrite !AssertFinite_cases.
    destruct (is_finite (m_rfn k !!! i)) eqn:H1; cbv iota beta.
    2:{ split; [done|]. exists i. split; [done|]. split; [exact Hfin|]. by left. }
    rewrite !AssertFinite_cases.
    destruct (is_finite (m_ropf k !!! i)) eqn:H2; cbv iota beta.
    2:{ split; [done|]. exists i. split; [done|]. split; [exact Hfin|]. right. by left. }
    rewrite !AssertFinite_cases.
    destruct (is_finite (m_ropr k !!! i)) eqn:H3; cbv iota beta.
    2:{ split; [done|]. exists i. split; [done|]. split; [exact Hfin|]. right. by right. }
    split; [done|]. intros j Hj.
    destruct (decide (j = i)) as [->|Hne]; [done|]. apply Hfin. lia.
Qed.

End Pipeline.

(** ** The concentration update, run twice *)

Section Concentrations.
Context {collab : Collaborators} {base : BaseKinetics}.

(** What [update_rates_C] stores. *)
Lemma update_rates_C_fields k :
  let phys := std_copy (getConcentrations (thermo k)) (m_phys_conc k) in
  let r := concm_pass (m_multi_concm k) (m_3b_concm k) (m_falloff_concm k) phys
             (molarDensity (thermo k))
             (concm_3b_values k, concm_falloff_values k, m_concm k) in
  update_rates_C k =
    k<|m_act_conc := std_copy (getActivityConcentrations (thermo k)) (m_act_conc k)|>
     <|m_phys_conc := phys|>
     <|m_concm := r.2|><|concm_3b_values := r.1.1|><|concm_falloff_values := r.1.2|>
     <|m_plog_rates := update_C_if_any (m_plog_rates k) (log (pressure (thermo k)))|>
     <|m_cheb_rates := update_C_if_any (m_cheb_rates k) (log10 (pressure (thermo k)))|>
     <|m_ROP_ok := false|>.
Proof. reflexivity. Qed.

Lemma in_place_overwrite f ws b :
  (∀ b, f b = overwrite ws b) → in_place f b = overwrite ws b.
Proof.
  intros Hf. unfold in_place. rewrite Hf.
  apply std_copy_same_length, overwrite_length.
Qed.

Lemma empty_in_place f (v : vector_fp) : empty (in_place f v) = empty v.
Proof.
  pose proof (in_place_length f v) as H.
  destruct v, (in_place f _); cbn in *; congruence.
Qed.

Lemma empty_overwrite ws (v : vector_fp) : empty (overwrite ws v) = empty v.
Proof.
  pose proof (overwrite_length ws v) as H.
  destruct v, (overwrite ws _); cbn in *; congruence.
Qed.

Lemma overwrite2_idemp a b c :
  overwrite b (overwrite a (overwrite b (overwrite a c))) = overwrite b (overwrite a c).
Proof. rewrite <- !(overwrite_app a b). apply overwrite_idemp. Qed.

Lemma overwrite3_idemp a b d c :
  overwrite d (overwrite b (overwrite a (overwrite d (overwrite b (overwrite a c)))))
  = overwrite d (overwrite b (overwrite a c)).
Proof.
  rewrite <- !(overwrite_app a b), <- !(overwrite_app (a ++ b) d).
  apply overwrite_idemp.
Qed.

(** With calculators that write fixed entries, running the third-body blocks
    twice gives what running them once gives. *)
Lemma concm_pass_idemp multi calc3b calcfall phys ctot x :
  (∀ m c t, is_overwrite (MultiThirdBody_update m c t)) →
  (∀ m c t, is_overwrite (ThirdBodyCalc_update m c t)) →
  (∀ m w, is_overwrite (ThirdBodyCalc_copy m w)) →
  concm_pass multi calc3b calcfall phys ctot
    (concm_pass multi calc3b calcfall phys ctot x)
  = concm_pass multi calc3b calcfall phys ctot x.
Proof.
  intros Hmulti Hupd Hcopy. destruct x as [[w3 wf] c].
  unfold concm_pass, update_legacy_concm.
  destruct (Hmulti multi phys ctot) as [wsm Hm].
  destruct (Hupd calc3b phys ctot) as [ws3 H3].
  destruct (Hupd calcfall phys ctot) as [wsf Hf].
  rewrite !(in_place_overwrite _ wsm _ Hm).
  rewrite ?(in_place_overwrite _ ws3 _ H3).
  rewrite ?(in_place_overwrite _ wsf _ Hf).
  destruct (Hcopy calc3b (overwrite ws3 w3)) as [wc3 Hc3].
  destruct (Hcopy calcfall (overwrite wsf wf)) as [wcf Hcf].
  destruct (empty w3) eqn:E3, (empty wf) eqn:Ef; cbn [negb fst snd];
    rewrite ?empty_overwrite, ?E3, ?Ef; cbn [negb fst snd];
    rewrite ?overwrite_idemp;
    rewrite ?(in_place_overwrite _ ws3 _ H3), ?(in_place_overwrite _ wsf _ Hf);
    rewrite ?overwrite_idemp;
    rewrite ?(in_place_overwrite _ wc3 _ Hc3), ?(in_place_overwrite _ wcf _ Hcf);
    rewrite ?overwrite3_idemp, ?overwrite2_idemp, ?overwrite_idemp; reflexivity.
Qed.

End Concentrations.

(** ** The evaluators shared with [BulkKinetics] *)

Section Bulk.
Context {collab : Collaborators} {base : BaseKinetics}.

Lemma update_bulk_rate_rates i k r0 :
  m_bulk_rates k !! i = Some r0 →
  m_bulk_rates (update_bulk_rate i k)
  = <[i := (MultiRate_update r0 (thermo k) k).1]> (m_bulk_rates k)
  ∧ m_concm (update_bulk_rate i k) = m_concm k
  ∧ thermo (update_bulk_rate i k) = thermo k.
Proof.
  intros H. unfold update_bulk_rate. rewrite H.
  destruct (MultiRate_update r0 (thermo k) k) as [r' []]; cbn; done.
Qed.

Lemma update_bulk_rate_unchanged i k r0 :
  m_bulk_rates k !! i = Some r0 →
  (MultiRate_update r0 (thermo k) k).2 = false →
  update_bulk_rate i k
  = k<|m_bulk_rates := <[i := (MultiRate_update r0 (thermo k) k).1]> (m_bulk_rates k)|>.
Proof.
  intros H Hc. unfold update_bulk_rate. rewrite H.
  destruct (MultiRate_update r0 (thermo k) k) as [r' ch]. cbn in Hc. subst ch.
  reflexivity.
Qed.

(** The loop over [m_bulk_rates] leaves every evaluator updated at the
    object's state. *)
Lemma bulk_loop_evaluated k n :
  (n ≤ length (m_bulk_rates k))%nat →
  let y := for_loop n update_bulk_rate k in
  m_concm y = m_concm k ∧ thermo y = thermo k
  ∧ length (m_bulk_rates y) = length (m_bulk_rates k)
  ∧ (∀ i, (n ≤ i)%nat → m_bulk_rates y !! i = m_bulk_rates k !! i)
  ∧ (∀ i r, (i < n)%nat → m_bulk_rates y !! i = Some r →
       ∃ r0 s, m_concm s = m_concm k ∧ r = (MultiRate_update r0 (thermo k) s).1).
Proof.
  induction n as [|n IH]; intros Hn; cbv zeta.
  - repeat split; try done. intros i r Hi. lia.
  - destruct (IH ltac:(lia)) as (Hc & Hth & Hlen & Hhi & Hlo). clear IH.
    rewrite for_loop_S. set (y := for_loop n update_bulk_rate k) in *.
    destruct (lookup_lt_is_Some_2 (m_bulk_rates k) n ltac:(lia)) as [r0 Hr0].
    assert (m_bulk_rates y !! n = Some r0) as Hy by (by rewrite Hhi).
    destruct (update_bulk_rate_rates n y r0 Hy) as (-> & -> & ->).
    rewrite length_insert. repeat split; try done.
    + intros i Hi. rewrite list_lookup_insert_ne by lia. apply Hhi. lia.
    + intros i r Hi Hr. destruct (decide (i = n)) as [->|Hne].
      * rewrite list_lookup_insert_eq in Hr by lia.
        injection Hr as <-. exists r0, y. by rewrite Hth.
      * rewrite list_lookup_insert_ne in Hr by done. apply (Hlo i r); [lia|done].
Qed.

Lemma update_bulk_rates_evaluated k :
  evaluated_at (thermo k) (m_concm k) (m_bulk_rates (update_bulk_rates k)).
Proof.
  destruct (bulk_loop_evaluated k (length (m_bulk_rates k)) ltac:(lia))
    as (_ & _ & Hlen & _ & Hlo).
  intros i r Hr. apply (Hlo i r); [|exact Hr].
  apply lookup_lt_Some in Hr. unfold update_bulk_rates in Hr. lia.
Qed.

(** When every evaluator has just been updated at this state and reports no
    change on a second update, the loop changes the evaluators only. *)
Lemma bulk_loop_settled k :
  (∀ r s s', m_concm s = m_concm s' →
     (MultiRate_update (MultiRate_update r (thermo k) s).1 (thermo k) s').2 = false) →
  evaluated_at (thermo k) (m_concm k) (m_bulk_rates k) →
  ∃ rates, update_bulk_rates k = k<|m_bulk_rates := rates|>.
Proof.
  intros Hbulk Hev. unfold update_bulk_rates.
  assert (∀ n, (n ≤ length (m_bulk_rates k))%nat →
            ∃ rs, for_loop n update_bulk_rate k = k<|m_bulk_rates := rs|>
                  ∧ length rs = length (m_bulk_rates k)
                  ∧ ∀ i, (n ≤ i)%nat → rs !! i = m_bulk_rates k !! i) as Hgen.
  { induction n as [|n IH]; intros Hn.
    - exists (m_bulk_rates k). done.
    - destruct (IH ltac:(lia)) as (rs & Hrs & Hlen & Hhi). clear IH.
      rewrite for_loop_S, Hrs.
      destruct (lookup_lt_is_Some_2 (m_bulk_rates k) n ltac:(lia)) as [r Hr].
      destruct (Hev n r Hr) as (r0 & s & Hs & ->).
      rewrite (update_bulk_rate_unchanged n _ (MultiRate_update r0 (thermo k) s).1).
      + exists (<[n := (MultiRate_update (MultiRate_update r0 (thermo k) s).1
                             (thermo k) (k<|m_bulk_rates := rs|>)).1]> rs).
        split; [reflexivity|]. rewrite length_insert. split; [done|].
        intros i Hi. rewrite list_lookup_insert_ne by lia. apply Hhi. lia.
      + change (rs !! n = Some (MultiRate_update r0 (thermo k) s).1).
        by rewrite Hhi.
      + apply Hbulk. exact Hs. }
  destruct (Hgen _ (le_n _)) as (rs & -> & _). by exists rs.
Qed.

Lemma update_rates_T_evaluated k :
  evaluated_at (thermo k) (m_concm k) (m_bulk_rates (update_rates_T k)).
Proof.
  rewrite update_rates_T_cases.
  unfold update_rates_T_full, update_rates_T_pressure_only, update_rates_T_hit.
  cbv zeta.
  set (k0 := k<|m_logStandConc := log (standardConcentration (thermo k))|>).
  destruct (fne (temperature (thermo k)) (m_temp k));
    [|destruct (fne (pressure (thermo k)) (m_pres k))].
  - destruct (update_rates_T_changed_frame (temperature (thermo k))
                (log (temperature (thermo k))) k0) as (a&b&c&d&e&f&->).
    match goal with |- context [update_bulk_rates ?x] =>
      pose proof (update_bulk_rates_evaluated x) as Hx end.
    match goal with |- context [update_rates_TP_changed ?T ?l ?x] =>
      destruct (update_rates_TP_changed_frame T l x) as (v'&o'&->) end.
    exact Hx.
  - match goal with |- context [update_bulk_rates ?x] =>
      pose proof (update_bulk_rates_evaluated x) as Hx end.
    match goal with |- context [update_rates_TP_changed ?T ?l ?x] =>
      destruct (update_rates_TP_changed_frame T l x) as (v'&o'&->) end.
    exact Hx.
  - exact (update_bulk_rates_evaluated k0).
Qed.

End Bulk.

(** ** Loops that cover the whole vector *)

Lemma lookup_total_past_end (v : vector_fp) (i : nat) :
  (length v ≤ i)%nat → v !!! i = 0.
Proof.
  intros H. rewrite list_lookup_total_alt.
  by rewrite (proj2 (lookup_ge_None v i) H).
Qed.

Lemma elementwise_lookup_total h n v j :
  for_loop n (elementwise_body h) v !!! j
  = if decide (j < n ∧ j < length v)%nat then h j (v !!! j) else v !!! j.
Proof.
  destruct (decide (j < length v)%nat) as [Hj|Hj].
  - rewrite elementwise_lookup by done.
    destruct (decide (j < n)%nat).
    + by rewrite decide_True.
    + by rewrite decide_False by tauto.
  - rewrite decide_False by tauto.
    rewrite !lookup_total_past_end; [done|lia|rewrite elementwise_length; lia].
Qed.

Lemma std_copy_covering (src dst dst' : vector_fp) :
  length dst = length dst' → (length dst ≤ length src)%nat →
  std_copy src dst = std_copy src dst'.
Proof.
  intros Hl Hle. unfold std_copy. rewrite <- Hl.
  by rewrite !drop_ge, !app_nil_r by lia.
Qed.

Lemma store_loop_length (g : nat → float) n (v : vector_fp) :
  length (for_loop n (λ j v, <[j := g j]> v) v) = length v.
Proof.
  induction n as [|n IH]; [done|]. by rewrite for_loop_S, length_insert.
Qed.

Lemma store_loop_lookup (g : nat → float) n (v : vector_fp) j :
  for_loop n (λ j v, <[j := g j]> v) v !! j
  = if decide (j < n ∧ j < length v)%nat then Some (g j) else v !! j.
Proof.
  induction n as [|n IH].
  - by rewrite decide_False by lia.
  - rewrite for_loop_S. destruct (decide (j = n)) as [->|Hne].
    + destruct (decide (n < length v)%nat) as [Hn|Hn].
      * rewrite list_lookup_insert_eq by (by rewrite store_loop_length).
        by rewrite decide_True by lia.
      * rewrite decide_False by tauto.
        rewrite (proj2 (lookup_ge_None v n)) by lia.
        apply lookup_ge_None. rewrite length_insert, store_loop_length. lia.
    + rewrite list_lookup_insert_ne by done. rewrite IH.
      destruct (decide (j < n ∧ j < length v)%nat).
      * by rewrite decide_True by lia.
      * by rewrite decide_False by lia.
Qed.

Lemma store_loop_covering (g : nat → float) n (v v' : vector_fp) :
  length v = length v' → (length v ≤ n)%nat →
  for_loop n (λ j v, <[j := g j]> v) v = for_loop n (λ j v, <[j := g j]> v) v'.
Proof.
  intros Hl Hn. apply list_eq. intros j. rewrite !store_loop_lookup, <- Hl.
  destruct (decide (j < n ∧ j < length v)%nat) as [|Hj]; [done|].
  rewrite !(proj2 (lookup_ge_None _ j)); [done|lia|lia].
Qed.

Lemma indexed_store_length (fi : nat → nat) (w : nat → float) n (v : vector_fp) :
  length (for_loop n (λ i u, <[fi i := w i]> u) v) = length v.
Proof.
  induction n as [|n IH]; [done|]. by rewrite for_loop_S, length_insert.
Qed.

Section Determinacy.
Context {collab : Collaborators} {base : BaseKinetics}.

(** [processFalloffReactions] reads of [m_ropr] what it has stored itself,
    as long as the falloff manager blends the reduced pressures entry by
    entry. *)
Lemma falloff_determinacy (k k2 : GasKinetics) b c o p q r :
  let n := Rate1_nReactions (m_falloff_low_rates k) in
  let k' := k<|m_ropr := b|><|m_ropnet := c|><|m_ROP_ok := o|>
             <|m_plog_rates := p|><|m_cheb_rates := q|><|m_bulk_rates := r|> in
  (∀ pr pr' : vector_fp, length pr = length pr' →
     (∀ i, (i < n)%nat → pr !!! i = pr' !!! i) →
     ∀ i, (i < n)%nat →
       in_place (λ pr, FalloffMgr_pr_to_falloff (m_falloffn k) pr (falloff_work k)) pr !!! i
       = in_place (λ pr, FalloffMgr_pr_to_falloff (m_falloffn k) pr (falloff_work k)) pr'
           !!! i) →
  length b = length (m_ropr k) →
  processFalloffReactions p_ropf k = (k2, Normal tt) →
  ∃ b', length b' = length (m_ropr k2) ∧
    processFalloffReactions p_ropf k'
    = (k2<|m_ropr := b'|><|m_ropnet := c|><|m_ROP_ok := o|>
         <|m_plog_rates := p|><|m_cheb_rates := q|><|m_bulk_rates := r|>, Normal tt).
Proof.
  intros n k' Hpr Hlen Hrun.
  pose proof (processFalloffReactions_spec p_ropf k ltac:(done)) as HA.
  pose proof (processFalloffReactions_spec p_ropf k' ltac:(done)) as HB.
  cbv zeta in HA, HB. rewrite Hrun in HA. destruct HA as [HA HfinA].
  set (PR := λ (v : vector_fp) m,
         for_loop m (elementwise_body (λ i _, reduced_pressure k i)) v).
  set (BL := λ v,
         in_place (λ pr, FalloffMgr_pr_to_falloff (m_falloffn k) pr (falloff_work k))
           (PR v n)).
  set (G := λ v m, for_loop m (elementwise_body (λ i x, x * falloff_limit k i)) (BL v)).
  set (F := λ v m,
         for_loop m (λ i u, <[m_fallindx k !!! i := G v (S i) !!! i]> u) (m_ropf k)).
  assert (k2 = k<|m_ropr := G (m_ropr k) n|><|m_ropf := F (m_ropr k) n|>) as HA'
    by exact HA.
  assert (∀ i m m', (i < m)%nat → (i < m')%nat → PR b m !!! i = PR (m_ropr k) m' !!! i)
    as HPR.
  { intros i m m' Hm Hm'. unfold PR. rewrite !elementwise_lookup_total, Hlen.
    destruct (decide (i < length (m_ropr k))%nat) as [Hi|Hi].
    - by rewrite !decide_True by lia.
    - rewrite !decide_False by lia. by rewrite !lookup_total_past_end by lia. }
  assert (∀ i, (i < n)%nat → G b (S i) !!! i = G (m_ropr k) (S i) !!! i) as HG.
  { intros i Hi. unfold G. rewrite !elementwise_lookup_total.
    assert (length (BL b) = length (BL (m_ropr k))) as Hl.
    { unfold BL, PR. by rewrite !in_place_length, !elementwise_length. }
    assert (BL b !!! i = BL (m_ropr k) !!! i) as Hbl.
    { unfold BL. apply Hpr; [| |done].
      - unfold PR. by rewrite !elementwise_length.
      - intros j Hj. by apply HPR. }
    rewrite Hl, Hbl. reflexivity. }
  assert (F b n = F (m_ropr k) n) as HF.
  { unfold F. apply for_loop_ext. intros i u Hi. by rewrite HG. }
  destruct (processFalloffReactions p_ropf k') as [k2' [[]|e]].
  - assert (k2' = k'<|m_ropr := G b n|><|m_ropf := F b n|>) as HB'
      by exact (proj1 HB).
    exists (G b n). split.
    + assert (m_ropr k2 = G (m_ropr k) n) as -> by (rewrite HA'; reflexivity).
      unfold G, BL, PR.
      rewrite !elementwise_length, !in_place_length, !elementwise_length.
      exact Hlen.
    + rewrite HB', HA', HF. reflexivity.
  - exfalso. destruct HB as (i & Hi & _ & Hnf & Hk2').
    change (i < n)%nat in Hi.
    assert (m_ropr k2' !!! i = PR b (S i) !!! i) as Hv by (rewrite Hk2'; reflexivity).
    rewrite Hv, (HPR i (S i) n) in Hnf by lia.
    assert (is_finite (PR (m_ropr k) n !!! i) = true) as Hf by exact (HfinA i Hi).
    rewrite Hf in Hnf. discriminate.
Qed.

(** What [assemble_rop] stores, from the vectors it finds. *)
Lemma assemble_rop_fields (k : GasKinetics) :
  let f0 := if negb (empty (concm_3b_values k))
            then in_place (λ v, ThirdBodyCalc_multiply (m_3b_concm k) v
                                  (concm_3b_values k)) (m_ropf k)
            else m_ropf k in
  let f1 := if negb (empty (m_concm k))
            then in_place (λ v, MultiThirdBody_multiply (m_multi_concm k) v (m_concm k)) f0
            else f0 in
  let f2 := in_place (StoichManagerN_multiply (m_reactantStoich k) (m_act_conc k)) f1 in
  let r1 := for_loop (nReactions k) (λ i v, <[i := v !!! i * m_rkcn k !!! i]> v)
              (std_copy f1 (m_ropr k)) in
  let r2 := in_place (StoichManagerN_multiply (m_revProductStoich k) (m_act_conc k)) r1 in
  length f1 = length (m_ropf k)
  ∧ assemble_rop k
    = k<|m_ropf := f2|><|m_ropr := r2|>
       <|m_ropnet := for_loop (nReactions k) (λ j v, <[j := f2 !!! j - r2 !!! j]> v)
                       (m_ropnet k)|>.
Proof.
  cbv zeta. unfold assemble_rop, processThirdBodies, processEquilibriumConstants.
  cbv zeta.
  destruct (negb (empty (concm_3b_values k))).
  - change (m_concm (assign p_ropf _ k)) with (m_concm k).
    destruct (negb (empty (m_concm k))).
    + split; [by rewrite !in_place_length|reflexivity].
    + split; [by rewrite !in_place_length|reflexivity].
  - destruct (negb (empty (m_concm k))).
    + split; [by rewrite !in_place_length|reflexivity].
    + split; reflexivity.
Qed.

(** [assemble_rop] overwrites the reverse and the net rates of progress it
    finds, when these vectors are no longer than what is stored in them. *)
Lemma assemble_determinacy (k : GasKinetics) b c o p q r :
  let k' := k<|m_ropr := b|><|m_ropnet := c|><|m_ROP_ok := o|>
             <|m_plog_rates := p|><|m_cheb_rates := q|><|m_bulk_rates := r|> in
  length b = length (m_ropr k) → length c = length (m_ropnet k) →
  (length (m_ropr k) ≤ length (m_ropf k))%nat →
  (length (m_ropnet k) ≤ nReactions k)%nat →
  assemble_rop k'
  = (assemble_rop k)<|m_ROP_ok := o|>
      <|m_plog_rates := p|><|m_cheb_rates := q|><|m_bulk_rates := r|>.
Proof.
  intros k' Hb Hc Hr Hn.
  destruct (assemble_rop_fields k) as [Hl HA].
  destruct (assemble_rop_fields k') as [_ HB].
  cbv zeta in Hl, HA, HB.
  set (f1 := if negb (empty (m_concm k)) then _ else _) in Hl, HA.
  set (f2 := in_place (StoichManagerN_multiply (m_reactantStoich k) (m_act_conc k)) f1)
    in HA.
  set (R2 := λ v : vector_fp,
         in_place (StoichManagerN_multiply (m_revProductStoich k) (m_act_conc k))
           (for_loop (nReactions k)
              (λ i (v : vector_fp), <[i := v !!! i * m_rkcn k !!! i]> v)
              (std_copy f1 v))).
  set (N2 := λ (v w : vector_fp),
         for_loop (nReactions k)
           (λ j (u : vector_fp), <[j := f2 !!! j - R2 v !!! j]> u) w).
  assert (assemble_rop k
          = k<|m_ropf := f2|><|m_ropr := R2 (m_ropr k)|>
             <|m_ropnet := N2 (m_ropr k) (m_ropnet k)|>) as HA' by exact HA.
  assert (assemble_rop k'
          = k'<|m_ropf := f2|><|m_ropr := R2 b|><|m_ropnet := N2 b c|>) as HB'
    by exact HB.
  assert (R2 b = R2 (m_ropr k)) as HR.
  { unfold R2. by rewrite (std_copy_covering f1 b (m_ropr k)) by lia. }
  assert (N2 b c = N2 (m_ropr k) (m_ropnet k)) as HN.
  { unfold N2. rewrite HR. apply store_loop_covering; lia. }
  rewrite HB', HA', HR, HN. reflexivity.
Qed.

(** The finiteness checks read the forward rate constants and the forward
    and reverse rates of progress only. *)
Lemma rop_finite_determinacy (n : nat) (k kA : GasKinetics) o p q r :
  forM_ (seq 0 n) rop_finite_step k = (kA, Normal tt) →
  forM_ (seq 0 n) rop_finite_step
    (k<|m_ROP_ok := o|><|m_plog_rates := p|><|m_cheb_rates := q|><|m_bulk_rates := r|>)
  = (kA<|m_ROP_ok := o|><|m_plog_rates := p|><|m_cheb_rates := q|><|m_bulk_rates := r|>,
     Normal tt).
Proof.
  intros Hrun.
  pose proof (rop_finite_loop n k) as HA. rewrite Hrun in HA. destruct HA as [-> Hfin].
  set (k' := k<|m_ROP_ok := o|><|m_plog_rates := p|><|m_cheb_rates := q|>
               <|m_bulk_rates := r|>).
  pose proof (rop_finite_loop n k') as HB.
  destruct (forM_ (seq 0 n) rop_finite_step k') as [kB [[]|e]].
  - destruct HB as [-> _]. reflexivity.
  - exfalso. destruct HB as (_ & i & Hi & _ & Hbad).
    destruct (Hfin i Hi) as (H1 & H2 & H3).
    change (m_rfn k') with (m_rfn k) in Hbad.
    change (m_ropf k') with (m_ropf k) in Hbad.
    change (m_ropr k') with (m_ropr k) in Hbad.
    destruct Hbad as [[? _]|[(_ & ? & _)|(_ & _ & ? & _)]]; congruence.
Qed.

(** The state [processFwdRateCoefficients] leaves is the state the two
    updates leave, but for the forward-rate buffer and for [m_ropr]. *)
Lemma processFwdRateCoefficients_shape (k k3 : GasKinetics) :
  let s := update_rates_T (update_rates_C k) in
  processFwdRateCoefficients p_ropf k = (k3, Normal tt) →
  k3 = s<|m_ropf := m_ropf k3|><|m_ropr := m_ropr k3|>
  ∧ length (m_ropf k3) = length (m_ropf s)
  ∧ length (m_ropr k3) = length (m_ropr s).
Proof.
  intros s Hrun. rewrite processFwdRateCoefficients_spec in Hrun.
  cbv beta zeta in Hrun.
  change (update_rates_T (update_rates_C k)) with s in Hrun. clearbody s.
  set (k1 := assign p_ropf (std_copy (m_rfn s)) s) in Hrun.
  set (P := λ (n : nat) (t : GasKinetics) (v : vector_fp),
         for_loop n (elementwise_body (λ i x, x * m_perturb t !!! i)) v).
  destruct (Nat.eqb (Rate1_nReactions (m_falloff_high_rates k1)) 0).
  - assert (k3 = s<|m_ropf := P (nReactions s) s (std_copy (m_rfn s) (m_ropf s))|>)
      as -> by (injection Hrun as <-; reflexivity).
    split; [reflexivity|]. split; [|reflexivity].
    change (length (P (nReactions s) s (std_copy (m_rfn s) (m_ropf s)))
            = length (m_ropf s)).
    unfold P. by rewrite elementwise_length, std_copy_length.
  - pose proof (processFalloffReactions_spec p_ropf k1 ltac:(done)) as Hf.
    cbv zeta in Hf.
    destruct (processFalloffReactions p_ropf k1) as [k2 [[]|e]]; [|discriminate].
    destruct Hf as [Hk2 _].
    match type of Hk2 with
    | _ = assign p_ropf (λ _, ?F) (k1<|m_ropr := ?G|>) =>
        set (Fn := F) in Hk2; set (Gn := G) in Hk2;
        assert (length Fn = length (m_ropf s)) as HlF
          by (unfold Fn; rewrite indexed_store_length; apply std_copy_length);
        assert (length Gn = length (m_ropr s)) as HlG
          by (unfold Gn; rewrite elementwise_length, in_place_length, elementwise_length;
              reflexivity)
    end.
    clearbody Fn Gn.
    assert (k3 = s<|m_ropf := P (nReactions s) s Fn|><|m_ropr := Gn|>) as ->
      by (injection Hrun as <-; rewrite Hk2; reflexivity).
    split; [reflexivity|]. split; [|exact HlG].
    change (length (P (nReactions s) s Fn) = length (m_ropf s)).
    unfold P. by rewrite elementwise_length.
Qed.

(** The state [updateROP] leaves is the state the two updates leave, but for
    the rates of progress and the flag. *)
Lemma updateROP_shape (k k' : GasKinetics) :
  let s := update_rates_T (update_rates_C k) in
  updateROP k = (k', Normal tt) →
  k' = s<|m_ropf := m_ropf k'|><|m_ropr := m_ropr k'|><|m_ropnet := m_ropnet k'|>
        <|m_ROP_ok := true|>
  ∧ length (m_ropf k') = length (m_ropf s)
  ∧ length (m_ropr k') = length (m_ropr s)
  ∧ length (m_ropnet k') = length (m_ropnet s).
Proof.
  intros s Hrun. rewrite updateROP_spec in Hrun.
  pose proof (processFwdRateCoefficients_shape k) as Hshape. cbv zeta in Hshape.
  fold s in Hshape. clearbody s.
  destruct (processFwdRateCoefficients p_ropf k) as [k3 [[]|e]]; [|discriminate].
  destruct (Hshape k3 eq_refl) as (Hk3 & Hlf & Hlr). clear Hshape.
  pose proof (rop_finite_loop (length (m_rfn (assemble_rop k3))) (assemble_rop k3)) as Hloop.
  destruct (forM_ _ rop_finite_step (assemble_rop k3)) as [k5 [[]|e]]; [|discriminate].
  destruct Hloop as [-> _].
  destruct (assemble_rop_fields k3) as [Hl1 HA]. cbv zeta in Hl1, HA.
  match type of HA with
  | _ = _<|m_ropf := ?f2|><|m_ropr := ?r2|><|m_ropnet := ?n2|> =>
      assert (length f2 = length (m_ropf s)) as H1
        by (rewrite in_place_length, Hl1; exact Hlf);
      assert (length r2 = length (m_ropr s)) as H2
        by (rewrite in_place_length;
            etransitivity; [apply (elementwise_length (λ i x, x * m_rkcn k3 !!! i))|];
            rewrite std_copy_length; exact Hlr);
      assert (length n2 = length (m_ropnet k3)) as H3
        by (apply (store_loop_length (λ j, f2 !!! j - r2 !!! j)));
      set (N2 := n2) in *; set (R2 := r2) in *; set (F2 := f2) in *
  end.
  clearbody F2 R2 N2.
  assert (k' = s<|m_ropf := F2|><|m_ropr := R2|><|m_ropnet := N2|><|m_ROP_ok := true|>)
    as ->.
  { assert (k' = (assemble_rop k3)<|m_ROP_ok := true|>) as ->
      by (injection Hrun as <-; reflexivity).
    rewrite HA, Hk3. reflexivity. }
  split; [reflexivity|]. split; [exact H1|]. split; [exact H2|].
  rewrite Hk3 in H3. exact H3.
Qed.

(** A second run of [processFwdRateCoefficients], from a state that differs
    from the first in the vectors the run overwrites, stores the same
    forward rate coefficients. *)
Lemma processFwdRateCoefficients_determinacy (kX kY k3 : GasKinetics) a b c o p q r :
  let s := update_rates_T (update_rates_C kX) in
  let n := Rate1_nReactions (m_falloff_low_rates s) in
  update_rates_T (update_rates_C kY)
  = s<|m_ropf := a|><|m_ropr := b|><|m_ropnet := c|><|m_ROP_ok := o|>
     <|m_plog_rates := p|><|m_cheb_rates := q|><|m_bulk_rates := r|> →
  (∀ pr pr' : vector_fp, length pr = length pr' →
     (∀ i, (i < n)%nat → pr !!! i = pr' !!! i) →
     ∀ i, (i < n)%nat →
       in_place (λ pr, FalloffMgr_pr_to_falloff (m_falloffn s) pr (falloff_work s)) pr !!! i
       = in_place (λ pr, FalloffMgr_pr_to_falloff (m_falloffn s) pr (falloff_work s)) pr'
           !!! i) →
  length a = length (m_ropf s) → length b = length (m_ropr s) →
  (length (m_ropf s) ≤ length (m_rfn s))%nat →
  processFwdRateCoefficients p_ropf kX = (k3, Normal tt) →
  ∃ b', length b' = length (m_ropr k3) ∧
    processFwdRateCoefficients p_ropf kY
    = (k3<|m_ropr := b'|><|m_ropnet := c|><|m_ROP_ok := o|>
         <|m_plog_rates := p|><|m_cheb_rates := q|><|m_bulk_rates := r|>, Normal tt).
Proof.
  intros s n HY Hpr La Lb L1 Hrun.
  rewrite processFwdRateCoefficients_spec in Hrun |- *.
  cbv beta zeta in Hrun |- *. rewrite HY.
  change (update_rates_T (update_rates_C kX)) with s in Hrun |- *. clearbody s.
  set (s' := s<|m_ropf := a|><|m_ropr := b|><|m_ropnet := c|><|m_ROP_ok := o|>
              <|m_plog_rates := p|><|m_cheb_rates := q|><|m_bulk_rates := r|>).
  set (k1 := assign p_ropf (std_copy (m_rfn s)) s) in *.
  set (k1' := k1<|m_ropr := b|><|m_ropnet := c|><|m_ROP_ok := o|>
               <|m_plog_rates := p|><|m_cheb_rates := q|><|m_bulk_rates := r|>).
  assert (assign p_ropf (std_copy (m_rfn s')) s' = k1') as ->.
  { transitivity (s'<|m_ropf := std_copy (m_rfn s) a|>); [reflexivity|].
    rewrite (std_copy_covering (m_rfn s) a (m_ropf s)) by lia. reflexivity. }
  change (Rate1_nReactions (m_falloff_high_rates k1'))
    with (Rate1_nReactions (m_falloff_high_rates k1)).
  destruct (Nat.eqb (Rate1_nReactions (m_falloff_high_rates k1)) 0).
  - exists b. injection Hrun as <-. split; [exact Lb|reflexivity].
  - destruct (processFalloffReactions p_ropf k1) as [k2 [[]|e]] eqn:Hf; [|discriminate].
    destruct (falloff_determinacy k1 k2 b c o p q r Hpr Lb Hf) as (b' & Hb' & Hf').
    fold k1' in Hf'. rewrite Hf'.
    exists b'. injection Hrun as <-. split; [exact Hb'|reflexivity].
Qed.

(** A second run of [updateROP], from such a state, stores the same rates of
    progress: every entry of the three vectors is overwritten, from values
    that are the same in both runs. *)
Lemma updateROP_determinacy (kX kY kA : GasKinetics) a b c o p q r :
  let s := update_rates_T (update_rates_C kX) in
  let n := Rate1_nReactions (m_falloff_low_rates s) in
  update_rates_T (update_rates_C kY)
  = s<|m_ropf := a|><|m_ropr := b|><|m_ropnet := c|><|m_ROP_ok := o|>
     <|m_plog_rates := p|><|m_cheb_rates := q|><|m_bulk_rates := r|> →
  (∀ pr pr' : vector_fp, length pr = length pr' →
     (∀ i, (i < n)%nat → pr !!! i = pr' !!! i) →
     ∀ i, (i < n)%nat →
       in_place (λ pr, FalloffMgr_pr_to_falloff (m_falloffn s) pr (falloff_work s)) pr !!! i
       = in_place (λ pr, FalloffMgr_pr_to_falloff (m_falloffn s) pr (falloff_work s)) pr'
           !!! i) →
  length a = length (m_ropf s) → length b = length (m_ropr s) →
  length c = length (m_ropnet s) →
  (length (m_ropf s) ≤ length (m_rfn s))%nat →
  (length (m_ropr s) ≤ length (m_ropf s))%nat →
  (length (m_ropnet s) ≤ nReactions s)%nat →
  updateROP kX = (kA, Normal tt) →
  updateROP kY
  = (kA<|m_plog_rates := p|><|m_cheb_rates := q|><|m_bulk_rates := r|>, Normal tt).
Proof.
  intros s n HY Hpr La Lb Lc L1 L3 L4 Hrun.
  rewrite updateROP_spec in Hrun |- *.
  destruct (processFwdRateCoefficients p_ropf kX) as [k3 [[]|e]] eqn:Hfwd; [|discriminate].
  destruct (processFwdRateCoefficients_shape kX k3 Hfwd) as (Hk3 & Hlf & Hlr).
  fold s in Hk3, Hlf, Hlr.
  destruct (processFwdRateCoefficients_determinacy kX kY k3 a b c o p q r
              HY Hpr La Lb L1 Hfwd) as (b' & Hb' & ->).
  assert (m_ropnet k3 = m_ropnet s) as Hn3 by (rewrite Hk3; reflexivity).
  assert (nReactions k3 = nReactions s) as Hnr by (rewrite Hk3; reflexivity).
  rewrite assemble_determinacy;
    [|exact Hb'|by rewrite Hn3|by rewrite Hlr, Hlf|by rewrite Hn3, Hnr].
  change (length (m_rfn ((assemble_rop k3)<|m_ROP_ok := o|><|m_plog_rates := p|>
                           <|m_cheb_rates := q|><|m_bulk_rates := r|>)))
    with (length (m_rfn (assemble_rop k3))).
  destruct (forM_ _ rop_finite_step (assemble_rop k3)) as [k5 [[]|e]] eqn:Hloop;
    [|discriminate].
  rewrite (rop_finite_determinacy _ _ _ o p q r Hloop).
  injection Hrun as <-. reflexivity.
Qed.

End Determinacy.

(** ** The two updates, run a second time *)

Section Second.
Context {collab : Collaborators} {base : BaseKinetics}.

(** The length of [m_rfn]. *)

Lemma update_bulk_rate_rfn_length i k :
  length (m_rfn (update_bulk_rate i k)) = length (m_rfn k).
Proof.
  unfold update_bulk_rate. destruct (m_bulk_rates k !! i) as [r0|]; [|done].
  destruct (MultiRate_update r0 (thermo k) k) as [r' []]; [|done].
  exact (in_place_length _ _).
Qed.

Lemma update_bulk_rates_rfn_length k :
  length (m_rfn (update_bulk_rates k)) = length (m_rfn k).
Proof.
  unfold update_bulk_rates. generalize (length (m_bulk_rates k)) as n.
  induction n as [|n IH]; [done|].
  by rewrite for_loop_S, update_bulk_rate_rfn_length.
Qed.

Lemma update_rates_T_changed_rfn_length T logT k :
  length (m_rfn (update_rates_T_changed T logT k)) = length (m_rfn k).
Proof.
  unfold update_rates_T_changed. cbv zeta.
  match goal with |- context [updateKc ?x] =>
    destruct (updateKc_frame x) as (grt & rkcn & ->) end.
  repeat match goal with |- context [if ?c then _ else _] => destruct c end;
    first [reflexivity | exact (in_place_length _ _)].
Qed.

Lemma update_rates_TP_changed_rfn_length T logT k :
  length (m_rfn (update_rates_TP_changed T logT k)) = length (m_rfn k).
Proof.
  unfold update_rates_TP_changed. cbv zeta.
  repeat match goal with |- context [if ?c then _ else _] => destruct c end;
    first [reflexivity | exact (in_place_length _ _)
          | etransitivity; [exact (in_place_length _ _)|exact (in_place_length _ _)]].
Qed.

Lemma update_rates_T_rfn_length k :
  length (m_rfn (update_rates_T k)) = length (m_rfn k).
Proof.
  rewrite update_rates_T_cases.
  unfold update_rates_T_full, update_rates_T_pressure_only, update_rates_T_hit.
  cbv zeta.
  set (k0 := k<|m_logStandConc := log (standardConcentration (thermo k))|>).
  change (length (m_rfn k)) with (length (m_rfn k0)).
  destruct (fne (temperature (thermo k)) (m_temp k));
    [|destruct (fne (pressure (thermo k)) (m_pres k))].
  - etransitivity; [exact (update_rates_TP_changed_rfn_length _ _ _)|].
    etransitivity; [exact (update_bulk_rates_rfn_length _)|].
    exact (update_rates_T_changed_rfn_length _ _ _).
  - etransitivity; [exact (update_rates_TP_changed_rfn_length _ _ _)|].
    exact (update_bulk_rates_rfn_length _).
  - exact (update_bulk_rates_rfn_length _).
Qed.

(** What the two updates leave alone, of what the rest of [updateROP]
    reads. *)
Lemma update_rates_untouched k :
  let s := update_rates_T (update_rates_C k) in
  m_falloffn s = m_falloffn k
  ∧ m_falloff_low_rates s = m_falloff_low_rates k
  ∧ m_ropf s = m_ropf k ∧ m_ropr s = m_ropr k ∧ m_ropnet s = m_ropnet k
  ∧ m_reactions s = m_reactions k
  ∧ length (m_rfn s) = length (m_rfn k).
Proof.
  intros s. assert (length (m_rfn s) = length (m_rfn k)) as Hl.
  { unfold s. by rewrite update_rates_T_rfn_length. }
  destruct (update_rates_T_frame (update_rates_C k)) as (?&?&?&?&?&?&?&?&HsT).
  fold s in HsT. clearbody s. rewrite HsT in Hl |- *.
  repeat split; first [reflexivity|exact Hl].
Qed.

(** On an object whose concentration caches are already those of its state,
    [update_rates_C] changes the P-log and Chebyshev managers and the flag
    only. *)
Lemma update_rates_C_settled k :
  std_copy (getActivityConcentrations (thermo k)) (m_act_conc k) = m_act_conc k →
  std_copy (getConcentrations (thermo k)) (m_phys_conc k) = m_phys_conc k →
  concm_pass (m_multi_concm k) (m_3b_concm k) (m_falloff_concm k) (m_phys_conc k)
    (molarDensity (thermo k)) (concm_3b_values k, concm_falloff_values k, m_concm k)
  = (concm_3b_values k, concm_falloff_values k, m_concm k) →
  update_rates_C k
  = k<|m_plog_rates := update_C_if_any (m_plog_rates k) (log (pressure (thermo k)))|>
     <|m_cheb_rates := update_C_if_any (m_cheb_rates k) (log10 (pressure (thermo k)))|>
     <|m_ROP_ok := false|>.
Proof.
  intros E1 E2 E3. rewrite update_rates_C_fields. cbv zeta.
  rewrite E2, E3, E1. reflexivity.
Qed.

(** After [updateROP], at the same state, the two updates change nothing
    that the rest of [updateROP] reads: the cache is hit, the concentration
    caches are rewritten with what they hold, and the evaluators report no
    change. *)
Lemma second_update_rates (k : GasKinetics) (a b c : vector_fp) :
  (∀ m c t, is_overwrite (MultiThirdBody_update m c t)) →
  (∀ m c t, is_overwrite (ThirdBodyCalc_update m c t)) →
  (∀ m w, is_overwrite (ThirdBodyCalc_copy m w)) →
  (∀ r s s', m_concm s = m_concm s' →
     (MultiRate_update (MultiRate_update r (thermo k) s).1 (thermo k) s').2 = false) →
  fne (temperature (thermo k)) (temperature (thermo k)) = false →
  fne (pressure (thermo k)) (pressure (thermo k)) = false →
  let s := update_rates_T (update_rates_C k) in
  ∃ p q r,
    update_rates_T (update_rates_C
      (s<|m_ropf := a|><|m_ropr := b|><|m_ropnet := c|><|m_ROP_ok := true|>))
    = s<|m_ropf := a|><|m_ropr := b|><|m_ropnet := c|><|m_ROP_ok := false|>
       <|m_plog_rates := p|><|m_cheb_rates := q|><|m_bulk_rates := r|>.
Proof.
  intros Hm Hu Hc Hbulk HT HP s.
  pose proof (update_rates_T_evaluated (update_rates_C k)) as Hev.
  destruct (update_rates_T_frame (update_rates_C k))
    as (rfn & rl & rh & w & g & rk & ok & rates & HsT).
  fold s in Hev, HsT. clearbody s. subst s.
  set (kC := update_rates_C k) in *.
  match goal with |- context [update_rates_C ?x] => set (k1 := x) end.
  set (phys := std_copy (getConcentrations (thermo k)) (m_phys_conc k)).
  set (r0 := concm_pass (m_multi_concm k) (m_3b_concm k) (m_falloff_concm k) phys
               (molarDensity (thermo k))
               (concm_3b_values k, concm_falloff_values k, m_concm k)).
  rewrite (update_rates_C_settled k1).
  2:{ change (std_copy (getActivityConcentrations (thermo k))
                (std_copy (getActivityConcentrations (thermo k)) (m_act_conc k))
              = std_copy (getActivityConcentrations (thermo k)) (m_act_conc k)).
      apply std_copy_idemp. }
  2:{ change (std_copy (getConcentrations (thermo k)) phys = phys).
      apply std_copy_idemp. }
  2:{ change (concm_pass (m_multi_concm k) (m_3b_concm k) (m_falloff_concm k) phys
                (molarDensity (thermo k)) (r0.1.1, r0.1.2, r0.2)
              = (r0.1.1, r0.1.2, r0.2)).
      replace (r0.1.1, r0.1.2, r0.2) with r0 by (by destruct r0 as [[? ?] ?]).
      by apply concm_pass_idemp. }
  match goal with |- context [update_rates_T ?x] => set (X := x) end.
  rewrite (update_rates_T_cases X).
  assert (fne (temperature (thermo X)) (m_temp X) = false) as -> by exact HT.
  assert (fne (pressure (thermo X)) (m_pres X) = false) as -> by exact HP.
  unfold update_rates_T_hit. cbv zeta.
  match goal with |- context [update_bulk_rates ?x] => set (X0 := x) end.
  destruct (bulk_loop_settled X0 Hbulk Hev) as [r ->].
  exists (m_plog_rates X), (m_cheb_rates X), r. reflexivity.
Qed.

End Second.

(** * Properties of the functions of [GasKinetics.cpp] *)

Section Properties.
Context {collab : Collaborators} {base : BaseKinetics}.

(** Unfolds the monadic plumbing and nothing else. *)
Ltac monad_simp :=
  cbv beta iota delta [bind modify gets ret throw].

Ltac case_ifs :=
  repeat match goal with |- context [if ?c then _ else _] => destruct c end.

(** ** The equilibrium-constant update *)

(** C1.  After [updateKc], the cached reverse-rate multiplier of every
    reversible reaction [i] is [exp(dG_i * (1/RT) - dn_i * ln C0)] clamped
    above by [BigNumber] with [std::min], where [dG] is the reaction delta of
    the standard chemical potentials and [ln C0] the cached
    [m_logStandConc]; that of every irreversible reaction is exactly 0.  No
    assumption is made on temperature, pressure or composition. *)
Theorem updateKc_reverse_rate_multiplier (k : GasKinetics) :
  let grt := std_copy (getStandardChemPotentials (thermo k)) (m_grt k) in
  let k0 := k<|m_grt := grt|><|m_rkcn := std_fill (m_rkcn k) 0|> in
  let dG := in_place (getRevReactionDelta k0 grt) (std_fill (m_rkcn k) 0) in
  let rrt := 1 / RT (thermo k) in
  reversibility_indexed k →
  (nReactions k ≤ length (m_rkcn k))%nat →
  ∀ i r, m_reactions k !! i = Some r →
    m_rkcn (updateKc k) !!! i =
      if reversible r
      then std_min (exp (dG !!! i * rrt - m_dn k !!! i * m_logStandConc k)) BigNumber
      else 0.
Proof.
  intros grt k0 dG rrt [Hnd Hidx] Hlen i r Hi.
  assert (i < length dG)%nat as Hi_lt.
  { apply lookup_lt_Some in Hi. unfold nReactions in Hlen.
    subst dG. rewrite in_place_length. unfold std_fill. rewrite length_replicate. lia. }
  specialize (Hidx i r Hi).
  set (g := λ (x : nat) (y : float),
         std_min (exp (y * rrt - m_dn k !!! x * m_logStandConc k)) BigNumber).
  change (m_rkcn (updateKc k)) with
    (for_loop (length (m_irrev k))
       (λ j v, scatter_body (λ _ _, 0) v (m_irrev k !!! j))
       (for_loop (length (m_revindex k))
          (λ j v, scatter_body g v (m_revindex k !!! j)) dG)).
  rewrite !for_loop_scatter.
  destruct (reversible r).
  - destruct Hidx as [Hin Hnin].
    rewrite scatter_lookup_notin by done.
    by rewrite scatter_lookup_in.
  - apply (scatter_lookup_in_const (λ _ _, 0) _ _ _ (λ _ _ _, eq_refl) Hidx
             ltac:(by rewrite scatter_length) 0).
Qed.

(** ** Falloff reactions *)

(** C2.  For the [i]-th falloff reaction, [processFalloffReactions] computes
    the reduced pressure [concm * k0 / (kinf + SmallNumber)] from the
    effective third-body concentration and the low- and high-pressure-limit
    rate constants, hands the reduced pressures to the falloff manager, and
    writes into the forward-rate buffer, at the reaction's index, the
    manager's blended value times [kinf] when the reaction's type is
    falloff and times [k0] when it is chemically activated. *)
Theorem falloff_effective_rate_constant (ropf : dptr) (k k' : GasKinetics) :
  let n := Rate1_nReactions (m_falloff_low_rates k) in
  let pr := for_loop n (elementwise_body (λ i _, reduced_pressure k i)) (m_ropr k) in
  let blended :=
    in_place (λ pr, FalloffMgr_pr_to_falloff (m_falloffn k) pr (falloff_work k)) pr in
  ropf ≠ p_ropr →
  (n ≤ length (m_ropr k))%nat →
  (∀ a b, (a < n)%nat → (b < n)%nat →
     m_fallindx k !!! a = m_fallindx k !!! b → a = b) →
  (∀ i, (i < n)%nat → (m_fallindx k !!! i < length (deref ropf k))%nat) →
  processFalloffReactions ropf k = (k', Normal tt) →
  ∀ i, (i < n)%nat →
    pr !!! i = concm_falloff_values k !!! i * m_rfn_low k !!! i
               / (m_rfn_high k !!! i + SmallNumber)
    ∧ (reactionTypeStr k (m_fallindx k !!! i) = "falloff-legacy" →
       deref ropf k' !!! (m_fallindx k !!! i) = blended !!! i * m_rfn_high k !!! i)
    ∧ (reactionTypeStr k (m_fallindx k !!! i) = "chemically-activated-legacy" →
       deref ropf k' !!! (m_fallindx k !!! i) = blended !!! i * m_rfn_low k !!! i).
Proof.
  intros n pr blended Hp Hpr Hinj Hrange Hrun i Hi.
  assert (n ≤ length blended)%nat as Hbl.
  { subst blended pr. by rewrite in_place_length, elementwise_length. }
  pose proof (processFalloffReactions_spec ropf k Hp) as Hspec.
  cbv zeta in Hspec. rewrite Hrun in Hspec. destruct Hspec as [Hk' _].
  split.
  { subst pr. rewrite elementwise_lookup by lia. by rewrite decide_True. }
  set (G := λ m, for_loop m (elementwise_body (λ i x, x * falloff_limit k i)) blended).
  set (w := λ j, G (S j) !!! j).
  assert (deref ropf k'
          = for_loop n (λ i v, <[m_fallindx k !!! i := w i]> v) (deref ropf k)) as Hbuf.
  { rewrite Hk'. destruct ropf; reflexivity. }
  assert (deref ropf k' !!! (m_fallindx k !!! i) = blended !!! i * falloff_limit k i)
    as Hval.
  { rewrite Hbuf.
    rewrite (scatter_by_position (λ j, m_fallindx k !!! j) w n) by auto.
    subst w G. cbv beta. rewrite elementwise_lookup by lia.
    by rewrite decide_True by lia. }
  split; intros Hty; rewrite Hval; unfold falloff_limit; rewrite Hty; reflexivity.
Qed.

(** ** Rates of progress *)


(** ** Reuse of cached rate constants *)

(** C4, as amended.  [update_rates_T] compares the state's temperature and
    pressure with the cached sentinels by the C++ [!=] on doubles.  When the
    temperature differs, everything is recomputed.  When the temperature
    matches, the temperature-only caches (falloff limits, falloff work array,
    reverse-rate multipliers) are reused as they are, whether or not the
    pressure matches; a pressure difference alone re-evaluates only the
    P-log and Chebyshev rates.  When both match, no legacy evaluator runs,
    and with no [MultiRate] evaluator installed the forward rate constants
    are reused as they are.  The sentinels are set to the state's values. *)
Theorem rate_cache_reuse_policy (k : GasKinetics) :
  let T := temperature (thermo k) in
  let P := pressure (thermo k) in
  let k' := update_rates_T k in
  m_temp k' = T ∧ m_pres k' = P ∧
  (fne T (m_temp k) = true → k' = update_rates_T_full k) ∧
  (fne T (m_temp k) = false →
     m_rfn_low k' = m_rfn_low k ∧ m_rfn_high k' = m_rfn_high k ∧
     falloff_work k' = falloff_work k ∧ m_rkcn k' = m_rkcn k ∧
     (fne P (m_pres k) = true → k' = update_rates_T_pressure_only k) ∧
     (fne P (m_pres k) = false →
        k' = update_rates_T_hit k ∧ (m_bulk_rates k = [] → m_rfn k' = m_rfn k))).
Proof.
  intros T P k'. subst k'.
  destruct (update_rates_T_frame k) as (a&b&c&d&e&f&g&h&Hk).
  split; [rewrite Hk; reflexivity|]. split; [rewrite Hk; reflexivity|]. clear Hk.
  rewrite update_rates_T_cases. fold T P. split.
  - intros ->. reflexivity.
  - intros ->. destruct (fne P (m_pres k)).
    + destruct (update_rates_T_pressure_only_frame k) as (v & o & r & ->).
      cbn. repeat split; done.
    + repeat split; try done;
        try (destruct (update_rates_T_hit_frame k) as (v & o & r & ->); reflexivity).
      intros Hnil. unfold update_rates_T_hit. cbv zeta.
      rewrite update_bulk_rates_none by exact Hnil. reflexivity.
Qed.

(** ** Invalidation on structural changes *)


(** ** Finiteness checks *)

(** C6, as amended.  [updateROP] always returns or throws.  It throws from
    [processFalloffReactions], with the message [pr[i] is not finite.], when
    falloff reactions are installed and the reduced pressure of the [i]-th
    of them, in the order of the falloff list, is not finite: [i] is the
    position in that list, not the reaction's index.  When every reduced
    pressure is finite, it throws from [updateROP], naming [m_rfn], [m_ropf]
    or [m_ropr] and the reaction index [i], when that entry is the first, in
    the order of the checks, that is not finite.  It returns normally only
    when every reduced pressure and every checked entry is finite. *)
Theorem updateROP_finiteness_checks (k : GasKinetics) :
  let kT := update_rates_T (update_rates_C k) in
  let nfall := Rate1_nReactions (m_falloff_low_rates kT) in
  let has_falloff := negb (Nat.eqb (Rate1_nReactions (m_falloff_high_rates kT)) 0) in
  let all_pr_finite :=
    has_falloff = true →
    ∀ i, (i < nfall)%nat → (i < length (m_ropr kT))%nat →
      is_finite (reduced_pressure kT i) = true in
  match updateROP k with
  | (k', Normal _) =>
      all_pr_finite ∧ ∀ i, (i < length (m_rfn k'))%nat → rop_entries_finite k' i
  | (k', Throw e) =>
      (has_falloff = true ∧
       ∃ i, (i < nfall)%nat ∧ (i < length (m_ropr kT))%nat
         ∧ is_finite (reduced_pressure kT i) = false
         ∧ e = CanteraError_ "GasKinetics::processFalloffReactions"
                 (not_finite_message "pr" i))
      ∨ (all_pr_finite ∧
         ∃ i, (i < length (m_rfn k'))%nat
           ∧ (∀ j, (j < i)%nat → rop_entries_finite k' j)
           ∧ ((is_finite (m_rfn k' !!! i) = false
               ∧ e = CanteraError_ "GasKinetics::updateROP" (not_finite_message "m_rfn" i))
              ∨ (is_finite (m_rfn k' !!! i) = true ∧ is_finite (m_ropf k' !!! i) = false
                 ∧ e = CanteraError_ "GasKinetics::updateROP"
                         (not_finite_message "m_ropf" i))
              ∨ (is_finite (m_rfn k' !!! i) = true ∧ is_finite (m_ropf k' !!! i) = true
                 ∧ is_finite (m_ropr k' !!! i) = false
                 ∧ e = CanteraError_ "GasKinetics::updateROP"
                         (not_finite_message "m_ropr" i))))
  end.
Proof.
  intros kT nfall has_falloff all_pr_finite.
  (* the last loop, after any state [k3] the rate coefficients leave *)
  assert (∀ k3,
    match (match forM_ (seq 0 (length (m_rfn (assemble_rop k3)))) rop_finite_step
                   (assemble_rop k3) with
           | (k5, Normal _) => (k5<|m_ROP_ok := true|>, Normal tt)
           | (k5, Throw e) => (k5, Throw e)
           end) with
    | (k', Normal _) => ∀ i, (i < length (m_rfn k'))%nat → rop_entries_finite k' i
    | (k', Throw e) =>
        ∃ i, (i < length (m_rfn k'))%nat
           ∧ (∀ j, (j < i)%nat → rop_entries_finite k' j)
           ∧ ((is_finite (m_rfn k' !!! i) = false
               ∧ e = CanteraError_ "GasKinetics::updateROP" (not_finite_message "m_rfn" i))
              ∨ (is_finite (m_rfn k' !!! i) = true ∧ is_finite (m_ropf k' !!! i) = false
                 ∧ e = CanteraError_ "GasKinetics::updateROP"
                         (not_finite_message "m_ropf" i))
              ∨ (is_finite (m_rfn k' !!! i) = true ∧ is_finite (m_ropf k' !!! i) = true
                 ∧ is_finite (m_ropr k' !!! i) = false
                 ∧ e = CanteraError_ "GasKinetics::updateROP"
                         (not_finite_message "m_ropr" i)))
    end) as Hlast.
  { intros k3.
    pose proof (rop_finite_loop (length (m_rfn (assemble_rop k3))) (assemble_rop k3)) as Hl.
    destruct (forM_ _ rop_finite_step (assemble_rop k3)) as [k5 [[]|e]].
    - destruct Hl as [-> Hfin]. exact Hfin.
    - destruct Hl as [-> Hex]. exact Hex. }
  rewrite updateROP_spec, processFwdRateCoefficients_spec. cbv zeta. fold kT.
  set (k1 := assign p_ropf (std_copy (m_rfn kT)) kT).
  change (Rate1_nReactions (m_falloff_high_rates k1))
    with (Rate1_nReactions (m_falloff_high_rates kT)).
  subst all_pr_finite has_falloff.
  destruct (Nat.eqb (Rate1_nReactions (m_falloff_high_rates kT)) 0) eqn:Hz;
    cbv beta iota delta [negb].
  - match goal with |- context [assemble_rop ?x] => specialize (Hlast x) end.
    destruct (match forM_ _ rop_finite_step _ with (_, Normal _) => _ | _ => _ end)
      as [k' [[]|e]].
    + split; [discriminate|exact Hlast].
    + right. split; [discriminate|exact Hlast].
  - pose proof (processFalloffReactions_spec p_ropf k1 ltac:(discriminate)) as Hfall.
    cbv zeta in Hfall.
    change (Rate1_nReactions (m_falloff_low_rates k1)) with nfall in Hfall.
    destruct (processFalloffReactions p_ropf k1) as [k2 [[]|e]].
    + destruct Hfall as [_ Hfin].
      assert (∀ i, (i < nfall)%nat → (i < length (m_ropr kT))%nat →
                is_finite (reduced_pressure kT i) = true) as Hpr.
      { intros i Hi Hlen. specialize (Hfin i Hi).
        rewrite elementwise_lookup in Hfin by exact Hlen.
        rewrite decide_True in Hfin by done. exact Hfin. }
      match goal with |- context [assemble_rop ?x] => specialize (Hlast x) end.
      destruct (match forM_ _ rop_finite_step _ with (_, Normal _) => _ | _ => _ end)
        as [k' [[]|e]].
      * split; [intros _; exact Hpr|exact Hlast].
      * right. split; [intros _; exact Hpr|exact Hlast].
    + left. split; [done|]. destruct Hfall as (i & Hi & -> & Hnf & ->).
      exists i. split; [done|].
      change (m_ropr (k1<|m_ropr := ?v|>)) with v in Hnf.
      destruct (decide (i < length (m_ropr k1))%nat) as [Hlen|Hlen].
      * split; [exact Hlen|]. split; [|done].
        rewrite elementwise_lookup in Hnf by exact Hlen.
        rewrite decide_True in Hnf by lia. exact Hnf.
      * rewrite lookup_total_past_end in Hnf; [done|].
        rewrite elementwise_length. lia.
Qed.

(** ** Idempotence *)

(** C7.  When [updateROP] has returned and the thermodynamic state has not
    changed, a second call returns as well, and leaves the forward rate
    constants [m_rfn] and the forward, reverse and net rates of progress
    exactly as the first call left them.  The state's temperature and
    pressure compare equal to themselves, the three vectors are no longer
    than the number of reactions and of rate constants, and the
    collaborators behave as in the library: the third-body calculators
    store fixed entries, an evaluator that has just been updated reports no
    change when it is updated again with the same third-body
    concentrations, and the falloff manager blends the reduced pressures
    entry by entry. *)
Theorem updateROP_idempotent (k0 k1 : GasKinetics) :
  let n := Rate1_nReactions (m_falloff_low_rates k0) in
  (∀ m c t, is_overwrite (MultiThirdBody_update m c t)) →
  (∀ m c t, is_overwrite (ThirdBodyCalc_update m c t)) →
  (∀ m w, is_overwrite (ThirdBodyCalc_copy m w)) →
  (∀ r s s', m_concm s = m_concm s' →
     (MultiRate_update (MultiRate_update r (thermo k0) s).1 (thermo k0) s').2 = false) →
  (∀ work (pr pr' : vector_fp), length pr = length pr' →
     (∀ i, (i < n)%nat → pr !!! i = pr' !!! i) →
     ∀ i, (i < n)%nat →
       in_place (λ pr, FalloffMgr_pr_to_falloff (m_falloffn k0) pr work) pr !!! i
       = in_place (λ pr, FalloffMgr_pr_to_falloff (m_falloffn k0) pr work) pr' !!! i) →
  fne (temperature (thermo k0)) (temperature (thermo k0)) = false →
  fne (pressure (thermo k0)) (pressure (thermo k0)) = false →
  (length (m_ropf k0) ≤ length (m_rfn k0))%nat →
  (length (m_ropr k0) ≤ length (m_ropf k0))%nat →
  (length (m_ropnet k0) ≤ nReactions k0)%nat →
  updateROP k0 = (k1, Normal tt) →
  ∃ k2, updateROP k1 = (k2, Normal tt)
    ∧ m_rfn k2 = m_rfn k1 ∧ m_ropf k2 = m_ropf k1
    ∧ m_ropr k2 = m_ropr k1 ∧ m_ropnet k2 = m_ropnet k1.
Proof.
  intros n Hm Hu Hc Hbulk Hpr HT HP L1 L3 L4 Hrun.
  destruct (updateROP_shape k0 k1 Hrun) as (Hk1 & La & Lb & Lc).
  destruct (second_update_rates k0 (m_ropf k1) (m_ropr k1) (m_ropnet k1)
              Hm Hu Hc Hbulk HT HP) as (p & q & r & H2).
  destruct (update_rates_untouched k0) as (Ef & El & E1 & E2 & E3 & Er & Ern).
  set (s := update_rates_T (update_rates_C k0)) in *.
  rewrite <- Hk1 in H2.
  exists (k1<|m_plog_rates := p|><|m_cheb_rates := q|><|m_bulk_rates := r|>).
  split; [|repeat split; reflexivity].
  apply (updateROP_determinacy k0 k1 k1 (m_ropf k1) (m_ropr k1) (m_ropnet k1)
           false p q r); fold s.
  - exact H2.
  - rewrite Ef, El. intros pr pr'. apply Hpr.
  - exact La.
  - exact Lb.
  - exact Lc.
  - by rewrite E1, Ern.
  - by rewrite E2, E1.
  - unfold nReactions. by rewrite E3, Er.
  - exact Hrun.
Qed.

(** ** Jacobian settings *)

(** C8.  The option that skips the falloff third-body derivative term is
    true after construction (the constructor applies the default settings of
    an empty option bag), and a call of [setJacobianSettings] that sets it to
    false throws [NotImplementedError] from within that call, before the
    remaining option is read, and leaves the flag true. *)
Theorem skip_falloff_default_and_not_overridable :
  AnyMap_empty AnyMap_new = true →
  getBool AnyMap_new "skip-falloff" true = true →
  (∀ k, ∃ k', GasKinetics_ctor k = (k', Normal tt) ∧ m_jac_skip_falloff k' = true)
  ∧ (∀ settings k,
       AnyMap_empty settings || hasKey settings "skip-falloff" = true →
       getBool settings "skip-falloff" true = false →
       ∃ k',
         setJacobianSettings settings k
         = (k', Throw (NotImplementedError "GasKinetics::setJacobianSettings"
              "Derivative term related to reaction rate dependence on third bodies is not implemented."))
         ∧ m_jac_skip_falloff k' = true
         ∧ m_jac_rtol_deltaT k' = m_jac_rtol_deltaT k).
Proof.
  intros Hempty Hdefault. split.
  - intros k. unfold GasKinetics_ctor, setJacobianSettings.
    rewrite Hempty. monad_simp. cbn. rewrite Hdefault. cbn. eauto.
  - intros settings k Hkey Hfalse.
    unfold setJacobianSettings. monad_simp. rewrite Hkey.
    generalize (AnyMap_empty settings || hasKey settings "constant-pressure").
    generalize (AnyMap_empty settings || hasKey settings "mole-fractions").
    generalize (AnyMap_empty settings || hasKey settings "skip-third-bodies").
    intros [] [] []; cbn; rewrite Hfalse; cbn; eexists; repeat split.
Qed.

(** ** Jacobian queries on legacy reactions *)

(** C9.  When at least one reaction was installed through the legacy path
    (its index is in [m_legacy]), each of the seven temperature- and
    concentration-derivative queries throws [CanteraError] under its own
    name, with the object exactly as it was: nothing was computed. *)
Theorem jacobian_queries_reject_legacy (k : GasKinetics) :
  m_legacy k ≠ [] →
  let unsupported name :=
    CanteraError_ name "Not supported for legacy (CTI/XML) input format." in
  fwdRateConstants_ddT k = (k, Throw (unsupported "GasKinetics::fwdRateConstants_ddT"))
  ∧ fwdRatesOfProgress_ddT k = (k, Throw (unsupported "GasKinetics::fwdRatesOfProgress_ddT"))
  ∧ revRatesOfProgress_ddT k = (k, Throw (unsupported "GasKinetics::revRatesOfProgress_ddT"))
  ∧ netRatesOfProgress_ddT k = (k, Throw (unsupported "GasKinetics::netRatesOfProgress_ddT"))
  ∧ fwdRatesOfProgress_ddC k = (k, Throw (unsupported "GasKinetics::fwdRatesOfProgress_ddC"))
  ∧ revRatesOfProgress_ddC k = (k, Throw (unsupported "GasKinetics::revRatesOfProgress_ddC"))
  ∧ netRatesOfProgress_ddC k = (k, Throw (unsupported "GasKinetics::netRatesOfProgress_ddC")).
Proof.
  intros Hlegacy unsupported.
  assert (∀ name, checkLegacyRates name k = (k, Throw (unsupported name))) as Hcheck.
  { intros name. unfold checkLegacyRates, bind, gets, throw.
    destruct (m_legacy k); [done|reflexivity]. }
  assert (∀ A name (rest : M A),
            bind (checkLegacyRates name) (λ _, rest) k = (k, Throw (unsupported name)))
    as Hbind.
  { intros A name rest. unfold bind at 1. by rewrite Hcheck. }
  repeat split; apply Hbind.
Qed.

(** ** Equilibrium constants *)

(** C10.  [getEquilibriumConstants] stores, for every reaction [i],
    [exp(-dG_i * (1/RT) + dn_i * ln C0)], where [dG] is the reaction delta of
    the standard chemical potentials and [ln C0] the logarithm of the
    standard concentration; it leaves the cached temperature 0; and the next
    [update_rates_T], at any state whose temperature is positive, takes the
    path that recomputes everything. *)
Theorem getEquilibriumConstants_values_and_sentinel (kc : vector_fp) (k : GasKinetics) :
  let k1 := update_rates_T k in
  let grt := std_copy (getStandardChemPotentials (thermo k)) (m_grt k1) in
  let k2 := k1<|m_grt := grt|><|m_rkcn := std_fill (m_rkcn k1) 0|> in
  let dG := in_place (getReactionDelta k2 grt) (std_fill (m_rkcn k1) 0) in
  let rrt := 1 / RT (thermo k) in
  let lnC := log (standardConcentration (thermo k)) in
  let k' := (getEquilibriumConstants kc k).1 in
  let kc' := (getEquilibriumConstants kc k).2 in
  (∀ i, (i < nReactions k)%nat → (i < length kc)%nat →
     kc' !!! i = exp ((- (dG !!! i)) * rrt + m_dn k !!! i * lnC))
  ∧ m_temp k' = 0
  ∧ (∀ th, (0 <? temperature th) = true →
       update_rates_T (k'<|thermo := th|>) = update_rates_T_full (k'<|thermo := th|>)).
Proof.
  intros k1 grt k2 dG rrt lnC k' kc'.
  assert (thermo k1 = thermo k ∧ m_dn k1 = m_dn k ∧ m_reactions k1 = m_reactions k
          ∧ m_logStandConc k1 = lnC) as (Hth & Hdn & Hrx & HlnC).
  { subst k1. destruct (update_rates_T_frame k) as (a&b&c&d&e&f&g&h&->). done. }
  split; [|split].
  - intros i Hi Hlen.
    assert (kc' =
      let grt1 := std_copy (getStandardChemPotentials (thermo k1)) (m_grt k1) in
      let k21 := k1<|m_grt := grt1|><|m_rkcn := std_fill (m_rkcn k1) 0|> in
      let dG1 := in_place (getReactionDelta k21 grt1) (std_fill (m_rkcn k1) 0) in
      for_loop (nReactions k1)
        (elementwise_body (λ (j : nat) (_ : float),
           exp ((- (dG1 !!! j)) * (1 / RT (thermo k1))
                + m_dn k1 !!! j * m_logStandConc k1))) kc) as ->
      by reflexivity.
    cbv zeta. unfold nReactions. rewrite Hth, Hdn, HlnC, Hrx.
    fold grt k2 dG rrt.
    rewrite elementwise_lookup by done. by rewrite decide_True.
  - reflexivity.
  - intros th Hpos. rewrite update_rates_T_cases.
    change (m_temp (k'<|thermo := th|>)) with 0.
    change (thermo (k'<|thermo := th|>)) with th.
    by rewrite positive_ne_zero.
Qed.

End Properties.

(** * Further properties of the code

    Properties of the member functions beyond the ones above: the settings
    of the Jacobian, the flag [m_ROP_ok], the caches, the paths of
    [addReaction] and [modifyReaction], the falloff index and the
    temperature derivatives. *)

Lemma SFeqb_refl_not_nan (x : SpecFloat.spec_float) :
  SpecFloat.SFeqb x x = false → x = SpecFloat.S754_nan.
Proof.
  destruct x as [s|s| |s m e]; cbn; try discriminate; try reflexivity.
  - destruct s; discriminate.
  - unfold SpecFloat.SFeqb. cbn.
    destruct s; rewrite Z.compare_refl, ?Pos.compare_refl;
      first [discriminate | rewrite Pos.compare_cont_refl; discriminate | idtac].
Qed.

(** A NaN compares unequal to every double. *)
Lemma nan_ne_any (x y : float) : is_nan x = true → fne x y = true.
Proof.
  unfold is_nan, fne. rewrite !FloatAxioms.eqb_spec. intros H.
  apply negb_true_iff in H. apply SFeqb_refl_not_nan in H. rewrite H.
  reflexivity.
Qed.

Section Extras.
Context {collab : Collaborators} {base : BaseKinetics}.


(** ** Jacobian settings *)

(** [setJacobianSettings] in one piece: which options it stores, and when it
    throws. *)
Lemma setJacobianSettings_cases (settings : AnyMap) (k : GasKinetics) :
  let force := AnyMap_empty settings in
  let given key := force || hasKey settings key in
  let k1 :=
    k<|m_jac_const_pressure :=
         if given "constant-pressure" then getBool settings "constant-pressure" true
         else m_jac_const_pressure k|>
     <|m_jac_mole_fractions :=
         if given "mole-fractions" then getBool settings "mole-fractions" true
         else m_jac_mole_fractions k|>
     <|m_jac_skip_third_bodies :=
         if given "skip-third-bodies" then getBool settings "skip-third-bodies" false
         else m_jac_skip_third_bodies k|>
     <|m_jac_skip_falloff := true|> in
  setJacobianSettings settings k =
    if (if given "skip-falloff" then getBool settings "skip-falloff" true
        else m_jac_skip_falloff k)
    then (k1<|m_jac_rtol_deltaT :=
                if given "rtol-delta-T" then getDouble settings "rtol-delta-T" 1e-6
                else m_jac_rtol_deltaT k|>, Normal tt)
    else (k1, Throw (NotImplementedError "GasKinetics::setJacobianSettings"
           "Derivative term related to reaction rate dependence on third bodies is not implemented.")).
Proof.
  cbv zeta. unfold setJacobianSettings.
  cbv beta iota zeta delta [bind modify gets ret throw].
  generalize (AnyMap_empty settings || hasKey settings "constant-pressure").
  generalize (AnyMap_empty settings || hasKey settings "mole-fractions").
  generalize (AnyMap_empty settings || hasKey settings "skip-third-bodies").
  generalize (AnyMap_empty settings || hasKey settings "skip-falloff").
  generalize (AnyMap_empty settings || hasKey settings "rtol-delta-T").
  intros [] [] [] [] []; cbn;
    try (destruct (getBool settings "skip-falloff" true); cbn; reflexivity);
    destruct (m_jac_skip_falloff k) eqn:E; cbn; try reflexivity;
    destruct k; cbn in E; subst; reflexivity.
Qed.

(** X1.  [setJacobianSettings] is not rolled back when it throws: the
    three options read before the check have their new values (those whose
    key is present, or all of them for an empty bag), the flag is true, and
    the tolerance has not been read.  It throws exactly when the value the
    flag would take is false, and otherwise returns with the tolerance set
    as well. *)
Theorem setJacobianSettings_not_rolled_back (settings : AnyMap) (k : GasKinetics) :
  let given key := AnyMap_empty settings || hasKey settings key in
  let requested :=
    if given "skip-falloff" then getBool settings "skip-falloff" true
    else m_jac_skip_falloff k in
  let k' := (setJacobianSettings settings k).1 in
  m_jac_const_pressure k'
  = (if given "constant-pressure" then getBool settings "constant-pressure" true
     else m_jac_const_pressure k)
  ∧ m_jac_mole_fractions k'
    = (if given "mole-fractions" then getBool settings "mole-fractions" true
       else m_jac_mole_fractions k)
  ∧ m_jac_skip_third_bodies k'
    = (if given "skip-third-bodies" then getBool settings "skip-third-bodies" false
       else m_jac_skip_third_bodies k)
  ∧ m_jac_skip_falloff k' = true
  ∧ match (setJacobianSettings settings k).2 with
    | Normal _ =>
        requested = true
        ∧ m_jac_rtol_deltaT k'
          = (if given "rtol-delta-T" then getDouble settings "rtol-delta-T" 1e-6
             else m_jac_rtol_deltaT k)
    | Throw e =>
        requested = false
        ∧ e = NotImplementedError "GasKinetics::setJacobianSettings"
                "Derivative term related to reaction rate dependence on third bodies is not implemented."
        ∧ m_jac_rtol_deltaT k' = m_jac_rtol_deltaT k
    end.
Proof.
  intros given requested k'. subst k' requested given.
  rewrite setJacobianSettings_cases. cbv beta zeta.
  match goal with |- context [if (if ?c then ?a else ?b) then _ else _] =>
    destruct (if c then a else b) end;
    cbv beta iota delta [fst snd]; repeat split; reflexivity.
Qed.

(** X2.  The constructor leaves the five options at their defaults and the
    two members it initialises at zero, when an empty bag answers every
    query with the default it is given. *)
Theorem GasKinetics_ctor_defaults (k : GasKinetics) :
  AnyMap_empty AnyMap_new = true →
  (∀ key d, getBool AnyMap_new key d = d) →
  (∀ key d, getDouble AnyMap_new key d = d) →
  GasKinetics_ctor k
  = (k<|m_logStandConc := 0|><|m_pres := 0|>
      <|m_jac_const_pressure := true|><|m_jac_mole_fractions := true|>
      <|m_jac_skip_third_bodies := false|><|m_jac_skip_falloff := true|>
      <|m_jac_rtol_deltaT := 1e-6|>, Normal tt).
Proof.
  intros Hempty Hbool Hdouble. unfold GasKinetics_ctor.
  rewrite setJacobianSettings_cases. cbv zeta.
  rewrite Hempty, !Hbool, Hdouble. reflexivity.
Qed.

(** X3.  The settings one object exports configure another object the same
    way: after [getJacobianSettings] on [k] and [setJacobianSettings] on
    [k2], the four flags and the relative tolerance of [k2] are those of
    [k].  The absolute tolerance is not exported and stays as it was. *)
Theorem jacobian_settings_round_trip (m0 : AnyMap) (k k2 : GasKinetics) :
  AnyMap_laws →
  m_jac_skip_falloff k = true →
  setJacobianSettings (getJacobianSettings m0 k) k2
  = (k2<|m_jac_const_pressure := m_jac_const_pressure k|>
       <|m_jac_mole_fractions := m_jac_mole_fractions k|>
       <|m_jac_skip_third_bodies := m_jac_skip_third_bodies k|>
       <|m_jac_skip_falloff := true|>
       <|m_jac_rtol_deltaT := m_jac_rtol_deltaT k|>, Normal tt).
Proof.
  intros (HhB & HhD & HhB' & HhD' & HgB & HgB' & HgBD & HgD) Hflag.
  rewrite setJacobianSettings_cases. cbv zeta.
  set (s := getJacobianSettings m0 k).
  assert (hasKey s "constant-pressure" = true) as ->.
  { unfold s, getJacobianSettings. cbv zeta.
    rewrite HhD', !HhB' by discriminate. apply HhB. }
  assert (hasKey s "mole-fractions" = true) as ->.
  { unfold s, getJacobianSettings. cbv zeta.
    rewrite HhD', !HhB' by discriminate. apply HhB. }
  assert (hasKey s "skip-third-bodies" = true) as ->.
  { unfold s, getJacobianSettings. cbv zeta.
    rewrite HhD', !HhB' by discriminate. apply HhB. }
  assert (hasKey s "skip-falloff" = true) as ->.
  { unfold s, getJacobianSettings. cbv zeta.
    rewrite HhD' by discriminate. apply HhB. }
  assert (hasKey s "rtol-delta-T" = true) as ->.
  { unfold s, getJacobianSettings. cbv zeta. apply HhD. }
  rewrite !orb_true_r.
  assert (getBool s "constant-pressure" true = m_jac_const_pressure k) as ->.
  { unfold s, getJacobianSettings. cbv zeta.
    rewrite HgBD, !HgB' by discriminate. apply HgB. }
  assert (getBool s "mole-fractions" true = m_jac_mole_fractions k) as ->.
  { unfold s, getJacobianSettings. cbv zeta.
    rewrite HgBD, !HgB' by discriminate. apply HgB. }
  assert (getBool s "skip-third-bodies" false = m_jac_skip_third_bodies k) as ->.
  { unfold s, getJacobianSettings. cbv zeta.
    rewrite HgBD, !HgB' by discriminate. apply HgB. }
  assert (getBool s "skip-falloff" true = true) as ->.
  { unfold s, getJacobianSettings. cbv zeta.
    rewrite HgBD by discriminate. rewrite HgB. exact Hflag. }
  assert (getDouble s "rtol-delta-T" 1e-6 = m_jac_rtol_deltaT k) as ->.
  { unfold s, getJacobianSettings. cbv zeta. apply HgD. }
  reflexivity.
Qed.


(** ** The flag [m_ROP_ok] *)

Lemma update_bulk_rate_flag i k :
  m_ROP_ok k = false → m_ROP_ok (update_bulk_rate i k) = false.
Proof.
  intros H. unfold update_bulk_rate. destruct (m_bulk_rates k !! i) as [r0|]; [|done].
  destruct (MultiRate_update r0 (thermo k) k) as [r' []]; [reflexivity|exact H].
Qed.

Lemma update_bulk_rates_flag k :
  m_ROP_ok k = false → m_ROP_ok (update_bulk_rates k) = false.
Proof.
  intros H. unfold update_bulk_rates. generalize (length (m_bulk_rates k)) as n.
  induction n as [|n IH]; [done|].
  rewrite for_loop_S. by apply update_bulk_rate_flag.
Qed.

Lemma update_rates_TP_changed_flag T logT k :
  m_ROP_ok k = false → m_ROP_ok (update_rates_TP_changed T logT k) = false.
Proof.
  intros H. unfold update_rates_TP_changed. cbv zeta.
  repeat match goal with |- context [if ?c then _ else _] => destruct c end;
    first [reflexivity|exact H].
Qed.

Lemma update_rates_T_flag k :
  m_ROP_ok k = false → m_ROP_ok (update_rates_T k) = false.
Proof.
  intros H. rewrite update_rates_T_cases.
  unfold update_rates_T_full, update_rates_T_pressure_only, update_rates_T_hit.
  cbv zeta.
  set (k0 := k<|m_logStandConc := log (standardConcentration (thermo k))|>).
  assert (m_ROP_ok k0 = false) as H0 by exact H.
  destruct (fne (temperature (thermo k)) (m_temp k));
    [|destruct (fne (pressure (thermo k)) (m_pres k))].
  - change (m_ROP_ok (update_rates_TP_changed (temperature (thermo k))
              (log (temperature (thermo k)))
              (update_bulk_rates (update_rates_T_changed (temperature (thermo k))
                 (log (temperature (thermo k))) k0))) = false).
    apply update_rates_TP_changed_flag, update_bulk_rates_flag.
    destruct (update_rates_T_changed_frame (temperature (thermo k))
                (log (temperature (thermo k))) k0) as (?&?&?&?&?&?&->).
    reflexivity.
  - change (m_ROP_ok (update_rates_TP_changed (temperature (thermo k))
              (log (temperature (thermo k))) (update_bulk_rates k0)) = false).
    by apply update_rates_TP_changed_flag, update_bulk_rates_flag.
  - change (m_ROP_ok (update_bulk_rates k0) = false).
    by apply update_bulk_rates_flag.
Qed.

(** [processFwdRateCoefficients] leaves the flag cleared, whether it returns
    or throws. *)
Lemma processFwdRateCoefficients_flag (p : dptr) (k : GasKinetics) :
  m_ROP_ok (processFwdRateCoefficients p k).1 = false.
Proof.
  rewrite processFwdRateCoefficients_spec. cbv beta zeta.
  set (kT := update_rates_T (update_rates_C k)).
  assert (m_ROP_ok kT = false) as HT.
  { apply update_rates_T_flag. rewrite update_rates_C_fields. reflexivity. }
  clearbody kT.
  set (k1 := assign p (std_copy (m_rfn kT)) kT).
  assert (m_ROP_ok k1 = false) as H1 by (subst k1; destruct p; exact HT).
  assert (∀ s, m_ROP_ok s = false →
            m_ROP_ok (assign p (for_loop (nReactions s)
                        (λ i v, <[i := v !!! i * m_perturb s !!! i]> v)) s) = false)
    as Hperturb by (intros s Hs; destruct p; exact Hs).
  destruct (Nat.eqb (Rate1_nReactions (m_falloff_high_rates k1)) 0).
  - by apply Hperturb.
  - assert (p = p_ropr ∨ p ≠ p_ropr) as [->|Hp]
      by (destruct p; first [by left|by right]).
    + (* the pointer aliases the scratch vector *)
      unfold processFalloffReactions.
      cbv beta iota delta [bind modify gets].
      pose proof (falloff_pr_loop (Rate1_nReactions (m_falloff_low_rates k1)) k1) as Hl.
      destruct (forM_ _ falloff_pr_step k1) as [k2 [[]|e]].
      * destruct Hl as [-> _]. apply Hperturb.
        assert (∀ n s, m_ROP_ok s = false →
                  m_ROP_ok (for_loop n (falloff_scale_step p_ropr) s) = false) as Hloop.
        { intros n. induction n as [|n IH]; intros s Hs; [exact Hs|].
          rewrite for_loop_S. unfold falloff_scale_step.
          specialize (IH s Hs).
          destruct (String.eqb _ _); exact IH. }
        apply Hloop. exact H1.
      * destruct Hl as (i & _ & _ & _ & ->). exact H1.
    + pose proof (processFalloffReactions_spec p k1 Hp) as Hf. cbv zeta in Hf.
      destruct (processFalloffReactions p k1) as [k2 [[]|e]].
      * destruct Hf as [-> _]. apply Hperturb. destruct p; exact H1.
      * destruct Hf as (i & _ & _ & _ & ->). exact H1.
Qed.

Lemma processThirdBodies_flag (p : dptr) (k : GasKinetics) :
  m_ROP_ok (processThirdBodies p k) = m_ROP_ok k.
Proof.
  unfold processThirdBodies. cbv zeta.
  repeat match goal with |- context [if ?c then _ else _] => destruct c end;
    destruct p; reflexivity.
Qed.

Lemma ddC_terms_flag (stoich : GasKinetics → StoichManagerN) (k : GasKinetics) :
  m_ROP_ok (ddC_terms stoich k).1 = m_ROP_ok k.
Proof.
  unfold ddC_terms. cbv zeta.
  match goal with |- context [processThirdBodies ?p ?x] =>
    pose proof (processThirdBodies_flag p x) as H;
    generalize dependent (processThirdBodies p x) end.
  intros s Hs. destruct (negb (m_jac_skip_third_bodies s) && negb (empty (m_concm s)));
    exact Hs.
Qed.

(** X4.  After [updateROP] the flag [m_ROP_ok] tells the outcome: it is set
    when the call returned, and cleared when it threw, whatever it was
    before. *)
Theorem updateROP_flag_tells_outcome (k : GasKinetics) :
  match updateROP k with
  | (k', Normal _) => m_ROP_ok k' = true
  | (k', Throw _) => m_ROP_ok k' = false
  end.
Proof.
  rewrite updateROP_spec.
  pose proof (processFwdRateCoefficients_flag p_ropf k) as Hflag.
  destruct (processFwdRateCoefficients p_ropf k) as [k3 [[]|e]]; [|exact Hflag].
  cbn [fst] in Hflag.
  pose proof (rop_finite_loop (length (m_rfn (assemble_rop k3))) (assemble_rop k3)) as Hloop.
  destruct (forM_ _ rop_finite_step (assemble_rop k3)) as [k5 [[]|e]]; [reflexivity|].
  destruct Hloop as [-> _].
  destruct (assemble_rop_fields k3) as [_ ->]. exact Hflag.
Qed.

(** X5.  The other callers of [processFwdRateCoefficients] never leave the
    flag set: after [getFwdRateConstants], and after a concentration
    Jacobian of a mechanism without legacy reactions, [m_ROP_ok] is cleared,
    so that the rate coefficients these calls leave in the buffers cannot
    pass for rates of progress. *)
Theorem rate_coefficient_queries_clear_flag (k : GasKinetics) :
  (∀ kfwd, m_ROP_ok (getFwdRateConstants kfwd k).1 = false)
  ∧ (m_legacy k = [] →
       m_ROP_ok (fwdRatesOfProgress_ddC k).1 = false
       ∧ m_ROP_ok (revRatesOfProgress_ddC k).1 = false
       ∧ m_ROP_ok (netRatesOfProgress_ddC k).1 = false).
Proof.
  split.
  - intros kfwd. unfold getFwdRateConstants.
    cbv beta iota delta [bind modify gets ret].
    pose proof (processFwdRateCoefficients_flag p_ropf k) as Hflag.
    destruct (processFwdRateCoefficients p_ropf k) as [k3 [[]|e]]; [|exact Hflag].
    cbn [fst] in Hflag.
    destruct legacy_rate_constants_used; cbv beta iota delta [fst];
      [by rewrite processThirdBodies_flag|exact Hflag].
  - intros Hlegacy.
    pose proof (processFwdRateCoefficients_flag p_rbuf0 k) as Hflag.
    assert (∀ s, m_ROP_ok s = false →
              m_ROP_ok (if m_jac_mole_fractions s then scaleConcentrations p_rbuf0 s
                        else s) = false) as Hscale.
    { intros s Hs. destruct (m_jac_mole_fractions s); exact Hs. }
    unfold fwdRatesOfProgress_ddC, revRatesOfProgress_ddC, netRatesOfProgress_ddC,
      checkLegacyRates.
    cbv beta iota delta [bind modify gets ret]. rewrite Hlegacy.
    cbv beta iota delta [length Nat.eqb negb].
    destruct (processFwdRateCoefficients p_rbuf0 k) as [k3 [[]|e]];
      [|repeat split; exact Hflag].
    cbn [fst] in Hflag.
    repeat split.
    + specialize (Hscale k3 Hflag).
      pose proof (ddC_terms_flag m_reactantStoich
                    (if m_jac_mole_fractions k3 then scaleConcentrations p_rbuf0 k3
                     else k3)) as Ht.
      destruct (ddC_terms m_reactantStoich _) as [s [jac jac3b]].
      cbn [fst] in Ht |- *. by rewrite Ht.
    + specialize (Hscale (processEquilibriumConstants p_rbuf0 k3) Hflag).
      pose proof (ddC_terms_flag m_revProductStoich
                    (if m_jac_mole_fractions (processEquilibriumConstants p_rbuf0 k3)
                     then scaleConcentrations p_rbuf0
                            (processEquilibriumConstants p_rbuf0 k3)
                     else processEquilibriumConstants p_rbuf0 k3)) as Ht.
      destruct (ddC_terms m_revProductStoich _) as [s [jac jac3b]].
      cbn [fst] in Ht |- *. by rewrite Ht.
    + specialize (Hscale k3 Hflag).
      pose proof (ddC_terms_flag m_reactantStoich
                    (if m_jac_mole_fractions k3 then scaleConcentrations p_rbuf0 k3
                     else k3)) as Ht.
      destruct (ddC_terms m_reactantStoich _) as [s [jac jac3b]].
      cbn [fst] in Ht. rewrite Hscale in Ht.
      pose proof (ddC_terms_flag m_revProductStoich
                    (processEquilibriumConstants p_rbuf0 s)) as Ht2.
      destruct (ddC_terms m_revProductStoich _) as [s2 [rjac rjac3b]].
      cbn [fst] in Ht2 |- *. rewrite Ht2. exact Ht.
Qed.

(** X6.  A temperature that is a NaN never hits the cache: [update_rates_T]
    recomputes everything, also when the cached temperature is that same
    NaN. *)
Theorem nan_temperature_always_recomputes (k : GasKinetics) :
  is_nan (temperature (thermo k)) = true →
  update_rates_T k = update_rates_T_full k.
Proof.
  intros Hnan. rewrite update_rates_T_cases.
  by rewrite (nan_ne_any _ (m_temp k) Hnan).
Qed.


(** ** Legacy reactions and the Jacobian queries *)

Lemma legacy_check_first {A} (name : string) (rest : M A) (k : GasKinetics) :
  m_legacy k ≠ [] →
  bind (checkLegacyRates name) (λ _, rest) k
  = (k, Throw (CanteraError_ name "Not supported for legacy (CTI/XML) input format.")).
Proof.
  intros H. unfold bind at 1. unfold checkLegacyRates, bind, gets, throw.
  destruct (m_legacy k); [done|reflexivity].
Qed.

(** X7.  A legacy reaction of a known type that the base class has added is
    recorded in [m_legacy] under the index of the last reaction, and from
    then on the Jacobian queries throw.  The helper for elementary legacy
    reactions belongs to the base class and is assumed to leave the list of
    reactions and [m_legacy] alone. *)
Theorem legacy_reaction_disables_jacobians (r : Reaction) (resize : bool)
    (k k1 : GasKinetics) :
  (∀ s, m_legacy (addElementaryReaction r s) = m_legacy s
        ∧ m_reactions (addElementaryReaction r s) = m_reactions s) →
  BulkKinetics_addReaction r resize k = (k1, Normal true) →
  usesLegacy r = true →
  type r ∈ legacy_reaction_types →
  let unsupported name :=
    CanteraError_ name "Not supported for legacy (CTI/XML) input format." in
  ∃ k', addReaction r resize k = (k', Normal true)
    ∧ m_reactions k' = m_reactions k1
    ∧ m_legacy k' = m_legacy k1 ++ [(nReactions k1 - 1)%nat]
    ∧ fwdRateConstants_ddT k'
      = (k', Throw (unsupported "GasKinetics::fwdRateConstants_ddT"))
    ∧ netRatesOfProgress_ddT k'
      = (k', Throw (unsupported "GasKinetics::netRatesOfProgress_ddT"))
    ∧ netRatesOfProgress_ddC k'
      = (k', Throw (unsupported "GasKinetics::netRatesOfProgress_ddC")).
Proof.
  intros Helem Hbase Hlegacy Hty unsupported.
  assert (∃ s, m_legacy s = m_legacy k1 ∧ m_reactions s = m_reactions k1
               ∧ addReaction r resize k
                 = (s<|m_legacy ::= λ l, l ++ [(nReactions s - 1)%nat]|>, Normal true))
    as (s & Hl & Hr & Hrun).
  { unfold addReaction. cbv beta iota delta [bind modify gets ret throw].
    rewrite Hbase, Hlegacy. cbv beta iota delta [negb].
    unfold legacy_reaction_types in Hty.
    repeat (apply elem_of_cons in Hty as [->|Hty]); [..|by apply elem_of_nil in Hty];
      cbn [String.eqb Ascii.eqb Bool.eqb];
      eexists; (split; [|split; [|reflexivity]]);
      first [reflexivity | apply Helem]. }
  exists (s<|m_legacy ::= λ l, l ++ [(nReactions s - 1)%nat]|>).
  assert (m_legacy (s<|m_legacy ::= λ l, l ++ [(nReactions s - 1)%nat]|>) ≠ []) as Hne.
  { change (m_legacy s ++ [(nReactions s - 1)%nat] ≠ []).
    intros H. by apply app_eq_nil in H as [_ ?]. }
  split; [exact Hrun|]. split; [exact Hr|]. split.
  { change (m_legacy s ++ [(nReactions s - 1)%nat]
            = m_legacy k1 ++ [(nReactions k1 - 1)%nat]).
    unfold nReactions. by rewrite Hl, Hr. }
  repeat split; by apply legacy_check_first.
Qed.

(** ** The concentration update, run twice *)

(** X8.  [update_rates_C] run twice at one state stores what it stores when
    run once: the second run rewrites the concentration caches with the
    values they hold.  Only the P-log and Chebyshev managers are handed the
    pressure a second time.  The third-body calculators are assumed to store
    fixed entries, as the library's do. *)
Theorem update_rates_C_twice (k : GasKinetics) :
  (∀ m c t, is_overwrite (MultiThirdBody_update m c t)) →
  (∀ m c t, is_overwrite (ThirdBodyCalc_update m c t)) →
  (∀ m w, is_overwrite (ThirdBodyCalc_copy m w)) →
  let k1 := update_rates_C k in
  update_rates_C k1
  = k1<|m_plog_rates := update_C_if_any (m_plog_rates k1) (log (pressure (thermo k)))|>
      <|m_cheb_rates := update_C_if_any (m_cheb_rates k1) (log10 (pressure (thermo k)))|>.
Proof.
  intros Hm Hu Hc k1.
  set (phys := std_copy (getConcentrations (thermo k)) (m_phys_conc k)).
  set (r0 := concm_pass (m_multi_concm k) (m_3b_concm k) (m_falloff_concm k) phys
               (molarDensity (thermo k))
               (concm_3b_values k, concm_falloff_values k, m_concm k)).
  rewrite (update_rates_C_settled k1).
  - reflexivity.
  - change (std_copy (getActivityConcentrations (thermo k))
              (std_copy (getActivityConcentrations (thermo k)) (m_act_conc k))
            = std_copy (getActivityConcentrations (thermo k)) (m_act_conc k)).
    apply std_copy_idemp.
  - change (std_copy (getConcentrations (thermo k)) phys = phys).
    apply std_copy_idemp.
  - change (concm_pass (m_multi_concm k) (m_3b_concm k) (m_falloff_concm k) phys
              (molarDensity (thermo k)) (r0.1.1, r0.1.2, r0.2)
            = (r0.1.1, r0.1.2, r0.2)).
    replace (r0.1.1, r0.1.2, r0.2) with r0 by (by destruct r0 as [[? ?] ?]).
    by apply concm_pass_idemp.
Qed.


(** ** The falloff index *)


(** X10.  [modifyFalloffReaction] finds the position of reaction [i] with
    [m_rfallindx[i]] on a [std::map].  For a falloff reaction it replaces
    the two rates and the falloff function at that position and leaves the
    index as it is.  For a reaction that is no falloff reaction the lookup
    inserts the key with position 0: the rates of the first falloff
    reaction are replaced, and the map keeps the new key. *)
Theorem modifyFalloffReaction_by_position (i : nat) (r : Reaction) (k : GasKinetics) :
  (∀ m j e, Rate1_nReactions (Rate1_replace m j e) = Rate1_nReactions m) →
  let k' := modifyFalloffReaction i r k in
  let replaced_at p :=
    k<|m_falloff_high_rates := Rate1_replace (m_falloff_high_rates k) p (high_rate r)|>
     <|m_falloff_low_rates := Rate1_replace (m_falloff_low_rates k) p (low_rate r)|>
     <|m_falloffn := FalloffMgr_replace (m_falloffn k) p (falloff r)|> in
  (∀ p, m_rfallindx k !! i = Some p →
     k' = replaced_at p ∧ (falloff_indexed k → falloff_indexed k'))
  ∧ (m_rfallindx k !! i = None →
     k' = (replaced_at 0%nat)<|m_rfallindx := <[i := 0%nat]> (m_rfallindx k)|>).
Proof.
  intros Hreplace k' replaced_at. split.
  - intros p Hp.
    assert (k' = replaced_at p) as Hk'.
    { subst k' replaced_at. unfold modifyFalloffReaction. cbv beta zeta. rewrite Hp.
      transitivity
        (k<|m_rfallindx := <[i := p]> (m_rfallindx k)|>
          <|m_falloff_high_rates := Rate1_replace (m_falloff_high_rates k) p (high_rate r)|>
          <|m_falloff_low_rates := Rate1_replace (m_falloff_low_rates k) p (low_rate r)|>
          <|m_falloffn := FalloffMgr_replace (m_falloffn k) p (falloff r)|>);
        [reflexivity|].
      rewrite (insert_id (m_rfallindx k) i p Hp). reflexivity. }
    split; [exact Hk'|].
    intros (Hlen & Hlow & Hhigh & Hlowv & Hbij). rewrite Hk'.
    unfold falloff_indexed, replaced_at.
    change (length (m_fallindx k)
              = Rate1_nReactions (Rate1_replace (m_falloff_high_rates k) p (high_rate r))
            ∧ Rate1_nReactions (Rate1_replace (m_falloff_low_rates k) p (low_rate r))
              = Rate1_nReactions (Rate1_replace (m_falloff_high_rates k) p (high_rate r))
            ∧ length (m_rfn_high k)
              = Rate1_nReactions (Rate1_replace (m_falloff_high_rates k) p (high_rate r))
            ∧ length (m_rfn_low k)
              = Rate1_nReactions (Rate1_replace (m_falloff_high_rates k) p (high_rate r))
            ∧ ∀ a b, m_fallindx k !! a = Some b ↔ m_rfallindx k !! b = Some a).
    rewrite !Hreplace. done.
  - intros Hnone. subst k' replaced_at. unfold modifyFalloffReaction.
    cbv beta zeta. rewrite Hnone. reflexivity.
Qed.

(** ** Adding and replacing reactions: the paths that install nothing *)

Lemma unknown_legacy_type (ty : string) :
  ty ∉ legacy_reaction_types →
  String.eqb ty "elementary-legacy" = false
  ∧ String.eqb ty "three-body-legacy" = false
  ∧ String.eqb ty "falloff-legacy" = false
  ∧ String.eqb ty "chemically-activated-legacy" = false
  ∧ String.eqb ty "pressure-dependent-Arrhenius-legacy" = false
  ∧ String.eqb ty "Chebyshev-legacy" = false.
Proof.
  intros H. unfold legacy_reaction_types in H.
  repeat (apply not_elem_of_cons in H as [? H]).
  repeat split; by apply String.eqb_neq.
Qed.

(** X11.  What [addReaction] does when it installs nothing.  An exception of
    the base class passes through; a reaction the base class did not add
    gives [false]; a reaction that is not a legacy reaction gives [true]; a
    legacy reaction of an unknown type throws, naming the type.  In each
    case the object is as the base class left it: on the last path the
    reaction stays added there although no rate was installed for it, and
    it is not recorded in [m_legacy]. *)
Theorem addReaction_installs_nothing (r : Reaction) (resize : bool) (k : GasKinetics) :
  match BulkKinetics_addReaction r resize k with
  | (k1, Throw e) => addReaction r resize k = (k1, Throw e)
  | (k1, Normal false) => addReaction r resize k = (k1, Normal false)
  | (k1, Normal true) =>
      (usesLegacy r = false → addReaction r resize k = (k1, Normal true))
      ∧ (usesLegacy r = true → type r ∉ legacy_reaction_types →
         addReaction r resize k
         = (k1, Throw (CanteraError_ "GasKinetics::addReaction"
                  ("Unknown reaction type specified: '" +:+ type r +:+ "'"))))
  end.
Proof.
  unfold addReaction. cbv beta iota delta [bind modify gets ret throw].
  destruct (BulkKinetics_addReaction r resize k) as [k1 [[]|e]]; [|reflexivity|reflexivity].
  split.
  - intros ->. reflexivity.
  - intros -> Hty.
    destruct (unknown_legacy_type _ Hty) as (-> & -> & -> & -> & -> & ->).
    reflexivity.
Qed.

(** X12.  What [modifyReaction] does when it replaces nothing of its own.
    When the base class throws, the exception passes through and the cache
    is not invalidated.  Otherwise the cache is invalidated first: a
    reaction that is not a legacy reaction then returns, and a legacy
    reaction of an unknown type throws, naming the type, with the
    invalidated object. *)
Theorem modifyReaction_replaces_nothing (i : nat) (rNew : Reaction) (k : GasKinetics) :
  match BulkKinetics_modifyReaction i rNew k with
  | (k1, Throw e) => modifyReaction i rNew k = (k1, Throw e)
  | (k1, Normal _) =>
      (usesLegacy rNew = false →
       modifyReaction i rNew k = (invalidateCache k1, Normal tt))
      ∧ (usesLegacy rNew = true → type rNew ∉ legacy_reaction_types →
         modifyReaction i rNew k
         = (invalidateCache k1,
            Throw (CanteraError_ "GasKinetics::modifyReaction"
                     ("Unknown reaction type specified: '" +:+ type rNew +:+ "'"))))
  end.
Proof.
  unfold modifyReaction. cbv beta iota delta [bind modify gets ret throw].
  destruct (BulkKinetics_modifyReaction i rNew k) as [k1 [[]|e]]; [|reflexivity].
  split.
  - intros ->. reflexivity.
  - intros -> Hty.
    destruct (unknown_legacy_type _ Hty) as (-> & -> & -> & -> & -> & ->).
    reflexivity.
Qed.

(** ** Third-body efficiencies *)

Lemma efficiencies_fold_skip (k : GasKinetics) (sp : nat)
    (l : list (string * float)) (m : gmap nat float) :
  Forall (λ e, kineticsSpeciesIndex k e.1 ≠ Some sp) l →
  foldl (λ (m : gmap nat float) (eff : string * float),
           match kineticsSpeciesIndex k eff.1 with
           | Some sp => <[sp := eff.2]> m
           | None => m
           end) m l !! sp = m !! sp.
Proof.
  revert m. induction l as [|e l IH]; intros m Hl; [done|].
  apply Forall_cons in Hl as [He Hl]. cbn. rewrite IH by done.
  destruct (kineticsSpeciesIndex k e.1) as [sp'|]; [|done].
  rewrite lookup_insert_ne; [done|]. intros ->. done.
Qed.

(** X13.  The efficiency map that [addThreeBodyReaction] and
    [addFalloffReaction] hand to the third-body calculator: a species named
    in the reaction but unknown to the kinetics object is dropped, and of
    several entries for one species the last one counts. *)
Theorem efficiencies_by_index_lookup (k : GasKinetics) (r : Reaction) (sp : nat) :
  (Forall (λ e, kineticsSpeciesIndex k e.1 ≠ Some sp) (efficiencies (third_body r)) →
   efficiencies_by_index k r !! sp = None)
  ∧ (∀ l1 e l2,
       efficiencies (third_body r) = l1 ++ e :: l2 →
       kineticsSpeciesIndex k e.1 = Some sp →
       Forall (λ e', kineticsSpeciesIndex k e'.1 ≠ Some sp) l2 →
       efficiencies_by_index k r !! sp = Some e.2).
Proof.
  unfold efficiencies_by_index. split.
  - intros Hl. by rewrite efficiencies_fold_skip.
  - intros l1 e l2 -> He Hl2. rewrite foldl_app. cbn.
    rewrite efficiencies_fold_skip by done. rewrite He.
    apply lookup_insert_eq.
Qed.


(** ** Temperature derivatives *)

(** What [getEquilibriumConstants] leaves alone. *)
Lemma getEquilibriumConstants_frame (kc : vector_fp) (k : GasKinetics) :
  ∃ rfn rfn_low rfn_high work grt rkcn ok rates,
    (getEquilibriumConstants kc k).1
    = k<|m_logStandConc := log (standardConcentration (thermo k))|>
       <|m_rfn := rfn|><|m_rfn_low := rfn_low|><|m_rfn_high := rfn_high|>
       <|falloff_work := work|><|m_grt := grt|><|m_rkcn := rkcn|>
       <|m_ROP_ok := ok|><|m_bulk_rates := rates|>
       <|m_pres := pressure (thermo k)|><|m_temp := 0|>.
Proof.
  unfold getEquilibriumConstants. cbv zeta.
  destruct (update_rates_T_frame k) as (rfn&rl&rh&w&g&rk&ok&rates&->).
  cbn. do 8 eexists.
  reflexivity.
Qed.

Lemma for_loop_length_preserved (body : nat → vector_fp → vector_fp) n (v : vector_fp) :
  (∀ i u, length (body i u) = length u) →
  length (for_loop n body v) = length v.
Proof.
  intros Hbody. induction n as [|n IH]; [done|]. by rewrite for_loop_S, Hbody.
Qed.

(** X14.  [processEquilibriumConstants_ddT], called on [m_rbuf2]: the scaled
    derivative it leaves is exactly 0 for every irreversible reaction,
    whatever the two evaluations of the equilibrium constants gave (also a
    division of zero by zero); the state provider has been set to the
    perturbed temperature and then back to the temperature and pressure
    read at the start; and the cached temperature is left 0, so that the
    next update recomputes.  The buffer keeps its length. *)
Theorem processEquilibriumConstants_ddT_effects (k : GasKinetics) :
  let T := temperature (thermo k) in
  let P := pressure (thermo k) in
  let k' := processEquilibriumConstants_ddT p_rbuf2 k in
  m_temp k' = 0
  ∧ thermo k'
    = setState_TP (setState_TP (thermo k) (T * (1 + m_jac_rtol_deltaT k)) P) T P
  ∧ length (m_rbuf2 k') = length (m_rbuf2 k)
  ∧ ∀ j, j ∈ m_irrev k → (j < length (m_rbuf2 k))%nat → m_rbuf2 k' !!! j = 0.
Proof.
  intros T P k'. subst k'. unfold processEquilibriumConstants_ddT. cbv zeta.
  fold T P.
  set (ka := k<|thermo ::= λ th, setState_TP th (T * (1 + m_jac_rtol_deltaT k)) P|>).
  pose proof (getEquilibriumConstants_frame (m_rbuf1 ka) ka) as Fb.
  destruct (getEquilibriumConstants (m_rbuf1 ka) ka) as [kb kc1].
  cbn [fst] in Fb. destruct Fb as (a1&a2&a3&a4&a5&a6&a7&a8&->).
  cbv beta iota.
  match goal with |- context [getEquilibriumConstants ?kc ?s] =>
    pose proof (getEquilibriumConstants_frame kc s) as Fe;
    destruct (getEquilibriumConstants kc s) as [ke kc0] end.
  cbn [fst] in Fe. destruct Fe as (b1&b2&b3&b4&b5&b6&b7&b8&->).
  cbv beta iota.
  match goal with |- m_temp ?R = 0 ∧ _ => set (res := R) end.
  set (v1 := for_loop (nReactions k) (λ i (v : vector_fp),
               <[i := <[i := v !!! i * ((kc0 !!! i - kc1 !!! i)
                                        * (1 / (m_jac_rtol_deltaT k * T)))]> v !!! i
                      / kc0 !!! i]>
                 (<[i := v !!! i * ((kc0 !!! i - kc1 !!! i)
                                    * (1 / (m_jac_rtol_deltaT k * T)))]> v))
               (m_rbuf2 k)).
  assert (m_rbuf2 res
          = for_loop (length (m_irrev k))
              (λ i v, scatter_body (λ _ _, 0) v (m_irrev k !!! i)) v1) as Hbuf
    by reflexivity.
  assert (length v1 = length (m_rbuf2 k)) as Hl1.
  { apply for_loop_length_preserved. intros i u. by rewrite !length_insert. }
  rewrite for_loop_scatter in Hbuf.
  split; [reflexivity|]. split; [reflexivity|]. split.
  - rewrite Hbuf. by rewrite scatter_length.
  - intros j Hj Hlen. rewrite Hbuf.
    apply (scatter_lookup_in_const (λ _ _, 0) _ _ _ (λ _ _ _, eq_refl) Hj
             ltac:(by rewrite Hl1) 0).
Qed.

Lemma processEquilibriumConstants_ddT_frame (k : GasKinetics) :
  let k' := processEquilibriumConstants_ddT p_rbuf2 k in
  m_jac_const_pressure k' = m_jac_const_pressure k
  ∧ m_reactions k' = m_reactions k
  ∧ m_ropr k' = m_ropr k
  ∧ m_revProductStoich k' = m_revProductStoich k
  ∧ m_jac_rtol_deltaT k' = m_jac_rtol_deltaT k
  ∧ m_jac_atol_deltaT k' = m_jac_atol_deltaT k.
Proof.
  intros k'. subst k'. unfold processEquilibriumConstants_ddT. cbv zeta.
  match goal with |- context [getEquilibriumConstants ?kc ?s] =>
    pose proof (getEquilibriumConstants_frame kc s) as Fb;
    destruct (getEquilibriumConstants kc s) as [kb kc1] end.
  cbn [fst] in Fb. destruct Fb as (a1&a2&a3&a4&a5&a6&a7&a8&->).
  cbv beta iota.
  match goal with |- context [getEquilibriumConstants ?kc ?s] =>
    pose proof (getEquilibriumConstants_frame kc s) as Fe;
    destruct (getEquilibriumConstants kc s) as [ke kc0] end.
  cbn [fst] in Fe. destruct Fe as (b1&b2&b3&b4&b5&b6&b7&b8&->).
  cbv beta iota. repeat split; reflexivity.
Qed.

(** [processConcentrations_ddT] on [m_rbuf1] does not read [m_rbuf2]. *)
Lemma processConcentrations_ddT_ignores_rbuf2 (s : GasKinetics)
    (g : vector_fp → vector_fp) :
  m_rbuf1 (processConcentrations_ddT p_rbuf1 (s<|m_rbuf2 ::= g|>))
  = m_rbuf1 (processConcentrations_ddT p_rbuf1 s).
Proof.
  unfold processConcentrations_ddT.
  change (thermo_type (thermo (s<|m_rbuf2 ::= g|>))) with (thermo_type (thermo s)).
  destruct (String.eqb (thermo_type (thermo s)) "IdealGas"); reflexivity.
Qed.

Lemma bind_normal {A B} (m : M A) (f : A → M B) (k k1 : GasKinetics) (a : A) :
  m k = (k1, Normal a) → bind m f k = f a k1.
Proof. intros H. unfold bind. rewrite H. reflexivity. Qed.

Lemma checkLegacyRates_normal (name : string) (k : GasKinetics) :
  m_legacy k = [] → checkLegacyRates name k = (k, Normal tt).
Proof.
  intros H. unfold checkLegacyRates, bind, gets, ret. rewrite H. reflexivity.
Qed.

(** X15.  At constant pressure, [revRatesOfProgress_ddT] computes the term
    for third-body colliders into [m_rbuf2] and never adds it: what it
    returns is the derivative through the rate constants, plus the
    derivative through the equilibrium constants, plus the term for the
    change of the concentrations computed from the stoichiometry manager
    alone.  Neither [processRateConstants_ddM] nor [scaleOrder] contributes
    to the result. *)
Theorem revRatesOfProgress_ddT_adds_no_third_body_term (k k1 : GasKinetics) :
  m_legacy k = [] →
  updateROP k = (k1, Normal tt) →
  m_jac_const_pressure k1 = true →
  let n := nReactions k1 in
  let dRevRop :=
    bulk_rates_apply MultiRate_processRateConstants_ddT (m_jac_rtol_deltaT k1) k1
      (std_copy (m_ropr k1) (replicate n 0)) in
  let k2 := processEquilibriumConstants_ddT p_rbuf2
              (k1<|m_rbuf2 ::= std_copy (m_ropr k1)|>) in
  let k3 := k2<|m_rbuf1 :=
                  in_place (StoichManagerN_scale (m_revProductStoich k1) (m_ropr k1))
                    (std_copy (replicate n 0) (m_rbuf1 k2))|> in
  (revRatesOfProgress_ddT k).2
  = Normal (vec_add (vec_add dRevRop (take n (m_rbuf2 k2)))
              (take n (m_rbuf1 (processConcentrations_ddT p_rbuf1 k3)))).
Proof.
  intros Hlegacy Hrun Hcp n dRevRop k2 k3.
  unfold revRatesOfProgress_ddT.
  rewrite (bind_normal _ _ k k tt (checkLegacyRates_normal _ k Hlegacy)).
  rewrite (bind_normal _ _ k k1 tt Hrun).
  cbv beta zeta.
  destruct (processEquilibriumConstants_ddT_frame (k1<|m_rbuf2 ::= std_copy (m_ropr k1)|>))
    as (Ecp & _ & Eropr & Est & _ & _).
  fold k2 in Ecp, Eropr, Est.
  change (m_jac_const_pressure k2 = m_jac_const_pressure k1) in Ecp.
  change (m_ropr k2 = m_ropr k1) in Eropr.
  change (m_revProductStoich k2 = m_revProductStoich k1) in Est.
  fold k2. fold n. subst k3 dRevRop.
  revert Ecp Eropr Est. generalize k2. clear k2. intros k2 Ecp Eropr Est.
  rewrite Ecp, Hcp. cbv beta iota delta [snd].
  rewrite !processConcentrations_ddT_ignores_rbuf2.
  rewrite <- Est, <- Eropr. reflexivity.
Qed.

End Extras.

(** * The properties on the concrete mechanism *)

#[local] Existing Instance Demo.collab.
#[local] Existing Instance Demo.base.

(** ** The concrete collaborators behave as the library's *)

Lemma demo_multi_third_body_overwrites (m : MultiThirdBody (Collaborators := Demo.collab))
    (c : vector_fp) (t : float) :
  is_overwrite (MultiThirdBody_update m c t).
Proof. eexists. intros b. reflexivity. Qed.

Lemma demo_third_body_update_overwrites (m : ThirdBodyCalc (Collaborators := Demo.collab))
    (c : vector_fp) (t : float) :
  is_overwrite (ThirdBodyCalc_update m c t).
Proof. eexists. intros b. reflexivity. Qed.

Lemma demo_third_body_copy_overwrites (m : ThirdBodyCalc (Collaborators := Demo.collab))
    (w : vector_fp) :
  is_overwrite (ThirdBodyCalc_copy m w).
Proof. eexists. intros b. reflexivity. Qed.

Lemma demo_lindemann_entrywise (m n : nat) (work pr pr' : vector_fp) :
  length pr = length pr' →
  (∀ i, (i < n)%nat → pr !!! i = pr' !!! i) →
  ∀ i, (i < n)%nat →
    in_place (λ pr, Demo.lindemann m pr work) pr !!! i
    = in_place (λ pr, Demo.lindemann m pr work) pr' !!! i.
Proof.
  intros Hlen Hpr i Hi.
  assert (∀ v : vector_fp,
            in_place (λ pr, Demo.lindemann m pr work) v
            = for_loop m (elementwise_body (λ _ x, x / (1 + x))) v) as Hin.
  { intros v. unfold in_place. apply std_copy_same_length.
    exact (elementwise_length _ _ _). }
  rewrite !Hin, !elementwise_lookup_total, Hlen, (Hpr i Hi). reflexivity.
Qed.

Lemma demo_mech_reversibility_indexed :
  reversibility_indexed (collab := Demo.collab) Demo.mech.
Proof.
  split.
  - apply (bool_decide_unpack _). vm_compute. exact I.
  - intros i r Hi.
    assert (m_reactions Demo.mech
            = [Demo.r_elementary; Demo.r_three_body; Demo.r_falloff]) as Hrx
      by (vm_compute; reflexivity).
    assert (m_revindex Demo.mech = [1; 2]%nat) as -> by (vm_compute; reflexivity).
    assert (m_irrev Demo.mech = [0]%nat) as -> by (vm_compute; reflexivity).
    rewrite Hrx in Hi.
    destruct i as [|[|[|i]]]; cbn in Hi; [| | |done]; injection Hi as <-;
      cbn [reversible Demo.r_elementary Demo.r_three_body Demo.r_falloff Demo.mk_reaction];
      try split; apply (bool_decide_unpack _); vm_compute; exact I.
Qed.

(** ** C1 on the mechanism *)

Lemma updateKc_reverse_rate_multiplier_demo :
  let k := Demo.mech in
  let grt := std_copy (getStandardChemPotentials (thermo k)) (m_grt k) in
  let k0 := k<|m_grt := grt|><|m_rkcn := std_fill (m_rkcn k) 0|> in
  let dG := in_place (getRevReactionDelta (BaseKinetics := Demo.base) k0 grt)
              (std_fill (m_rkcn k) 0) in
  m_rkcn (updateKc (base := Demo.base) k) !!! 1%nat
  = std_min (exp (dG !!! 1%nat * (1 / RT (thermo k))
                  - m_dn k !!! 1%nat * m_logStandConc k)) BigNumber
  ∧ m_rkcn (updateKc (base := Demo.base) k) !!! 0%nat = 0.
Proof.
  split.
  - apply (updateKc_reverse_rate_multiplier (base := Demo.base) Demo.mech
             demo_mech_reversibility_indexed ltac:(vm_compute; lia)
             1%nat Demo.r_three_body).
    vm_compute. reflexivity.
  - apply (updateKc_reverse_rate_multiplier (base := Demo.base) Demo.mech
             demo_mech_reversibility_indexed ltac:(vm_compute; lia)
             0%nat Demo.r_elementary).
    vm_compute. reflexivity.
Defined.

(** ** C2 on the mechanism: its falloff reaction is the third reaction *)

Lemma falloff_effective_rate_constant_demo :
  let k := Demo.fwd_ready in
  let k' := (processFalloffReactions p_ropf k).1 in
  let n := Rate1_nReactions (m_falloff_low_rates k) in
  let pr := for_loop n (elementwise_body (λ i _, reduced_pressure k i)) (m_ropr k) in
  let blended :=
    in_place (λ pr, FalloffMgr_pr_to_falloff (m_falloffn k) pr (falloff_work k)) pr in
  pr !!! 0%nat = concm_falloff_values k !!! 0%nat * m_rfn_low k !!! 0%nat
                 / (m_rfn_high k !!! 0%nat + SmallNumber)
  ∧ (reactionTypeStr k (m_fallindx k !!! 0%nat) = "falloff-legacy" →
     deref p_ropf k' !!! (m_fallindx k !!! 0%nat)
     = blended !!! 0%nat * m_rfn_high k !!! 0%nat)
  ∧ (reactionTypeStr k (m_fallindx k !!! 0%nat) = "chemically-activated-legacy" →
     deref p_ropf k' !!! (m_fallindx k !!! 0%nat)
     = blended !!! 0%nat * m_rfn_low k !!! 0%nat).
Proof.
  intros k k' n pr blended.
  assert (n = 1%nat) as Hn by (vm_compute; reflexivity).
  apply (falloff_effective_rate_constant p_ropf k k').
  - discriminate.
  - vm_compute. lia.
  - fold n. rewrite Hn. intros a b Ha Hb _. lia.
  - fold n. rewrite Hn. intros i Hi. assert (i = 0%nat) as -> by lia.
    vm_compute. lia.
  - vm_compute. reflexivity.
  - vm_compute. lia.
Defined.

(** ** C3 on the mechanism *)


(** ** C4: a pressure difference alone recomputes nothing here

    The mechanism has been evaluated at 1000 K and 101325 Pa; the state is
    then set to twice the pressure.  [update_rates_T] stores the new
    pressure and nothing else: no rate constant is re-evaluated, and the
    flag that the rates of progress are up to date stays set, where the
    path that recomputes everything clears it. *)
Lemma pressure_change_alone_recomputes_nothing :
  let k := Demo.repressurised in
  fne (temperature (thermo k)) (m_temp k) = false
  ∧ fne (pressure (thermo k)) (m_pres k) = true
  ∧ update_rates_T k
    = k<|m_logStandConc := log (standardConcentration (thermo k))|>
       <|m_pres := pressure (thermo k)|>
  ∧ m_ROP_ok (update_rates_T k) = true
  ∧ m_ROP_ok (update_rates_T_full k) = false.
Proof. vm_compute. repeat split; reflexivity. Qed.

(** ** C5 on the mechanism: the first reaction is replaced, a fourth added *)


(** ** C6: the message for a reduced pressure names a position in the
    falloff list

    The third reaction of this mechanism, index 2, is its only falloff
    reaction, position 0 in the falloff list.  Its high-pressure limit is
    zero and its reduced pressure infinite; the error names [pr[0]]. *)
Lemma reduced_pressure_error_names_falloff_position :
  (updateROP Demo.mech_zero).2
  = Throw (CanteraError_ "GasKinetics::processFalloffReactions" "pr[0] is not finite.")
  ∧ m_fallindx Demo.mech_zero = [2%nat]
  ∧ reactionTypeStr Demo.mech_zero 2 = "falloff-legacy"
  ∧ reactionTypeStr Demo.mech_zero 0 = "elementary-legacy".
Proof. vm_compute. repeat split; reflexivity. Qed.

(** ** C7 on the mechanism *)

Lemma updateROP_idempotent_demo :
  ∃ k2, updateROP Demo.evaluated = (k2, Normal tt)
    ∧ m_rfn k2 = m_rfn Demo.evaluated ∧ m_ropf k2 = m_ropf Demo.evaluated
    ∧ m_ropr k2 = m_ropr Demo.evaluated ∧ m_ropnet k2 = m_ropnet Demo.evaluated.
Proof.
  apply (updateROP_idempotent Demo.mech Demo.evaluated).
  - exact demo_multi_third_body_overwrites.
  - exact demo_third_body_update_overwrites.
  - exact demo_third_body_copy_overwrites.
  - intros r s s' _. vm_compute. reflexivity.
  - intros work. exact (demo_lindemann_entrywise _ _ work).
  - vm_compute. reflexivity.
  - vm_compute. reflexivity.
  - vm_compute. lia.
  - vm_compute. lia.
  - vm_compute. lia.
  - vm_compute. reflexivity.
Defined.

(** ** C8 on the concrete option bag *)

Lemma skip_falloff_default_and_not_overridable_demo :
  (∃ k', GasKinetics_ctor Demo.blank = (k', Normal tt) ∧ m_jac_skip_falloff k' = true)
  ∧ ∃ k',
      setJacobianSettings Demo.settings_off Demo.mech
      = (k', Throw (NotImplementedError "GasKinetics::setJacobianSettings"
           "Derivative term related to reaction rate dependence on third bodies is not implemented."))
      ∧ m_jac_skip_falloff k' = true
      ∧ m_jac_rtol_deltaT k' = m_jac_rtol_deltaT Demo.mech.
Proof.
  destruct (skip_falloff_default_and_not_overridable (collab := Demo.collab)
              eq_refl eq_refl) as [Hctor Hset].
  split.
  - exact (Hctor Demo.blank).
  - exact (Hset Demo.settings_off Demo.mech eq_refl eq_refl).
Defined.

(** ** C9 on the mechanism: all its reactions are legacy reactions *)

Lemma jacobian_queries_reject_legacy_demo :
  let k := Demo.mech in
  let unsupported name :=
    CanteraError_ name "Not supported for legacy (CTI/XML) input format." in
  fwdRateConstants_ddT k = (k, Throw (unsupported "GasKinetics::fwdRateConstants_ddT"))
  ∧ fwdRatesOfProgress_ddT k = (k, Throw (unsupported "GasKinetics::fwdRatesOfProgress_ddT"))
  ∧ revRatesOfProgress_ddT k = (k, Throw (unsupported "GasKinetics::revRatesOfProgress_ddT"))
  ∧ netRatesOfProgress_ddT k = (k, Throw (unsupported "GasKinetics::netRatesOfProgress_ddT"))
  ∧ fwdRatesOfProgress_ddC k = (k, Throw (unsupported "GasKinetics::fwdRatesOfProgress_ddC"))
  ∧ revRatesOfProgress_ddC k = (k, Throw (unsupported "GasKinetics::revRatesOfProgress_ddC"))
  ∧ netRatesOfProgress_ddC k = (k, Throw (unsupported "GasKinetics::netRatesOfProgress_ddC")).
Proof.
  apply (jacobian_queries_reject_legacy Demo.mech).
  intros Hnil. vm_compute in Hnil. discriminate Hnil.
Defined.

(** * The further properties on the concrete mechanism *)

(** The concrete option bag is a key-value bag. *)
Lemma demo_option_bag_laws : AnyMap_laws (collab := Demo.collab).
Proof.
  unfold AnyMap_laws.
  cbn [hasKey getBool getDouble setBool setDouble Demo.collab].
  unfold Demo.bag_getBool, Demo.bag_getDouble.
  repeat split; intros; cbn [Demo.bag_get fst snd];
    rewrite ?String.eqb_refl; try reflexivity;
    match goal with H : _ ≠ _ |- _ => apply String.eqb_neq in H; rewrite H end;
    reflexivity.
Qed.


Lemma demo_replace_counts (m : Rate1 (Collaborators := Demo.collab)) (j : nat)
    (e : RateExpr (Collaborators := Demo.collab)) :
  Rate1_nReactions (Rate1_replace m j e) = Rate1_nReactions m.
Proof. exact (List.length_map _ m). Qed.


(** ** X2 on the blank object *)

Lemma GasKinetics_ctor_defaults_demo :
  GasKinetics_ctor Demo.blank
  = (Demo.blank<|m_logStandConc := 0|><|m_pres := 0|>
      <|m_jac_const_pressure := true|><|m_jac_mole_fractions := true|>
      <|m_jac_skip_third_bodies := false|><|m_jac_skip_falloff := true|>
      <|m_jac_rtol_deltaT := 1e-6|>, Normal tt).
Proof.
  apply (GasKinetics_ctor_defaults Demo.blank);
    [reflexivity | intros; reflexivity | intros; reflexivity].
Defined.

(** ** X3: the settings of the mechanism, given to the blank object *)

Lemma jacobian_settings_round_trip_demo :
  setJacobianSettings (getJacobianSettings AnyMap_new Demo.mech) Demo.blank
  = (Demo.blank<|m_jac_const_pressure := m_jac_const_pressure Demo.mech|>
       <|m_jac_mole_fractions := m_jac_mole_fractions Demo.mech|>
       <|m_jac_skip_third_bodies := m_jac_skip_third_bodies Demo.mech|>
       <|m_jac_skip_falloff := true|>
       <|m_jac_rtol_deltaT := m_jac_rtol_deltaT Demo.mech|>, Normal tt).
Proof.
  apply (jacobian_settings_round_trip AnyMap_new Demo.mech Demo.blank
           demo_option_bag_laws).
  vm_compute. reflexivity.
Defined.

(** ** X5 on a mechanism without legacy reactions *)

Lemma rate_coefficient_queries_clear_flag_demo :
  let k := Demo.mech_modern in
  (∀ kfwd, m_ROP_ok (getFwdRateConstants kfwd k).1 = false)
  ∧ m_ROP_ok (fwdRatesOfProgress_ddC k).1 = false
  ∧ m_ROP_ok (revRatesOfProgress_ddC k).1 = false
  ∧ m_ROP_ok (netRatesOfProgress_ddC k).1 = false.
Proof.
  destruct (rate_coefficient_queries_clear_flag Demo.mech_modern) as [Hk Hjac].
  split; [exact Hk|]. apply Hjac. vm_compute. reflexivity.
Defined.

(** ** X6: the cached temperature is the NaN of the state provider *)

Lemma nan_temperature_always_recomputes_demo :
  update_rates_T Demo.evaluated_nan = update_rates_T_full Demo.evaluated_nan.
Proof.
  apply (nan_temperature_always_recomputes Demo.evaluated_nan).
  vm_compute. reflexivity.
Defined.

(** ** X7: the first reaction added to a new object is a legacy reaction *)

Lemma legacy_reaction_disables_jacobians_demo :
  let k := (GasKinetics_ctor Demo.blank).1 in
  let k1 := Demo.base_addReaction Demo.r_elementary k in
  let unsupported name :=
    CanteraError_ name "Not supported for legacy (CTI/XML) input format." in
  ∃ k', addReaction Demo.r_elementary true k = (k', Normal true)
    ∧ m_reactions k' = m_reactions k1
    ∧ m_legacy k' = m_legacy k1 ++ [(nReactions k1 - 1)%nat]
    ∧ fwdRateConstants_ddT k'
      = (k', Throw (unsupported "GasKinetics::fwdRateConstants_ddT"))
    ∧ netRatesOfProgress_ddT k'
      = (k', Throw (unsupported "GasKinetics::netRatesOfProgress_ddT"))
    ∧ netRatesOfProgress_ddC k'
      = (k', Throw (unsupported "GasKinetics::netRatesOfProgress_ddC")).
Proof.
  intros k k1.
  apply (legacy_reaction_disables_jacobians Demo.r_elementary true k k1).
  - intros s. split; reflexivity.
  - reflexivity.
  - reflexivity.
  - apply list_elem_of_here.
Defined.

(** ** X8 on the mechanism *)

Lemma update_rates_C_twice_demo :
  let k := Demo.mech in
  let k1 := update_rates_C k in
  update_rates_C k1
  = k1<|m_plog_rates := update_C_if_any (m_plog_rates k1) (log (pressure (thermo k)))|>
      <|m_cheb_rates := update_C_if_any (m_cheb_rates k1) (log10 (pressure (thermo k)))|>.
Proof.
  apply (update_rates_C_twice Demo.mech).
  - exact demo_multi_third_body_overwrites.
  - exact demo_third_body_update_overwrites.
  - exact demo_third_body_copy_overwrites.
Defined.

(** ** X9: a second falloff reaction, the fourth reaction of the mechanism *)


(** ** X10: the falloff reaction of the mechanism, and its first reaction *)

Lemma modifyFalloffReaction_by_position_demo :
  (let k := Demo.mech in
   let k' := modifyFalloffReaction 2 Demo.r_falloff_zero k in
   k' = k<|m_falloff_high_rates :=
             Rate1_replace (m_falloff_high_rates k) 0 (high_rate Demo.r_falloff_zero)|>
         <|m_falloff_low_rates :=
             Rate1_replace (m_falloff_low_rates k) 0 (low_rate Demo.r_falloff_zero)|>
         <|m_falloffn := FalloffMgr_replace (m_falloffn k) 0 (falloff Demo.r_falloff_zero)|>)
  ∧ (let k := Demo.mech in
     let k' := modifyFalloffReaction 0 Demo.r_falloff_zero k in
     m_rfallindx k' !! 0%nat = Some 0%nat
     ∧ m_falloff_high_rates k'
       = Rate1_replace (m_falloff_high_rates k) 0 (high_rate Demo.r_falloff_zero)).
Proof.
  split.
  - intros k k'.
    destruct (modifyFalloffReaction_by_position 2 Demo.r_falloff_zero Demo.mech
                demo_replace_counts) as [Hfound _].
    destruct (Hfound 0%nat ltac:(vm_compute; reflexivity)) as [Hk' _].
    exact Hk'.
  - intros k k'.
    destruct (modifyFalloffReaction_by_position 0 Demo.r_falloff_zero Demo.mech
                demo_replace_counts) as [_ Hmiss].
    specialize (Hmiss ltac:(vm_compute; reflexivity)).
    assert (k' = _) as -> by exact Hmiss.
    split; [apply lookup_insert_eq|reflexivity].
Defined.

(** ** X11 and X12: a legacy reaction of a type the object does not know *)

Lemma addReaction_installs_nothing_demo :
  let r := Demo.mk_reaction "surface-legacy" false 1 0 0 in
  addReaction r true Demo.mech
  = (Demo.base_addReaction r Demo.mech,
     Throw (CanteraError_ "GasKinetics::addReaction"
              "Unknown reaction type specified: 'surface-legacy'"))
  ∧ m_legacy (addReaction r true Demo.mech).1 = m_legacy Demo.mech
  ∧ nReactions (addReaction r true Demo.mech).1 = S (nReactions Demo.mech).
Proof.
  intros r.
  pose proof (addReaction_installs_nothing r true Demo.mech) as H.
  change (BulkKinetics_addReaction r true Demo.mech)
    with (Demo.base_addReaction r Demo.mech, @Normal bool true) in H.
  cbv beta iota in H. destruct H as [_ H].
  assert (addReaction r true Demo.mech
          = (Demo.base_addReaction r Demo.mech,
             Throw (CanteraError_ "GasKinetics::addReaction"
                      "Unknown reaction type specified: 'surface-legacy'"))) as Hrun.
  { apply H; [reflexivity|].
    apply (bool_decide_unpack _). vm_compute. exact I. }
  split; [exact Hrun|]. rewrite Hrun. split; vm_compute; reflexivity.
Defined.

Lemma modifyReaction_replaces_nothing_demo :
  let r := Demo.mk_reaction "surface-legacy" false 1 0 0 in
  modifyReaction 0 r Demo.evaluated
  = (invalidateCache (Demo.base_modifyReaction 0 r Demo.evaluated).1,
     Throw (CanteraError_ "GasKinetics::modifyReaction"
              "Unknown reaction type specified: 'surface-legacy'")).
Proof.
  intros r.
  pose proof (modifyReaction_replaces_nothing 0 r Demo.evaluated) as H.
  change (BulkKinetics_modifyReaction 0 r Demo.evaluated)
    with ((Demo.base_modifyReaction 0 r Demo.evaluated).1, @Normal unit tt) in H.
  cbv beta iota in H. destruct H as [_ H].
  apply H; [reflexivity|].
  apply (bool_decide_unpack _). vm_compute. exact I.
Defined.

(** ** X14 on the mechanism: its first reaction is irreversible *)

Lemma processEquilibriumConstants_ddT_effects_demo :
  let k' := processEquilibriumConstants_ddT p_rbuf2 Demo.mech in
  m_temp k' = 0
  ∧ m_rbuf2 k' !!! 0%nat = 0
  ∧ temperature (thermo k') = 1000
  ∧ pressure (thermo k') = 101325.
Proof.
  intros k'.
  destruct (processEquilibriumConstants_ddT_effects Demo.mech) as (Ht & Hth & _ & Hirr).
  fold k' in Ht, Hth, Hirr.
  split; [exact Ht|]. split.
  - apply Hirr.
    + assert (m_irrev Demo.mech = [0%nat]) as -> by (vm_compute; reflexivity).
      apply list_elem_of_here.
    + vm_compute. lia.
  - rewrite Hth. split; vm_compute; reflexivity.
Defined.

(** ** X15 on a mechanism without legacy reactions *)

Lemma revRatesOfProgress_ddT_adds_no_third_body_term_demo :
  let k1 := (updateROP Demo.mech_modern).1 in
  let n := nReactions k1 in
  let dRevRop :=
    bulk_rates_apply MultiRate_processRateConstants_ddT (m_jac_rtol_deltaT k1) k1
      (std_copy (m_ropr k1) (replicate n 0)) in
  let k2 := processEquilibriumConstants_ddT p_rbuf2
              (k1<|m_rbuf2 ::= std_copy (m_ropr k1)|>) in
  let k3 := k2<|m_rbuf1 :=
                  in_place (StoichManagerN_scale (m_revProductStoich k1) (m_ropr k1))
                    (std_copy (replicate n 0) (m_rbuf1 k2))|> in
  (revRatesOfProgress_ddT Demo.mech_modern).2
  = Normal (vec_add (vec_add dRevRop (take n (m_rbuf2 k2)))
              (take n (m_rbuf1 (processConcentrations_ddT p_rbuf1 k3)))).
Proof.
  apply (revRatesOfProgress_ddT_adds_no_third_body_term Demo.mech_modern
           (updateROP Demo.mech_modern).1);
    vm_compute; reflexivity.
Defined.
